(** * Multicast sender / receiver (multicast.c, multicast6.c)

    A shallow embedding of the two test programs of the repository and the
    properties their specification states about them.

    The two programs are interactive and never return: each thread is an
    endless loop around a blocking system call.  They are modelled as
    interaction trees over one event type, [sysE], whose events are the
    calls the C code makes to the operating system; what the kernel answers
    is left to the environment.  The library's trace semantics
    ([ITree.Interp.Traces]) gives the set of finite observations of a
    program, and the properties are stated over it. *)

From Stdlib Require Import ZArith List String Ascii Bool Lia Wf_nat.
From Stdlib Require Import Morphisms Setoid.
From ITree Require Import ITree ITreeFacts Interp.Traces.
Import ListNotations.
Import ITreeNotations.

Local Open Scope string_scope.
Local Open Scope list_scope.
Local Open Scope itree_scope.
Local Open Scope Z_scope.

Set Implicit Arguments.

(* ===================================================================== *)
(** * The C library routines the programs call
    None of these is code of the repository; each one is modelled after the
    C standard and the GNU C library's algorithm, on the "C" locale (the
    programs never call [setlocale]). *)
(* ===================================================================== *)

Module Libc.

(** ** Integer types *)

Definition INT_MAX : Z := 2147483647.
Definition INT_MIN : Z := -2147483648.
Definition LONG_MAX : Z := 9223372036854775807.
Definition LONG_MIN : Z := -9223372036854775808.

(** Conversion to [int]: two's complement wrap-around on 32 bits. *)
Definition to_int (z : Z) : Z := (z + 2147483648) mod 4294967296 - 2147483648.

(** Conversion to [unsigned short] / [uint16_t]. *)
Definition to_uint16 (z : Z) : Z := z mod 65536.

(** Conversion to [size_t] (64 bits). *)
Definition to_size_t (z : Z) : Z := z mod 18446744073709551616.

(** ** Byte order
    [htons], [ntohs] and [htonl] swap bytes on a little-endian host and are
    the identity on a big-endian one (the sources name both x86 and PPC). *)

Class Host := { big_endian : bool }.

Definition little_endian_host : Host := {| big_endian := false |}.
Definition big_endian_host : Host := {| big_endian := true |}.

Definition bswap16 (x : Z) : Z :=
  Z.lor (Z.shiftl (Z.land x 255) 8) (Z.land (Z.shiftr x 8) 255).

Definition bswap32 (x : Z) : Z :=
  Z.lor (Z.lor (Z.shiftl (Z.land x 255) 24)
               (Z.shiftl (Z.land (Z.shiftr x 8) 255) 16))
        (Z.lor (Z.shiftl (Z.land (Z.shiftr x 16) 255) 8)
               (Z.land (Z.shiftr x 24) 255)).

Section ByteOrder.
Context `{Host}.

Definition htons (hostshort : Z) : Z :=
  if big_endian then hostshort else bswap16 hostshort.

Definition ntohs (netshort : Z) : Z :=
  if big_endian then netshort else bswap16 netshort.

Definition htonl (hostlong : Z) : Z :=
  if big_endian then hostlong else bswap32 hostlong.
End ByteOrder.

Definition INADDR_ANY : Z := 0.
Definition INADDR_NONE : Z := 4294967295.

(** ** <ctype.h> *)

(** The value of a [char] object read as an [int]: [char] is signed. *)
Definition char_to_int (c : ascii) : Z :=
  let n := Z.of_nat (nat_of_ascii c) in
  if n <? 128 then n else n - 256.

Definition isprint (c : Z) : bool := (32 <=? c) && (c <=? 126).

Definition isspace (c : Z) : bool :=
  (c =? 32) || ((9 <=? c) && (c <=? 13)).

Definition isdigit (c : Z) : bool := (48 <=? c) && (c <=? 57).

(** Value of a digit in a base up to 16, as [strtoul] reads it. *)
Definition digit_value (c : ascii) : option Z :=
  let n := char_to_int c in
  if (48 <=? n) && (n <=? 57) then Some (n - 48)
  else if (97 <=? n) && (n <=? 102) then Some (n - 87)
  else if (65 <=? n) && (n <=? 70) then Some (n - 55)
  else None.

(** ** <stdlib.h>: [atoi] is [(int) strtol (nptr, NULL, 10)] *)

Fixpoint skip_space (s : string) : string :=
  match s with
  | String c s' => if isspace (char_to_int c) then skip_space s' else s
  | EmptyString => s
  end.

(** The longest prefix of digits of [base], accumulated from [acc]; returns
    the value and the rest of the text. *)
Fixpoint digits (base acc : Z) (s : string) : Z * string :=
  match s with
  | String c s' =>
      match digit_value c with
      | Some d => if d <? base then digits base (acc * base + d) s'
                  else (acc, s)
      | None => (acc, s)
      end
  | EmptyString => (acc, s)
  end.

Definition clamp (lo hi z : Z) : Z := Z.max lo (Z.min hi z).

Definition strtol10 (nptr : string) : Z :=
  let s := skip_space nptr in
  let '(neg, s) :=
    match s with
    | String "-" r => (true, r)
    | String "+" r => (false, r)
    | _ => (false, s)
    end in
  let v := fst (digits 10 0 s) in
  clamp LONG_MIN LONG_MAX (if neg then - v else v).

Definition atoi (nptr : string) : Z := to_int (strtol10 nptr).


(** ** <stdio.h>: the conversions the programs use *)

Definition digit_char (d : Z) : ascii := ascii_of_nat (Z.to_nat (48 + d)).

(** Decimal digits of a non-negative number, most significant first. *)
Fixpoint decimal_aux (fuel : nat) (z : Z) (acc : string) : string :=
  match fuel with
  | O => acc
  | S fuel' =>
      let acc' := String (digit_char (z mod 10)) acc in
      if z <? 10 then acc' else decimal_aux fuel' (z / 10) acc'
  end.

Definition decimal (z : Z) : string :=
  decimal_aux (S (Z.to_nat (Z.log2 z))) z "".

Fixpoint zeros (n : nat) : string :=
  match n with O => "" | S n' => String "0" (zeros n') end.

(** [%0<w>d]: the sign, then zeros up to the minimum width [w], then the
    digits; a number that needs more than [w] characters is printed whole. *)
Definition fmt_0d (w : nat) (z : Z) : string :=
  let d := decimal (Z.abs z) in
  let sign := if z <? 0 then "-" else "" in
  (sign ++ zeros (w - String.length sign - String.length d) ++ d)%string.

(** [%s] given a pointer [p + k] into a character array holding [p]. *)
Fixpoint string_from (k : nat) (p : string) : string :=
  match k, p with
  | O, _ => p
  | S k', String _ p' => string_from k' p'
  | S _, EmptyString => EmptyString
  end.

(** The array after [p[0] = c]. *)
Definition set_first (c : ascii) (p : string) : string :=
  match p with
  | String _ rest => String c rest
  | EmptyString => p
  end.

(** [%.*s] with precision [n]: at most [n] characters of the string. *)
Fixpoint string_prec (n : nat) (p : string) : string :=
  match n, p with
  | S n', String c p' => String c (string_prec n' p')
  | _, _ => EmptyString
  end.

(** [%.*s] on a character array that need not be terminated: at most [n]
    characters, stopping before a NUL. *)
Fixpoint chars_prec (n : nat) (buf : list ascii) : list ascii :=
  match n, buf with
  | S n', c :: buf' =>
      if (char_to_int c =? 0) then [] else c :: chars_prec n' buf'
  | _, _ => []
  end.

(** ** <arpa/inet.h>: [inet_addr] *)

(** [strtoul (cp, &endp, 0)] on a text that starts with a digit: a "0x"
    prefix followed by a hexadecimal digit selects base 16, another leading
    "0" base 8, anything else base 10.  Returns the value and [endp]. *)
Definition strtoul0 (cp : string) : Z * string :=
  match cp with
  | String "0" (String x (String h r as hex)) =>
      if ((char_to_int x =? 120) || (char_to_int x =? 88)) &&
         match digit_value h with Some _ => true | None => false end
      then digits 16 0 hex
      else digits 8 0 cp
  | String "0" _ => digits 8 0 cp
  | _ => digits 10 0 cp
  end.

(** The loop of [inet_aton]: numbers separated by dots, at most three of
    which are stored as single bytes; the last number is returned apart,
    with the text that follows it. *)
Fixpoint inet_aton_loop (n : nat) (cp : string) (bytes : list Z)
  : option (list Z * Z * string) :=
  match n, cp with
  | S n', String c _ =>
      if isdigit (char_to_int c) then
        let '(val, endp) := strtoul0 cp in
        if val >? 4294967295 then None
        else match endp with
             | String "." rest =>
                 if (2 <? Z.of_nat (List.length bytes)) || (val >? 255) then None
                 else inet_aton_loop n' rest (bytes ++ [val])
             | _ => Some (bytes, val, endp)
             end
      else None
  | _, _ => None
  end.

(** The address in host order: the stored bytes from the most significant
    one, the last number in what remains ([a.b.c.d], [a.b.c], [a.b], [a]). *)
Fixpoint place_bytes (bytes : list Z) (shift : Z) : Z :=
  match bytes with
  | [] => 0
  | b :: bs => Z.lor (Z.shiftl b shift) (place_bytes bs (shift - 8))
  end.

Definition inet_aton_max (nbytes : nat) : Z :=
  match nbytes with
  | 0%nat => 4294967295 | 1%nat => 16777215 | 2%nat => 65535 | _ => 255
  end.

Section Inet.
Context `{Host}.

(** [inet_aton] restricted to texts it consumes whole, which is what
    [inet_addr] accepts; the result is [s_addr], in network byte order. *)
Definition inet_aton (cp : string) : option Z :=
  match inet_aton_loop 4 cp [] with
  | Some (bytes, val, EmptyString) =>
      if val >? inet_aton_max (List.length bytes) then None
      else Some (htonl (Z.lor (place_bytes bytes 24) val))
  | _ => None
  end.

Definition inet_addr (cp : string) : Z :=
  match inet_aton cp with
  | Some s_addr => s_addr
  | None => INADDR_NONE
  end.
End Inet.

(** ** <arpa/inet.h>: [inet_pton] for [AF_INET6]
    An IPv6 address is kept as its sixteen bytes in network order. *)

Definition in6_addr := list Z.

Definition in6addr_any : in6_addr := List.repeat 0 16.

(** The dotted quad that may end an IPv6 text: four decimal numbers up to
    255, no leading zero. *)
Fixpoint inet_pton4_loop (src : string) (saw_digit : bool) (octets : nat)
         (done : list Z) (cur : Z) : option (list Z) :=
  match src with
  | EmptyString =>
      if (octets <? 4)%nat then None else Some (done ++ [cur])
  | String ch src' =>
      let c := char_to_int ch in
      if isdigit c then
        let new := cur * 10 + (c - 48) in
        if saw_digit && (cur =? 0) then None
        else if new >? 255 then None
        else if saw_digit then inet_pton4_loop src' true octets done new
        else if (4 <? S octets)%nat then None
        else inet_pton4_loop src' true (S octets) done new
      else if (c =? 46) && saw_digit then
        if (octets =? 4)%nat then None
        else inet_pton4_loop src' false octets (done ++ [cur]) 0
      else None
  end.

Definition inet_pton4 (src : string) : option (list Z) :=
  inet_pton4_loop src false 0 [] 0.

(** State of the scan of [inet_pton6]: the bytes written so far ([tp]), the
    position of a "::" ([colonp]), the start of the current group
    ([curtok]), the hexadecimal digits seen in it and their value. *)
Fixpoint inet_pton6_loop (src : string) (tp : list Z) (colonp : option nat)
         (curtok : string) (xdigits_seen : nat) (val : Z)
  : option (list Z * option nat * nat * Z) :=
  match src with
  | EmptyString => Some (tp, colonp, xdigits_seen, val)
  | String ch src' =>
      let c := char_to_int ch in
      match digit_value ch with
      | Some digit =>
          if (xdigits_seen =? 4)%nat then None
          else
            let val' := Z.lor (Z.shiftl val 4) digit in
            if val' >? 65535 then None
            else inet_pton6_loop src' tp colonp curtok (S xdigits_seen) val'
      | None =>
          if c =? 58 then
            if (xdigits_seen =? 0)%nat then
              match colonp with
              | Some _ => None
              | None => inet_pton6_loop src' tp (Some (List.length tp)) src' 0 0
              end
            else
              match src' with
              | EmptyString => None
              | _ =>
                  if (16 <? List.length tp + 2)%nat then None
                  else inet_pton6_loop src'
                         (tp ++ [Z.land (Z.shiftr val 8) 255; Z.land val 255])
                         colonp src' 0 0
              end
          else if (c =? 46) && (List.length tp + 4 <=? 16)%nat then
            match inet_pton4 curtok with
            | Some quad => Some (tp ++ quad, colonp, 0%nat, 0)
            | None => None
            end
          else None
      end
  end.

Definition inet_pton6 (src : string) : option in6_addr :=
  let start :=
    match src with
    | EmptyString => None
    | String ":" (String ":" _ as src') => Some src'
    | String ":" _ => None
    | _ => Some src
    end in
  match start with
  | None => None
  | Some src =>
      match inet_pton6_loop src [] None src 0 0 with
      | None => None
      | Some (tp, colonp, xdigits_seen, val) =>
          let tp' :=
            if (0 <? xdigits_seen)%nat then
              if (16 <? List.length tp + 2)%nat then None
              else Some (tp ++ [Z.land (Z.shiftr val 8) 255; Z.land val 255])
            else Some tp in
          match tp', colonp with
          | None, _ => None
          | Some tp, Some cp =>
              if (List.length tp =? 16)%nat then None
              else Some (List.firstn cp tp
                           ++ List.repeat 0 (16 - List.length tp)
                           ++ List.skipn cp tp)
          | Some tp, None =>
              if (List.length tp =? 16)%nat then Some tp else None
          end
      end
  end.

End Libc.

(* ===================================================================== *)
(** * The calls the programs make to the operating system *)
(* ===================================================================== *)

Module Sys.

Definition EXIT_FAILURE : Z := 1.

Inductive family := AF_INET | AF_INET6.

(** The start routines handed to [pthread_create]. *)
Inductive routine := Receiver | Sender.

(** A socket address of either family ([struct sockaddr_in],
    [struct sockaddr_in6]); [A] is the family's address type.  The port is
    in network byte order.  The flow label and scope of [sockaddr_in6] are
    left out: the programs clear them and never set them. *)
Record sockaddr (A : Type) := {
  sin_family : family;
  sin_port : Z;
  sin_addr : A
}.

(** What [recvfrom] leaves behind: a failure, or a datagram and the
    address it came from. *)
Inductive recv_result (A : Type) :=
| recv_error
| recv_datagram (data : list ascii) (src_addr : sockaddr A).
Arguments recv_error {A}.

(** An argument of [printf].  The text of an address ([inet_ntoa],
    [inet_ntop]) is kept as the address it renders. *)
Inductive arg (A : Type) :=
| arg_int (z : Z)
| arg_str (s : string)
| arg_buf (buf : list ascii)
| arg_addr (a : A).
Arguments arg_int {A}. Arguments arg_str {A}. Arguments arg_buf {A}.

(** Broken-down local time, as far as "%H%M%S" reads it. *)
Record tm := { tm_hour : Z; tm_min : Z; tm_sec : Z }.

Section Events.
(** [A]: addresses of the family; [O]: its socket options;
    [P]: the parameter block handed to the threads. *)
Variables A O P : Type.

Variant sysE : Type -> Type :=
| socket (domain : family) : sysE Z
| setsockopt (sock : Z) (opt : O) : sysE Z
| bind (sock : Z) (addr : sockaddr A) : sysE Z
| recvfrom (sock : Z) (len : Z) : sysE (recv_result A)
| sendto (sock : Z) (msg : string) (len : Z) (dest_addr : sockaddr A)
  : sysE Z
| close (sock : Z) : sysE Z
| localtime_now : sysE tm
| sleep (seconds : Z) : sysE unit
| perror (s : string) : sysE unit
| printf (format : string) (args : list (arg A)) : sysE unit
| fprintf_stderr (format : string) (args : list (arg A)) : sysE unit
| if_nametoindex (ifname : string) : sysE Z
| pthread_create (start_routine : routine) (p : P) : sysE Z
| pause : sysE Z
| exit (status : Z) : sysE Empty_set.
End Events.

Arguments socket {A O P}. Arguments setsockopt {A O P}.
Arguments bind {A O P}. Arguments recvfrom {A O P}.
Arguments sendto {A O P}. Arguments close {A O P}.
Arguments localtime_now {A O P}. Arguments sleep {A O P}.
Arguments perror {A O P}. Arguments printf {A O P}.
Arguments fprintf_stderr {A O P}. Arguments if_nametoindex {A O P}.
Arguments pthread_create {A O P}. Arguments pause {A O P}.
Arguments exit {A O P}.

Section Helpers.
Context {A O P : Type}.
Let E := sysE A O P.

(** [exit] does not return: whatever follows it is never run. *)
Definition do_exit {R : Type} (status : Z) : itree E R :=
  v <- ITree.trigger (exit status) ;;
  match v : Empty_set with end.

(** The idiom [if (ret < 0) { perror (msg); exit (EXIT_FAILURE); }]. *)
Definition or_die (ret : Z) (msg : string) : itree E unit :=
  if ret <? 0 then ITree.trigger (perror msg) ;; do_exit EXIT_FAILURE
  else Ret tt.

End Helpers.

(** [strftime (timestr, sizeof (timestr), "%H%M%S", t)] with the
    [char timestr[7]] of the senders: two digits for each field, and never
    more than the six characters the array has room for. *)
Definition strftime_HMS (t : tm) : string :=
  Libc.string_prec 6
    (Libc.fmt_0d 2 (tm_hour t) ++ Libc.fmt_0d 2 (tm_min t)
       ++ Libc.fmt_0d 2 (tm_sec t))%string.

(** [snprintf (message, size, "%s%.*s/%s/%06d", s1, prec, s2, timestr, n)]:
    the characters stored (at most [size - 1]) and the value returned, the
    length of the whole text. *)
Definition snprintf_message (size : Z) (s1 : string) (prec : Z) (s2 : string)
           (timestr : string) (n : Z) : string * Z :=
  let text := (s1 ++ Libc.string_prec (Z.to_nat prec) s2 ++ "/" ++ timestr
                  ++ "/" ++ Libc.fmt_0d 6 n)%string in
  (Libc.string_prec (Z.to_nat (size - 1)) text,
   Z.of_nat (String.length text)).

(** The [for] loop of the receivers,
    [for (i = 0; i < received_size; i++)
       if (! isprint (buffer[i])) buffer[i] = '.';]
    with [n] iterations left to run from index [i]. *)
Fixpoint store (i : nat) (c : ascii) (buffer : list ascii) : list ascii :=
  match buffer, i with
  | [], _ => []
  | _ :: rest, O => c :: rest
  | b :: rest, S i' => b :: store i' c rest
  end.

(** What the loop leaves in place of one character. *)
Definition sanitized (c : ascii) : ascii :=
  if Libc.isprint (Libc.char_to_int c) then c else "."%char.

Fixpoint sanitize_loop (n i : nat) (buffer : list ascii) : list ascii :=
  match n with
  | O => buffer
  | S n' =>
      sanitize_loop n' (S i)
        (if Libc.isprint (Libc.char_to_int (nth i buffer zero)) then buffer
         else store i "." buffer)
  end.

End Sys.


(** ** Properties of every call of a run *)

Section Always.
Context {T : Type}.

(** [always Q l]: every element [c] of [l] satisfies [Q h c], where [h]
    lists the elements before [c], the latest first.  [always_after h0]
    is the same for a list that continues a history [h0]. *)
Definition always_after (h0 : list T) (Q : list T -> T -> Prop)
           (l : list T) : Prop :=
  forall pre c post, l = pre ++ c :: post -> Q (rev pre ++ h0) c.

Definition always (Q : list T -> T -> Prop) (l : list T) : Prop :=
  always_after [] Q l.

(** Some element of the list satisfies [f]. *)
Definition some (f : T -> bool) (l : list T) : Prop :=
  existsb f l = true.

(** Number of elements that satisfy [f]. *)
Definition count (f : T -> bool) (l : list T) : nat :=
  List.length (filter f l).
End Always.

(* ===================================================================== *)
(** * Observing a run
    A finite observation of a program is a [trace] of the library: the
    calls made so far, each with what the environment answered, the last
    one possibly still pending.  [calls] lists them in order. *)
(* ===================================================================== *)

Section Calls.
Context {E : Type -> Type}.

(** A call with its answer, [None] while the call has not returned. *)
Inductive call : Type :=
| Call {X : Type} (e : E X) (answer : option X).

Fixpoint calls {R : Type} (tr : @trace E R) : list call :=
  match tr with
  | TEnd => []
  | TRet _ => []
  | TEventEnd e => [Call e None]
  | TEventResponse e x tr' => Call e (Some x) :: calls tr'
  end.

(** What the environment answers to the [n]-th call of a run. *)
Definition oracle := forall X : Type, E X -> nat -> option X.

(** Run a program against an oracle for at most [fuel] steps, [n] calls
    having been made. *)
Fixpoint run {R : Type} (fuel : nat) (o : oracle) (n : nat) (t : itree E R)
  : @trace E R :=
  match fuel with
  | O => TEnd
  | S fuel' =>
      match observe t with
      | RetF r => TRet r
      | TauF t' => run fuel' o n t'
      | VisF e k =>
          match o _ e n with
          | Some x => TEventResponse e x (run fuel' o (S n) (k x))
          | None => TEventEnd e
          end
      end
  end.
End Calls.

Arguments call : clear implicits.
Arguments oracle : clear implicits.

(** ** Reading the calls of the two programs *)

Section Reading.
Import Sys.
Context {A O P : Type}.
Let E := sysE A O P.

(** The value an integer-valued call returned. *)
Definition returned (c : call E) : option Z :=
  match c with
  | @Call _ X e answer =>
      match e in sysE _ _ _ X return option X -> option Z with
      | socket _ => fun a => a
      | setsockopt _ _ => fun a => a
      | bind _ _ => fun a => a
      | sendto _ _ _ _ => fun a => a
      | close _ => fun a => a
      | if_nametoindex _ => fun a => a
      | pthread_create _ _ => fun a => a
      | pause => fun a => a
      | _ => fun _ => None
      end answer
  end.

(** The call failed: it returned a negative value. *)
Definition failed (c : call E) : bool :=
  match returned c with Some r => r <? 0 | None => false end.

Definition succeeded (c : call E) : bool :=
  match returned c with Some r => negb (r <? 0) | None => false end.

Definition socket_of (c : call E) : option family :=
  match c with
  | Call (socket domain) _ => Some domain
  | _ => None
  end.

Definition setsockopt_of (c : call E) : option O :=
  match c with
  | Call (setsockopt _ opt) _ => Some opt
  | _ => None
  end.

Definition bind_of (c : call E) : option (sockaddr A) :=
  match c with
  | Call (bind _ addr) _ => Some addr
  | _ => None
  end.

(** The address [sendto] sends to. *)
Definition dest_of (c : call E) : option (sockaddr A) :=
  match c with
  | Call (sendto _ _ _ dest_addr) _ => Some dest_addr
  | _ => None
  end.

(** The message handed to [sendto]. *)
Definition sendto_of (c : call E) : option string :=
  match c with
  | Call (sendto _ msg _ _) _ => Some msg
  | _ => None
  end.

(** What a [recvfrom] that has returned left behind. *)
Definition recvfrom_of (c : call E) : option (recv_result A) :=
  match c with
  | @Call _ X e answer =>
      match e in sysE _ _ _ X return option X -> option (recv_result A) with
      | recvfrom _ _ => fun a => a
      | _ => fun _ => None
      end answer
  end.

Definition is_bind (c : call E) : bool :=
  match bind_of c with Some _ => true | None => false end.

Definition is_sendto (c : call E) : bool :=
  match sendto_of c with Some _ => true | None => false end.

Definition is_recvfrom (c : call E) : bool :=
  match c with
  | Call (recvfrom _ _) _ => true
  | _ => false
  end.

Definition perror_of (c : call E) : option string :=
  match c with
  | Call (perror s) _ => Some s
  | _ => None
  end.

Definition printf_of (c : call E) : option (string * list (arg A)) :=
  match c with
  | Call (printf format args) _ => Some (format, args)
  | _ => None
  end.

Definition stderr_of (c : call E) : option string :=
  match c with
  | Call (fprintf_stderr format _) _ => Some format
  | _ => None
  end.

Definition exit_of (c : call E) : option Z :=
  match c with
  | Call (exit status) _ => Some status
  | _ => None
  end.

(** A thread started by [pthread_create]: its routine and its parameter
    block. *)
Definition thread_of (c : call E) : option (routine * P) :=
  match c with
  | Call (pthread_create start_routine p) _ => Some (start_routine, p)
  | _ => None
  end.

(** The payload a receiver prints: the argument of the "%.*s" of its
    "Recv fm" line, [precision] characters of [buffer] at most. *)
Definition payload_of (c : call E) : option (list ascii) :=
  match printf_of c with
  | Some (_, [_; _; arg_int precision; arg_buf buffer; _]) =>
      Some (Libc.chars_prec (Z.to_nat precision) buffer)
  | _ => None
  end.

(** The previous call and the one before it. *)
Definition last_call (h : list (call E)) : option (call E) :=
  match h with c :: _ => Some c | [] => None end.

Definition call_before_last (h : list (call E)) : option (call E) :=
  match h with _ :: c :: _ => Some c | _ => None end.

(** The calls that set a socket up: [socket], [setsockopt], [bind]. *)
Definition is_setup (c : call E) : bool :=
  match c with
  | Call (socket _) _ => true
  | Call (setsockopt _ _) _ => true
  | Call (bind _ _) _ => true
  | _ => false
  end.

(** A failed read is not fatal: the call after it logs the failure and
    the one after that is the next [recvfrom]. *)
Definition read_failure_survived (h : list (call E)) (c : call E) : Prop :=
  match last_call h with
  | Some c1 =>
      recvfrom_of c1 = Some recv_error ->
      perror_of c = Some "recvfrom failed"
  | None => True
  end /\
  match call_before_last h with
  | Some c2 => recvfrom_of c2 = Some recv_error -> is_recvfrom c = true
  | None => True
  end.

(** A failed set-up call is fatal: the call after it reports the failure
    and the one after that is [exit (EXIT_FAILURE)]. *)
Definition setup_failure_fatal (h : list (call E)) (c : call E) : Prop :=
  match last_call h with
  | Some c1 =>
      is_setup c1 && failed c1 = true -> exists msg, perror_of c = Some msg
  | None => True
  end /\
  match call_before_last h with
  | Some c2 =>
      is_setup c2 && failed c2 = true -> exit_of c = Some EXIT_FAILURE
  | None => True
  end.

(** Between two turns of a receive loop the last call is neither a read
    nor a failed set-up call, and the one before it no failed set-up
    call either. *)
Definition between_reads (h : list (call E)) : Prop :=
  match last_call h with
  | Some c1 => recvfrom_of c1 = None /\ is_setup c1 && failed c1 = false
  | None => True
  end /\
  match call_before_last h with
  | Some c2 => is_setup c2 && failed c2 = false
  | None => True
  end.


(** The payload a receiver prints is the datagram just read, cut to the
    size of the buffer, with the same length; each character is the one
    received or a dot, and it is a dot exactly when the one received
    was not printable or was a dot itself. *)
Definition payload_sanitized (size : Z) (h : list (call E)) (c : call E)
  : Prop :=
  forall out,
    payload_of c = Some out ->
    exists data src_addr,
      match last_call h with
      | Some c1 => recvfrom_of c1 = Some (recv_datagram data src_addr)
      | None => False
      end /\
      let input := firstn (Z.to_nat size) data in
      List.length out = List.length input /\
      Forall2 (fun i o =>
                 (o = i \/ o = "."%char) /\
                 (o = "."%char <->
                  Libc.isprint (Libc.char_to_int i) = false \/ i = "."%char))
              input out.

(** The option [opt] has been set, with success, by one of the calls of
    [h]. *)
Definition set_before (opt : O) (h : list (call E)) : Prop :=
  exists c, In c h /\ setsockopt_of c = Some opt /\ succeeded c = true.

(** Nothing is sent before the two options are set. *)
Definition options_set_before_send (ttl_opt loop_opt : O)
           (h : list (call E)) (c : call E) : Prop :=
  is_sendto c = true -> set_before ttl_opt h /\ set_before loop_opt h.


(** The datagrams of a sender are numbered from [first] in steps of one,
    as far as an [int] counts, and the number ends the message, after a
    slash, as "%06d" prints it. *)
Definition sequence_numbered (first : Z) (h : list (call E)) (c : call E)
  : Prop :=
  forall msg,
    sendto_of c = Some msg ->
    let n := Z.of_nat (count is_sendto h) + first in
    n <= Libc.INT_MAX ->
    exists text, msg = (text ++ "/" ++ Libc.fmt_0d 6 n)%string.

(** The counter [i] of a sender counts the datagrams handed to [sendto],
    as long as their number fits an [int]. *)
Definition counted (h : list (call E)) (i : Z) : Prop :=
  Z.of_nat (count is_sendto h) <= Libc.INT_MAX ->
  i = Z.of_nat (count is_sendto h).

(** What the reads of a run have returned, in order. *)
Definition reads (l : list (call E)) : list (recv_result A) :=
  flat_map (fun c => match recvfrom_of c with
                     | Some r => [r]
                     | None => []
                     end) l.

(** What [main] starts, and when it complains: every thread it creates
    is one that [launches] describes, and it writes to [stderr] or exits
    only if [usage] holds. *)
Definition main_does (usage : bool) (launches : routine -> P -> Prop)
           (_ : list (call E)) (c : call E) : Prop :=
  (forall r pp, thread_of c = Some (r, pp) -> launches r pp) /\
  (stderr_of c <> None \/ exit_of c <> None -> usage = true).

(** An environment in which the calls numbered by [failing] fail and all
    others succeed, [inbox] and [clock] give what is received and the
    time at each call, and [ifindex] is the table of interfaces. *)
Record world := {
  failing : nat -> bool;
  inbox : nat -> recv_result A;
  clock : nat -> tm;
  ifindex : string -> Z
}.

(** The environment in which every call succeeds, every read fails and
    it is midnight. *)
Definition calm : world :=
  {| failing := fun _ => false;
     inbox := fun _ => recv_error;
     clock := fun _ => {| tm_hour := 0; tm_min := 0; tm_sec := 0 |};
     ifindex := fun _ => 2 |}.

(** The environment in which every call succeeds and every read
    delivers the datagram [data] from [src_addr]. *)
Definition delivering (data : list ascii) (src_addr : sockaddr A) : world :=
  {| failing := fun _ => false;
     inbox := fun _ => recv_datagram data src_addr;
     clock := fun _ => {| tm_hour := 0; tm_min := 0; tm_sec := 0 |};
     ifindex := fun _ => 2 |}.

(** The environment of [calm], but for the call number [k], which
    fails. *)
Definition failing_at (k : nat) : world :=
  {| failing := Nat.eqb k;
     inbox := fun _ => recv_error;
     clock := fun _ => {| tm_hour := 0; tm_min := 0; tm_sec := 0 |};
     ifindex := fun _ => 2 |}.

Definition status (w : world) (n : nat) (ok : Z) : option Z :=
  Some (if failing w n then -1 else ok).

Definition answers (w : world) : oracle E :=
  fun X e =>
    match e in sysE _ _ _ X return nat -> option X with
    | socket _ => fun n => status w n 3
    | setsockopt _ _ => fun n => status w n 0
    | bind _ _ => fun n => status w n 0
    | recvfrom _ _ => fun n => Some (inbox w n)
    | sendto _ _ len _ => fun n => status w n len
    | close _ => fun n => status w n 0
    | localtime_now => fun n => Some (clock w n)
    | sleep _ => fun _ => Some tt
    | perror _ => fun _ => Some tt
    | printf _ _ => fun _ => Some tt
    | fprintf_stderr _ _ => fun _ => Some tt
    | if_nametoindex ifname => fun _ => Some (ifindex w ifname)
    | pthread_create _ _ => fun n => status w n 0
    | pause => fun _ => None                  (* blocks for ever *)
    | exit _ => fun _ => None                 (* does not return *)
    end.
End Reading.

Arguments world : clear implicits.

(** ** More to read off the calls *)

Section ReadingMore.
Import Sys.
Context {A O P : Type}.
Let E := sysE A O P.

Definition is_pause (c : call E) : bool :=
  match c with
  | Call pause _ => true
  | _ => false
  end.

(** [pause] has returned. *)
Definition pause_returned (c : call E) : bool :=
  match c with
  | Call pause (Some _) => true
  | _ => false
  end.

Definition is_close (c : call E) : bool :=
  match c with
  | Call (close _) _ => true
  | _ => false
  end.

(** The seconds asked of [sleep]. *)
Definition sleep_of (c : call E) : option Z :=
  match c with
  | Call (sleep seconds) _ => Some seconds
  | _ => None
  end.

Definition is_sleep (c : call E) : bool :=
  match sleep_of c with Some _ => true | None => false end.

(** The time [localtime] gave. *)
Definition time_of (c : call E) : option tm :=
  match c with
  | @Call _ X e answer =>
      match e in sysE _ _ _ X return option X -> option tm with
      | localtime_now => fun a => a
      | _ => fun _ => None
      end answer
  end.

(** The name asked of [if_nametoindex], and what it answered. *)
Definition ifname_of (c : call E) : option string :=
  match c with
  | Call (if_nametoindex ifname) _ => Some ifname
  | _ => None
  end.

Definition ifindex_of (c : call E) : option (string * Z) :=
  match c with
  | @Call _ X e answer =>
      match e in sysE _ _ _ X return option X -> option (string * Z) with
      | if_nametoindex ifname =>
          fun a => match a with Some idx => Some (ifname, idx) | None => None end
      | _ => fun _ => None
      end answer
  end.

(** The message handed to [sendto] and the length given with it. *)
Definition sent_of (c : call E) : option (string * Z) :=
  match c with
  | Call (sendto _ msg len _) _ => Some (msg, len)
  | _ => None
  end.

(** The threads started, in order. *)
Definition threads (l : list (call E)) : list (routine * P) :=
  flat_map (fun c => match thread_of c with
                     | Some t => [t]
                     | None => []
                     end) l.

(** [l] is the beginning of [full]. *)
Definition starts {T : Type} (l full : list T) : Prop :=
  exists rest, full = l ++ rest.

(** A failed [sendto] is fatal: the call after it is
    [perror ("Send failed")] and the one after that is
    [exit (EXIT_FAILURE)]. *)
Definition send_failure_fatal (h : list (call E)) (c : call E) : Prop :=
  match last_call h with
  | Some c1 =>
      is_sendto c1 && failed c1 = true -> perror_of c = Some "Send failed"
  | None => True
  end /\
  match call_before_last h with
  | Some c2 =>
      is_sendto c2 && failed c2 = true -> exit_of c = Some EXIT_FAILURE
  | None => True
  end.

(** One second of sleep for every datagram: whenever a datagram is handed
    to [sendto], as many [sleep]s have been made as datagrams were sent
    before; and every [sleep] is of one second and follows a [sendto]
    that has no [sleep] yet. *)
Definition paced (h : list (call E)) (c : call E) : Prop :=
  (is_sendto c = true -> count is_sleep h = count is_sendto h) /\
  (forall seconds,
      sleep_of c = Some seconds ->
      seconds = 1 /\ S (count is_sleep h) = count is_sendto h).

(** A call that succeeded before satisfies [f]. *)
Definition done_before (f : call E -> bool) (h : list (call E)) : Prop :=
  exists c, In c h /\ f c = true /\ succeeded c = true.

(** The thread stays with its own business: a receiver sends nothing and
    does not sleep, a sender reads nothing, and neither closes its socket
    or starts a thread. *)
Definition receiver_only (c : call E) : Prop :=
  is_sendto c = false /\ is_sleep c = false /\ is_close c = false /\
  thread_of c = None.

Definition sender_only (c : call E) : Prop :=
  is_recvfrom c = false /\ is_close c = false /\ thread_of c = None.

(** Between two turns of a send loop the last two calls are neither
    failed set-up calls nor failed [sendto]s. *)
Definition between_sends (h : list (call E)) : Prop :=
  match last_call h with
  | Some c1 =>
      is_setup c1 && failed c1 = false /\ is_sendto c1 && failed c1 = false
  | None => True
  end /\
  match call_before_last h with
  | Some c2 =>
      is_setup c2 && failed c2 = false /\ is_sendto c2 && failed c2 = false
  | None => True
  end.

(** The line a sender prints about a datagram, the one [printf] of five
    arguments it has, follows the [sendto] that sent it and did not
    fail, and shows the group address and port (as [port] in host
    order), the message and, twice, the length given to [sendto]. *)
Definition send_reported (mip : A) (port : Z)
           (h : list (call E)) (c : call E) : Prop :=
  forall format a1 a2 a3 a4 a5,
    printf_of c = Some (format, [a1; a2; a3; a4; a5]) ->
    exists c1 msg len,
      last_call h = Some c1 /\ sent_of c1 = Some (msg, len) /\
      succeeded c1 = true /\
      a1 = arg_addr mip /\ a2 = arg_int port /\
      a3 = arg_int len /\ a4 = arg_str msg /\ a5 = arg_int len.

(** The line a receiver prints about a datagram, the one [printf] of
    five arguments it has, follows the [recvfrom] that read it, and
    shows where it came from ([host_order] of the port) and, twice, how
    many bytes were stored, which is the size of the datagram or, if
    that is smaller, of the buffer. *)
Definition read_reported (host_order : Z -> Z) (size : Z)
           (h : list (call E)) (c : call E) : Prop :=
  forall format a1 a2 a3 a4 a5,
    printf_of c = Some (format, [a1; a2; a3; a4; a5]) ->
    exists c1 data src_addr,
      last_call h = Some c1 /\
      recvfrom_of c1 = Some (recv_datagram data src_addr) /\
      a1 = arg_addr (sin_addr src_addr) /\
      a2 = arg_int (host_order (sin_port src_addr)) /\
      a3 = arg_int (Z.min (Z.of_nat (List.length data)) size) /\
      a5 = a3.
End ReadingMore.
(* ===================================================================== *)
(** * multicast.c: the IPv4 program *)
(* ===================================================================== *)

Module Multicast.
Import Libc Sys.

(** Buffer size: Ethernet MTU - IP header - UDP header. *)
Definition BUFSIZE : Z := 1500 - 20 - 8.

(** Time to live. *)
Definition TTL : Z := 64.

(** [struct param]: the common parameters.  The addresses are the
    [s_addr] of their [struct in_addr], the port is in network order. *)
Record param := {
  mip : Z;      (* multicast group address *)
  port : Z;     (* port number *)
  sip : Z;      (* source specific address *)
  ifip : Z;     (* local interface to bind *)
  ssm : Z;      (* source specific multicast *)
  loop : Z;     (* enable loop back to local application *)
  bidir : Z     (* bidirectional multicast *)
}.

Definition set_mip v p := {| mip := v; port := port p; sip := sip p;
  ifip := ifip p; ssm := ssm p; loop := loop p; bidir := bidir p |}.
Definition set_port v p := {| mip := mip p; port := v; sip := sip p;
  ifip := ifip p; ssm := ssm p; loop := loop p; bidir := bidir p |}.
Definition set_sip v p := {| mip := mip p; port := port p; sip := v;
  ifip := ifip p; ssm := ssm p; loop := loop p; bidir := bidir p |}.
Definition set_ifip v p := {| mip := mip p; port := port p; sip := sip p;
  ifip := v; ssm := ssm p; loop := loop p; bidir := bidir p |}.
Definition set_ssm v p := {| mip := mip p; port := port p; sip := sip p;
  ifip := ifip p; ssm := v; loop := loop p; bidir := bidir p |}.
Definition set_loop v p := {| mip := mip p; port := port p; sip := sip p;
  ifip := ifip p; ssm := ssm p; loop := v; bidir := bidir p |}.
Definition set_bidir v p := {| mip := mip p; port := port p; sip := sip p;
  ifip := ifip p; ssm := ssm p; loop := loop p; bidir := v |}.

(** The socket options the program sets, each with the value it passes. *)
Inductive sockopt :=
| SO_REUSEADDR (reuse : Z)
| IP_ADD_MEMBERSHIP (imr_multiaddr imr_interface : Z)
| IP_ADD_SOURCE_MEMBERSHIP (imr_multiaddr imr_interface imr_sourceaddr : Z)
| IP_MULTICAST_IF (ifip : Z)
| IP_MULTICAST_TTL (ttl : Z)
| IP_MULTICAST_LOOP (loop : Z).

Definition E := sysE Z sockopt param.

Section Program.
Context `{Host}.
(** The compile option [-D NOSSM]. *)
Variable NOSSM : bool.

(** One turn of the receiver's [while (1)]; the state is [buffer]. *)
Definition recv_iteration (sock : Z) (buffer : list ascii)
  : itree E (list ascii + Z) :=
  r <- ITree.trigger (recvfrom sock BUFSIZE) ;;
  match r with
  | recv_error =>
      ITree.trigger (perror "recvfrom failed") ;;
      Ret (inl buffer)                                    (* continue *)
  | recv_datagram data sender_addr =>
      (* recvfrom stores at most sizeof(buffer) bytes and returns how
         many it stored *)
      let received := firstn (Z.to_nat BUFSIZE) data in
      let received_size := Z.of_nat (List.length received) in
      let buffer := received ++ skipn (List.length received) buffer in
      (* Get sender's IP address and port *)
      let sender_ip := arg_addr (sin_addr sender_addr) in
      let sender_port := ntohs (sin_port sender_addr) in
      let buffer := sanitize_loop (Z.to_nat received_size) 0 buffer in
      ITree.trigger
        (printf "Recv fm %s:%d = %.*s (%d)\n"
           [sender_ip; arg_int sender_port;
            arg_int received_size; arg_buf buffer;
            arg_int received_size]) ;;
      Ret (inl buffer)
  end.

(** Receiver thread. *)
Definition recv_thread (pp : param) : itree E Z :=
  let buffer := List.repeat zero (Z.to_nat BUFSIZE) in
  (* Create socket *)
  sock <- ITree.trigger (socket AF_INET) ;;
  or_die sock "Socket creation failed (receiver)" ;;
  (* Enable SO_REUSEADDR to share port with other applications *)
  let reuse := 1 in
  r <- ITree.trigger (setsockopt sock (SO_REUSEADDR reuse)) ;;
  or_die r "setsockopt(SO_REUSEADDR) failed (receiver)" ;;
  (* Bind to local port *)
  let local_addr :=
    {| sin_family := AF_INET;
       sin_addr := htonl INADDR_ANY;
       sin_port := port pp |} in
  r <- ITree.trigger (bind sock local_addr) ;;
  or_die r "Bind failed (receiver)" ;;
  (* Join multicast group with any source multicast (ASM) *)
  (if ssm pp =? 0 then
     let mreq := IP_ADD_MEMBERSHIP (mip pp) (ifip pp) in
     r <- ITree.trigger (setsockopt sock mreq) ;;
     or_die r "setsockopt(IP_ADD_MEMBERSHIP) failed" ;;
     ITree.trigger (printf "Joined ASM %s:%d "
                      [arg_addr (mip pp); arg_int (ntohs (port pp))]) ;;
     ITree.trigger (printf "via interface %s\n" [arg_addr (ifip pp)])
   else Ret tt) ;;
  (* Join multicast group with source specific multicast (SSM) *)
  (if negb NOSSM && (ssm pp =? 1) then
     let mreq := IP_ADD_SOURCE_MEMBERSHIP (mip pp) (ifip pp) (sip pp) in
     r <- ITree.trigger (setsockopt sock mreq) ;;
     or_die r "setsockopt(IP_ADD_SOURCE_MEMBERSHIP) failed" ;;
     ITree.trigger (printf "Joined SSM %s:%d "
                      [arg_addr (mip pp); arg_int (ntohs (port pp))]) ;;
     ITree.trigger (printf "from %s " [arg_addr (sip pp)]) ;;
     ITree.trigger (printf "via interface %s\n" [arg_addr (ifip pp)])
   else Ret tt) ;;
  (* Receive multicast messages *)
  ITree.iter (recv_iteration sock) buffer ;;
  ITree.trigger (close sock) ;;
  Ret 0.

(** One turn of the sender's [while (1)]; the state is [i]. *)
Definition send_iteration (pp : param) (sock : Z) (fixstr : string)
           (multicast_addr : sockaddr Z) (i : Z) : itree E (Z + Z) :=
  (* Get the current time and format message *)
  now <- ITree.trigger localtime_now ;;
  let timestr := strftime_HMS now in
  let k := to_size_t i mod (Z.of_nat (String.length fixstr)) in
  let written :=
    snprintf_message BUFSIZE (string_from (Z.to_nat k) fixstr)
                     k fixstr timestr i in
  let message := fst written in
  let sending_size := snd written in
  (* Send multicast message *)
  r <- ITree.trigger (sendto sock message sending_size multicast_addr) ;;
  or_die r "Send failed" ;;
  ITree.trigger (printf "Sent to %s:%d = %.*s (%d)\n"
                   [arg_addr (mip pp); arg_int (ntohs (port pp));
                    arg_int sending_size; arg_str message;
                    arg_int sending_size]) ;;
  ITree.trigger (sleep 1) ;;
  Ret (inl (to_int (i + 1))).                             (* i++ *)

(** Sender thread. *)
Definition send_thread (pp : param) : itree E Z :=
  let fixstr := ".....*" in
  (* Create socket *)
  sock <- ITree.trigger (socket AF_INET) ;;
  or_die sock "Socket creation failed (sender)" ;;
  (* Bind local interface *)
  let local_bind :=
    {| sin_family := AF_INET; sin_port := 0; sin_addr := ifip pp |} in
  (* Set source port number when bidir mode *)
  local_bind <-
    (if bidir pp =? 1 then
       let reuse := 1 in
       r <- ITree.trigger (setsockopt sock (SO_REUSEADDR reuse)) ;;
       or_die r "setsockopt(SO_REUSEADDR) failed (sender)" ;;
       Ret {| sin_family := sin_family local_bind;
              sin_port := port pp;   (* src and dst port number are same *)
              sin_addr := sin_addr local_bind |}
     else Ret local_bind) ;;
  r <- ITree.trigger (bind sock local_bind) ;;
  or_die r "Bind for source interfce and port failed" ;;
  (* Set multicast interface to send if local interface is specified *)
  (if negb (ifip pp =? htonl INADDR_ANY) then
     r <- ITree.trigger (setsockopt sock (IP_MULTICAST_IF (ifip pp))) ;;
     or_die r "setsockopt(IP_MULTICAST_IF) failed"
   else Ret tt) ;;
  ITree.trigger (printf "Sending via interface %s\n" [arg_addr (ifip pp)]) ;;
  (* Set TTL value to packet to go beyond routers *)
  let ttl := TTL in
  r <- ITree.trigger (setsockopt sock (IP_MULTICAST_TTL ttl)) ;;
  or_die r "setsockopt(IP_MULTICAST_TTL) failed" ;;
  (* Enable/Disable IP_MULTICAST_LOOP to local receiver *)
  r <- ITree.trigger (setsockopt sock (IP_MULTICAST_LOOP (loop pp))) ;;
  or_die r "setsockopt(IP_MULTICAST_LOOP) failed" ;;
  (* Set up destination multicast address *)
  let multicast_addr :=
    {| sin_family := AF_INET; sin_addr := mip pp; sin_port := port pp |} in
  (* Send multicast message *)
  ITree.iter (send_iteration pp sock fixstr multicast_addr) 0 ;;
  ITree.trigger (close sock) ;;
  Ret 0.

(** Show usage error. *)
Definition errusage {R : Type} (fn : string) : itree E R :=
  ITree.trigger
    (fprintf_stderr "Usage: %s <send|recv|both> <mip> <port> [sip|-] [ifip]\n"
                    [arg_str fn]) ;;
  do_exit EXIT_FAILURE.

(** [argv[i]]. *)
Definition arg_at (argv : list string) (i : nat) : string := nth i argv "".

(** The parameter block as [main] has filled it in when it looks at the
    mode: everything but [loop] and [bidir]. *)
Definition parse_args (argv : list string) : param :=
  let argc := Z.of_nat (List.length argv) in
  let p := {| mip := 0; port := 0; sip := 0; ifip := 0;
              ssm := 0; loop := 0; bidir := 0 |} in     (* memset *)
  let p := set_sip (htonl INADDR_ANY) p in               (* default is 0.0.0.0 *)
  let p := set_ifip (htonl INADDR_ANY) p in              (* default is 0.0.0.0 *)
  let p := set_mip (inet_addr (arg_at argv 2)) p in      (* multicast group address *)
  let p := set_port (htons (to_uint16 (atoi (arg_at argv 3)))) p in
  let p :=
    if (argc >=? 5) && negb (arg_at argv 4 =? "-")%string then
      let p := if NOSSM then p else set_ssm 1 p in
      set_sip (inet_addr (arg_at argv 4)) p              (* sender address for SSM *)
    else p in
  if argc >=? 6 then set_ifip (inet_addr (arg_at argv 5)) p
  else p.

(** Main: parse parameters and invoke threads. *)
Definition main (argv : list string) : itree E Z :=
  let argc := Z.of_nat (List.length argv) in
  (if argc <? 4 then errusage (arg_at argv 0) else Ret tt) ;;
  let p := parse_args argv in
  let mode := arg_at argv 1 in                           (* mode send/recv/both *)
  (if (mode =? "recv")%string then                       (* invoke receiver thread *)
     ITree.trigger (pthread_create Receiver p) ;; Ret tt
   else if (mode =? "send")%string then                  (* invoke sender thread *)
     let p := set_loop 1 p in
     ITree.trigger (pthread_create Sender p) ;; Ret tt
   else if (mode =? "both")%string then                  (* invoke both thread *)
     let p := set_bidir 1 p in
     ITree.trigger (pthread_create Receiver p) ;;
     ITree.trigger (pthread_create Sender p) ;; Ret tt
   else errusage (arg_at argv 0)) ;;
  ITree.trigger pause ;;
  Ret 0.

(** The code a thread runs. *)
Definition start (r : routine) : param -> itree E Z :=
  match r with
  | Receiver => recv_thread
  | Sender => send_thread
  end.

(** [sip] was given on the command line: there is a fifth argument and
    it is not "-". *)
Definition source_supplied (argv : list string) : bool :=
  (Z.of_nat (List.length argv) >=? 5) && negb (arg_at argv 4 =? "-")%string.

(** [main argv] starts the routine [r] on the parameter block [pp]: what
    the three branches on the mode do. *)
Definition launches (argv : list string) (r : routine) (pp : param) : Prop :=
  let mode := arg_at argv 1 in
  4 <= Z.of_nat (List.length argv) /\
  (((mode =? "recv")%string = true /\
    r = Receiver /\ pp = parse_args argv) \/
   ((mode =? "send")%string = true /\
    r = Sender /\ pp = set_loop 1 (parse_args argv)) \/
   ((mode =? "both")%string = true /\
    pp = set_bidir 1 (parse_args argv))).
End Program.

(** The two ways of joining the group. *)
Definition is_asm_join (c : call E) : bool :=
  match setsockopt_of c with
  | Some (IP_ADD_MEMBERSHIP _ _) => true
  | _ => false
  end.

Definition is_ssm_join (c : call E) : bool :=
  match setsockopt_of c with
  | Some (IP_ADD_SOURCE_MEMBERSHIP _ _ _) => true
  | _ => false
  end.

End Multicast.

(* ===================================================================== *)
(** * multicast6.c: the IPv6 program *)
(* ===================================================================== *)

Module Multicast6.
Import Libc Sys.

(** Buffer size: Ethernet MTU - IP header - UDP header. *)
Definition BUFSIZE : Z := 1500 - 40 - 8.

(** Local interface through which multicast packets are sent and received. *)
Definition IFNAMEDEFAULT : string := "default".
Definition IFIDXDEFAULT : Z := 0.

(** Hop limit. *)
Definition HOP : Z := 64.

(** [struct param]: the common parameters. *)
Record param := {
  mip : in6_addr;    (* multicast group address *)
  port : Z;          (* port number *)
  sip : in6_addr;    (* source specific address *)
  ifidx : Z;         (* interface index *)
  ifname : string;   (* interface name *)
  ssm : Z;           (* source specific multicast *)
  loop : Z;          (* enable loop back to local application *)
  bidir : Z          (* bidirectional multicast *)
}.

Definition set_mip v p := {| mip := v; port := port p; sip := sip p;
  ifidx := ifidx p; ifname := ifname p; ssm := ssm p; loop := loop p;
  bidir := bidir p |}.
Definition set_port v p := {| mip := mip p; port := v; sip := sip p;
  ifidx := ifidx p; ifname := ifname p; ssm := ssm p; loop := loop p;
  bidir := bidir p |}.
Definition set_sip v p := {| mip := mip p; port := port p; sip := v;
  ifidx := ifidx p; ifname := ifname p; ssm := ssm p; loop := loop p;
  bidir := bidir p |}.
Definition set_ifidx v p := {| mip := mip p; port := port p; sip := sip p;
  ifidx := v; ifname := ifname p; ssm := ssm p; loop := loop p;
  bidir := bidir p |}.
Definition set_ifname v p := {| mip := mip p; port := port p; sip := sip p;
  ifidx := ifidx p; ifname := v; ssm := ssm p; loop := loop p;
  bidir := bidir p |}.
Definition set_ssm v p := {| mip := mip p; port := port p; sip := sip p;
  ifidx := ifidx p; ifname := ifname p; ssm := v; loop := loop p;
  bidir := bidir p |}.
Definition set_loop v p := {| mip := mip p; port := port p; sip := sip p;
  ifidx := ifidx p; ifname := ifname p; ssm := ssm p; loop := v;
  bidir := bidir p |}.
Definition set_bidir v p := {| mip := mip p; port := port p; sip := sip p;
  ifidx := ifidx p; ifname := ifname p; ssm := ssm p; loop := loop p;
  bidir := v |}.

(** The socket options the program sets, each with the value it passes. *)
Inductive sockopt :=
| SO_REUSEADDR (reuse : Z)
| SO_BINDTODEVICE (ifname : string)
| IPV6_JOIN_GROUP (ipv6mr_multiaddr : in6_addr) (ipv6mr_interface : Z)
| MCAST_JOIN_SOURCE_GROUP (gsr_interface : Z)
                          (gsr_group gsr_source : sockaddr in6_addr)
| IPV6_MULTICAST_IF (ifidx : Z)
| IPV6_MULTICAST_HOPS (hop : Z)
| IPV6_MULTICAST_LOOP (loop : Z).

Definition E := sysE in6_addr sockopt param.

Section Program.
Context `{Host}.
(** The compile option [-D NOSSM]. *)
Variable NOSSM : bool.

(** One turn of the receiver's [while (1)]; the state is [buffer]. *)
Definition recv_iteration (sock : Z) (buffer : list ascii)
  : itree E (list ascii + Z) :=
  r <- ITree.trigger (recvfrom sock BUFSIZE) ;;
  match r with
  | recv_error =>
      ITree.trigger (perror "recvfrom failed") ;;
      Ret (inl buffer)                                    (* continue *)
  | recv_datagram data sender_addr =>
      (* recvfrom stores at most sizeof(buffer) bytes and returns how
         many it stored *)
      let received := firstn (Z.to_nat BUFSIZE) data in
      let received_size := Z.of_nat (List.length received) in
      let buffer := received ++ skipn (List.length received) buffer in
      (* Get sender's IP address and port *)
      let sender_ip := arg_addr (sin_addr sender_addr) in
      let sender_port := ntohs (sin_port sender_addr) in
      let buffer := sanitize_loop (Z.to_nat received_size) 0 buffer in
      ITree.trigger
        (printf "Recv fm [%s]:%d = %.*s (%d)\n"
           [sender_ip; arg_int sender_port;
            arg_int (to_int received_size); arg_buf buffer;
            arg_int (to_int received_size)]) ;;
      Ret (inl buffer)
  end.

(** Receiver thread. *)
Definition recv_thread (pp : param) : itree E Z :=
  let buffer := List.repeat zero (Z.to_nat BUFSIZE) in
  (* Create socket *)
  sock <- ITree.trigger (socket AF_INET6) ;;
  or_die sock "Socket creation failed (receiver)" ;;
  (* Enable SO_REUSEADDR to share port with other applications *)
  let reuse := 1 in
  r <- ITree.trigger (setsockopt sock (SO_REUSEADDR reuse)) ;;
  or_die r "setsockopt(SO_REUSEADDR) failed (receiver)" ;;
  (* Bind to local port *)
  let local_addr :=
    {| sin_family := AF_INET6;
       sin_addr := in6addr_any;
       sin_port := port pp |} in
  r <- ITree.trigger (bind sock local_addr) ;;
  or_die r "Bind failed (receiver)" ;;
  (* Join multicast group with any source multicast (ASM) *)
  (if ssm pp =? 0 then
     let mreq := IPV6_JOIN_GROUP (mip pp) (ifidx pp) in
     r <- ITree.trigger (setsockopt sock mreq) ;;
     or_die r "setsockopt(IPV6_JOIN_GROUP) failed" ;;
     ITree.trigger
       (printf "Joined ASM [%s]:%d via interface index %d (%s)\n"
          [arg_addr (mip pp); arg_int (ntohs (port pp));
           arg_int (ifidx pp); arg_str (ifname pp)])
   else Ret tt) ;;
  (* Join multicast group with source specific multicast (SSM) *)
  (if negb NOSSM && (ssm pp =? 1) then
     r <- ITree.trigger (setsockopt sock (SO_BINDTODEVICE (ifname pp))) ;;
     or_die r "setsockopt(SO_BINDTODEVICE) failed" ;;
     let gaddr :=
       {| sin_family := AF_INET6; sin_port := 0; sin_addr := mip pp |} in
     let saddr :=
       {| sin_family := AF_INET6; sin_port := 0; sin_addr := sip pp |} in
     let mreq := MCAST_JOIN_SOURCE_GROUP (ifidx pp) gaddr saddr in
     r <- ITree.trigger (setsockopt sock mreq) ;;
     or_die r "setsockopt(MCAST_JOIN_SOURCE_GROUP) failed" ;;
     ITree.trigger (printf "Joined SSM [%s]:%d "
                      [arg_addr (mip pp); arg_int (ntohs (port pp))]) ;;
     ITree.trigger (printf "from %s via interface %d (%s)\n"
                      [arg_addr (sip pp); arg_int (ifidx pp);
                       arg_str (ifname pp)])
   else Ret tt) ;;
  (* Receive multicast messages *)
  ITree.iter (recv_iteration sock) buffer ;;
  ITree.trigger (close sock) ;;
  Ret 0.

(** One turn of the sender's [while (1)]; the state is [i] and the
    pattern [fixstr], whose first character is rewritten every turn. *)
Definition send_iteration (pp : param) (sock : Z)
           (multicast_addr : sockaddr in6_addr) (st : Z * string)
  : itree E (Z * string + Z) :=
  let i := fst st in
  let fixstr := snd st in
  let size := Z.of_nat (String.length fixstr) in    (* sizeof(fixstr)-1 *)
  (* Get the current time and format message *)
  now <- ITree.trigger localtime_now ;;
  let timestr := strftime_HMS now in
  let fixstr :=
    set_first (ascii_of_nat
                 (Z.to_nat (48 + to_size_t (to_size_t i / size) mod 10)))
              fixstr in
  let k := to_size_t i mod size in
  let written :=
    snprintf_message BUFSIZE (string_from (Z.to_nat (size - k)) fixstr)
                     (to_int (size - k)) fixstr timestr (to_int (i + 1)) in
  let message := fst written in
  let sending_size := snd written in
  (* Send multicast message *)
  r <- ITree.trigger (sendto sock message sending_size multicast_addr) ;;
  or_die r "Send failed" ;;
  ITree.trigger (printf "Sent to [%s]:%d = %.*s (%d)\n"
                   [arg_addr (mip pp); arg_int (ntohs (port pp));
                    arg_int sending_size; arg_str message;
                    arg_int sending_size]) ;;
  ITree.trigger (sleep 1) ;;
  Ret (inl (to_int (i + 1), fixstr)).                     (* i++ *)

(** Sender thread. *)
Definition send_thread (pp : param) : itree E Z :=
  let fixstr := "0....." in
  (* Create socket *)
  sock <- ITree.trigger (socket AF_INET6) ;;
  or_die sock "Socket creation failed (sender)" ;;
  (* Bind local interface *)
  let local_bind :=
    {| sin_family := AF_INET6; sin_port := 0;
       sin_addr := sip pp |} in                           (* src address *)
  (* Set source port number when bidir mode *)
  local_bind <-
    (if bidir pp =? 1 then
       let reuse := 1 in
       r <- ITree.trigger (setsockopt sock (SO_REUSEADDR reuse)) ;;
       or_die r "setsockopt(SO_REUSEADDR) failed (sender)" ;;
       Ret {| sin_family := sin_family local_bind;
              sin_port := port pp;                        (* src port number *)
              sin_addr := sin_addr local_bind |}
     else Ret local_bind) ;;
  r <- ITree.trigger (bind sock local_bind) ;;
  or_die r "Bind for source interfce and port failed" ;;
  (* Set multicast interface to send if local interface is specified *)
  (if negb (ifidx pp =? IFIDXDEFAULT) then
     r <- ITree.trigger (setsockopt sock (IPV6_MULTICAST_IF (ifidx pp))) ;;
     or_die r "setsockopt(IPV6_MULTICAST_IF) failed"
   else Ret tt) ;;
  ITree.trigger (printf "Sending via interface index %d (%s)\n"
                   [arg_int (ifidx pp); arg_str (ifname pp)]) ;;
  (* Set hop limit value to packet to go beyond routers *)
  let hop := HOP in
  r <- ITree.trigger (setsockopt sock (IPV6_MULTICAST_HOPS hop)) ;;
  or_die r "setsockopt(IPV6_MULTICAST_HOPS) failed" ;;
  (* Enable/Disable IP_MULTICAST_LOOP to local receiver *)
  r <- ITree.trigger (setsockopt sock (IPV6_MULTICAST_LOOP (loop pp))) ;;
  or_die r "setsockopt(IPV6_MULTICAST_LOOP) failed" ;;
  (* Set up destination multicast address *)
  let multicast_addr :=
    {| sin_family := AF_INET6; sin_addr := mip pp; sin_port := port pp |} in
  (* Send multicast message *)
  ITree.iter (send_iteration pp sock multicast_addr) (0, fixstr) ;;
  ITree.trigger (close sock) ;;
  Ret 0.

(** Show usage error. *)
Definition errusage {R : Type} (fn : string) : itree E R :=
  ITree.trigger
    (fprintf_stderr
       "Usage: %s <send|recv|both> <mip> <port> [sip|-] [ifname]\n"
       [arg_str fn]) ;;
  do_exit EXIT_FAILURE.

(** [argv[i]]. *)
Definition arg_at (argv : list string) (i : nat) : string := nth i argv "".

(** [inet_pton (AF_INET6, src, &dst)]: [dst] is written on success only. *)
Definition inet_pton_into (src : string) (dst : in6_addr) : in6_addr :=
  match inet_pton6 src with
  | Some a => a
  | None => dst
  end.

(** The parameter block as [main] has filled it in before it reads the
    interface argument: everything but [ifname], [ifidx], [loop] and
    [bidir]. *)
Definition parse_args (argv : list string) : param :=
  let argc := Z.of_nat (List.length argv) in
  let p := {| mip := List.repeat 0 16; port := 0; sip := List.repeat 0 16;
              ifidx := 0; ifname := ""; ssm := 0; loop := 0;
              bidir := 0 |} in                            (* memset *)
  let p := set_sip in6addr_any p in                       (* default is :: *)
  let p := set_ifname IFNAMEDEFAULT p in                  (* default string *)
  let p := set_ifidx IFIDXDEFAULT p in                    (* default is 0 *)
  let p := set_mip (inet_pton_into (arg_at argv 2) (mip p)) p in
  let p := set_port (htons (to_uint16 (atoi (arg_at argv 3)))) p in
  if (argc >=? 5) && negb (arg_at argv 4 =? "-")%string then
    let p := if NOSSM then p else set_ssm 1 p in
    set_sip (inet_pton_into (arg_at argv 4) (sip p)) p    (* sender address for SSM *)
  else p.

(** Main: parse parameters and invoke threads. *)
Definition main (argv : list string) : itree E Z :=
  let argc := Z.of_nat (List.length argv) in
  (if argc <? 4 then errusage (arg_at argv 0) else Ret tt) ;;
  let p := parse_args argv in
  let mode := arg_at argv 1 in                           (* mode send/recv/both *)
  p <- (if argc >=? 6 then
          let p := set_ifname (arg_at argv 5) p in
          idx <- ITree.trigger (if_nametoindex (ifname p)) ;;
          Ret (set_ifidx idx p)
        else Ret p) ;;
  (if (mode =? "recv")%string then                       (* invoke receiver thread *)
     ITree.trigger (pthread_create Receiver p) ;; Ret tt
   else if (mode =? "send")%string then                  (* invoke sender thread *)
     let p := set_loop 1 p in
     ITree.trigger (pthread_create Sender p) ;; Ret tt
   else if (mode =? "both")%string then                  (* invoke both thread *)
     let p := set_bidir 1 p in
     ITree.trigger (pthread_create Receiver p) ;;
     ITree.trigger (pthread_create Sender p) ;; Ret tt
   else errusage (arg_at argv 0)) ;;
  ITree.trigger pause ;;
  Ret 0.

(** The code a thread runs. *)
Definition start (r : routine) : param -> itree E Z :=
  match r with
  | Receiver => recv_thread
  | Sender => send_thread
  end.

(** [sip] was given on the command line: there is a fifth argument and
    it is not "-". *)
Definition source_supplied (argv : list string) : bool :=
  (Z.of_nat (List.length argv) >=? 5) && negb (arg_at argv 4 =? "-")%string.

(** The parameter block once the interface argument is read, [idx] being
    what [if_nametoindex] answered. *)
Definition with_interface (argv : list string) (idx : Z) (p : param) : param :=
  if Z.of_nat (List.length argv) >=? 6
  then set_ifidx idx (set_ifname (arg_at argv 5) p)
  else p.

(** [main argv] starts the routine [r] on the parameter block [pp]: what
    the three branches on the mode do. *)
Definition launches (argv : list string) (r : routine) (pp : param) : Prop :=
  let mode := arg_at argv 1 in
  4 <= Z.of_nat (List.length argv) /\
  exists idx,
    let p := with_interface argv idx (parse_args argv) in
    ((mode =? "recv")%string = true /\ r = Receiver /\ pp = p) \/
    ((mode =? "send")%string = true /\ r = Sender /\ pp = set_loop 1 p) \/
    ((mode =? "both")%string = true /\ pp = set_bidir 1 p).
End Program.

(** The two ways of joining the group. *)
Definition is_asm_join (c : call E) : bool :=
  match setsockopt_of c with
  | Some (IPV6_JOIN_GROUP _ _) => true
  | _ => false
  end.

Definition is_ssm_join (c : call E) : bool :=
  match setsockopt_of c with
  | Some (MCAST_JOIN_SOURCE_GROUP _ _ _) => true
  | _ => false
  end.

End Multicast6.


(* ===================================================================== *)
(** * What the programs are expected to show
    The text of the datagrams and the threads of [main], written out once
    to state the properties of the runs against. *)
(* ===================================================================== *)

Section Expected.
Import Libc Sys.
Context `{Host}.
Variable NOSSM : bool.

(** The text "%s%.*s/%s/%06d" makes of [fixstr + k], [k], [fixstr], the
    time and the number: the pattern turned by [k] places, the time and
    the number, with slashes between. *)
Definition message_text (fixstr : string) (k : nat) (now : tm) (n : Z)
  : string :=
  (string_from k fixstr ++ string_prec k fixstr ++ "/"
     ++ strftime_HMS now ++ "/" ++ fmt_0d 6 n)%string.

(** The datagram the IPv4 sender sends after [i] others, at time [now]:
    [i] is its counter. *)
Definition message4 (i : Z) (now : tm) : string :=
  message_text ".....*" (Z.to_nat (i mod 6)) now i.

(** The same for the IPv6 sender, whose pattern starts with the digit
    [(i / 6) % 10], is turned the other way and is followed by [i + 1]. *)
Definition message6 (i : Z) (now : tm) : string :=
  message_text
    (String (ascii_of_nat (Z.to_nat (48 + (i / 6) mod 10))) ".....")
    (Z.to_nat (6 - i mod 6)) now (i + 1).

(** The clock gives a time of day. *)
Definition time_of_day (t : tm) : Prop :=
  0 <= tm_hour t < 24 /\ 0 <= tm_min t < 60 /\ 0 <= tm_sec t < 61.

(** What a sender hands to [sendto]: the datagram [message] makes of the
    number of datagrams sent before and of the time just read, whole,
    with its length; 20 characters of it while the number has six
    digits and the time is a time of day. *)
Definition sends_message (message : Z -> tm -> string) (first : Z)
           {A O P : Type} (h : list (call (sysE A O P)))
           (c : call (sysE A O P)) : Prop :=
  forall msg len,
    sent_of c = Some (msg, len) ->
    let i := Z.of_nat (count is_sendto h) in
    i + first <= INT_MAX ->
    exists now,
      match last_call h with
      | Some c1 => time_of c1 = Some now
      | None => False
      end /\
      msg = message i now /\
      len = Z.of_nat (String.length msg) /\
      (time_of_day now -> i + first < 1000000 -> len = 20).

(** The threads [main] starts, in order. *)
Definition launch_plan4 (argv : list string)
  : list (routine * Multicast.param) :=
  let p := Multicast.parse_args NOSSM argv in
  let mode := Multicast.arg_at argv 1 in
  if (mode =? "recv")%string then [(Receiver, p)]
  else if (mode =? "send")%string then [(Sender, Multicast.set_loop 1 p)]
  else if (mode =? "both")%string then
    [(Receiver, Multicast.set_bidir 1 p); (Sender, Multicast.set_bidir 1 p)]
  else [].

Definition launch_plan6 (argv : list string) (idx : Z)
  : list (routine * Multicast6.param) :=
  let p := Multicast6.with_interface argv idx
             (Multicast6.parse_args NOSSM argv) in
  let mode := Multicast6.arg_at argv 1 in
  if (mode =? "recv")%string then [(Receiver, p)]
  else if (mode =? "send")%string then [(Sender, Multicast6.set_loop 1 p)]
  else if (mode =? "both")%string then
    [(Receiver, Multicast6.set_bidir 1 p);
     (Sender, Multicast6.set_bidir 1 p)]
  else [].

(** [main] is called as its usage line forbids: with fewer than three
    arguments, or with a mode it does not know. *)
Definition bad_usage (argv : list string) : bool :=
  (Z.of_nat (List.length argv) <? 4)
  || negb ((nth 1 argv "" =? "recv")%string
           || (nth 1 argv "" =? "send")%string
           || (nth 1 argv "" =? "both")%string).

(** The usage lines. *)
Definition usage4 (argv : list string) : call Multicast.E :=
  Call (fprintf_stderr
          "Usage: %s <send|recv|both> <mip> <port> [sip|-] [ifip]\n"
          [arg_str (nth 0 argv "")]) (Some tt).

Definition usage6 (argv : list string) : call Multicast6.E :=
  Call (fprintf_stderr
          "Usage: %s <send|recv|both> <mip> <port> [sip|-] [ifname]\n"
          [arg_str (nth 0 argv "")]) (Some tt).
End Expected.

(** The device option of the IPv6 receiver. *)
Definition is_bindtodevice (c : call Multicast6.E) : bool :=
  match setsockopt_of c with
  | Some (Multicast6.SO_BINDTODEVICE _) => true
  | _ => false
  end.
(* ===================================================================== *)
(** * Traces of sequences and of loops *)
(* ===================================================================== *)

Section TraceFacts.
Context {E : Type -> Type}.

(** One step of a trace, read off the head of the tree. *)
Lemma is_traceF_inv {R : Type} (ot : itree' E R) (tr : @trace E R) :
  is_traceF ot tr ->
  match ot with
  | RetF r => tr = TEnd \/ tr = TRet r
  | TauF t => is_traceF (observe t) tr
  | VisF e k =>
      tr = TEnd \/ tr = TEventEnd e \/
      exists x tr', tr = TEventResponse e x tr' /\
                    is_traceF (observe (k x)) tr'
  end.
Proof.
  intros Htr. destruct Htr as [ot | r | t tr Htr | X e k | X e x k tr Htr].
  - destruct ot; auto. constructor.
  - auto.
  - exact Htr.
  - auto.
  - right. right. exists x, tr. auto.
Qed.

Lemma run_is_trace {R : Type} (fuel : nat) (o : oracle E) :
  forall (n : nat) (t : itree E R), is_trace t (run fuel o n t).
Proof.
  induction fuel as [|fuel IH]; intros n t; unfold is_trace; simpl.
  - constructor.
  - destruct (observe t) as [r | t' | X e k].
    + constructor.
    + constructor. apply IH.
    + destruct (o X e n) as [x|]; constructor. apply IH.
Qed.

(** A trace of [t ;; k] is a trace of [t] that has not returned, or a
    complete trace of [t] followed by a trace of [k]. *)
Lemma is_trace_bind_inv {R S : Type} (k : R -> itree E S) (tr : @trace E S) :
  forall t : itree E R,
    is_trace (ITree.bind t k) tr ->
    (exists tr1, is_trace t tr1 /\ trace_ret tr1 = None /\
                 calls tr = calls tr1 /\ trace_ret tr = None) \/
    (exists tr1 r tr2, is_trace t tr1 /\ trace_ret tr1 = Some r /\
                       is_trace (k r) tr2 /\
                       calls tr = calls tr1 ++ calls tr2 /\
                       trace_ret tr = trace_ret tr2).
Proof.
  unfold is_trace. intros t Htr.
  remember (observe (ITree.bind t k)) as ot eqn:Hot.
  revert t Hot.
  induction Htr as [ot | s | t0 tr Htr IH | X e h | X e x h tr Htr IH];
    intros t Hot; rewrite observe_bind in Hot;
    destruct (observe t) as [r | t' | Y e' h'] eqn:Hobs; cbn in Hot;
    try discriminate Hot;
    try (right; exists (TRet r), r; eexists;
         split; [constructor | split; [reflexivity | split;
           [rewrite <- Hot; constructor; eassumption
           | split; reflexivity]]]).
  - left. exists TEnd. repeat split; constructor.
  - left. exists TEnd. repeat split; constructor.
  - injection Hot as ->.
    destruct (IH t' eq_refl) as [(tr1 & H1 & H2 & H3 & H4)
                                | (tr1 & r & tr2 & H1 & H2 & H3 & H4 & H5)].
    + left. exists tr1. repeat split; auto. constructor. exact H1.
    + right. exists tr1, r, tr2. repeat split; auto. constructor. exact H1.
  - left. exists (TEventEnd e').
    apply eq_inv_VisF_weak in Hot. destruct Hot as [p [He _]].
    destruct p. cbn in He. subst e'.
    repeat split; constructor.
  - apply eq_inv_VisF_weak in Hot. destruct Hot as [p [He Hh]].
    destruct p. cbn in He, Hh. subst e' h.
    destruct (IH (h' x) eq_refl) as [(tr1 & H1 & H2 & H3 & H4)
                                | (tr1 & r & tr2 & H1 & H2 & H3 & H4 & H5)].
    + left. exists (TEventResponse e x tr1). cbn.
      repeat split; auto. constructor. exact H1. congruence.
    + right. exists (TEventResponse e x tr1), r, tr2. cbn.
      repeat split; auto. constructor. exact H1. congruence.
Qed.

(** Traces do not see the difference between weakly bisimilar trees. *)
#[global] Instance is_trace_eutt {R : Type} :
  Proper (eutt eq ==> eq ==> iff) (@is_trace E R).
Proof.
  intros t1 t2 Heq tr ? <-. destruct (@eutt_trace_eq _ _ _ _ Heq) as [H12 H21].
  split; [apply H12 | apply H21].
Qed.

#[global] Instance is_trace_eq_itree {R : Type} :
  Proper (eq_itree eq ==> eq ==> iff) (@is_trace E R).
Proof.
  intros t1 t2 Heq tr ? <-. apply is_trace_eutt; [|reflexivity].
  rewrite Heq. reflexivity.
Qed.

Lemma is_trace_ret_inv {R : Type} (r : R) (tr : @trace E R) :
  is_trace (Ret r) tr -> tr = TEnd \/ tr = TRet r.
Proof. intros Htr. apply is_traceF_inv in Htr. exact Htr. Qed.

Lemma is_trace_vis_inv {R X : Type} (e : E X) (k : X -> itree E R)
      (tr : @trace E R) :
  is_trace (Vis e k) tr ->
  tr = TEnd \/ tr = TEventEnd e \/
  exists x tr', tr = TEventResponse e x tr' /\ is_trace (k x) tr'.
Proof. intros Htr. apply is_traceF_inv in Htr. exact Htr. Qed.

Lemma is_trace_tau_inv {R : Type} (t : itree E R) (tr : @trace E R) :
  is_trace (Tau t) tr -> is_trace t tr.
Proof. intros Htr. apply is_traceF_inv in Htr. exact Htr. Qed.


(** ** Building traces *)

Lemma is_trace_end {R : Type} (t : itree E R) : is_trace t TEnd.
Proof. constructor. Qed.

Lemma is_trace_ret_intro {R : Type} (r : R) :
  is_trace (Ret r : itree E R) (TRet r).
Proof. constructor. Qed.

Lemma is_trace_vis_end {R X : Type} (e : E X) (k : X -> itree E R) :
  is_trace (Vis e k) (TEventEnd e).
Proof. constructor. Qed.

Lemma is_trace_vis_intro {R X : Type} (e : E X) (k : X -> itree E R)
      (x : X) (tr : @trace E R) :
  is_trace (k x) tr -> is_trace (Vis e k) (TEventResponse e x tr).
Proof. intros Htr. constructor. exact Htr. Qed.

Lemma calls_app_trace {R S : Type} (tr1 : @trace E R) (tr2 : @trace E S) r :
  trace_ret tr1 = Some r ->
  calls (app_trace tr1 tr2) = calls tr1 ++ calls tr2.
Proof.
  induction tr1 as [| s | X e | X e x tr1 IH]; simpl; intros Hret;
    try discriminate Hret.
  - reflexivity.
  - rewrite IH by exact Hret. reflexivity.
Qed.

Lemma trace_ret_app_trace {R S : Type} (tr1 : @trace E R) (tr2 : @trace E S) r :
  trace_ret tr1 = Some r ->
  trace_ret (app_trace tr1 tr2) = trace_ret tr2.
Proof.
  induction tr1 as [| s | X e | X e x tr1 IH]; simpl; intros Hret;
    try discriminate Hret; auto.
Qed.

(** A complete trace of [t] followed by a trace of what comes next. *)
Lemma is_trace_bind_intro {R S : Type} (k : R -> itree E S)
      (tr1 : @trace E R) (r : R) (tr2 : @trace E S) :
  forall t : itree E R,
    is_trace t tr1 -> trace_ret tr1 = Some r -> is_trace (k r) tr2 ->
    is_trace (ITree.bind t k) (app_trace tr1 tr2).
Proof.
  unfold is_trace. intros t Htr.
  remember (observe t) as ot eqn:Hot. revert t Hot.
  induction Htr as [ot | s | t0 tr Htr IH | X e h | X e x h tr Htr IH];
    intros t Hot Hret H2; rewrite observe_bind, <- Hot; cbn in *;
    try discriminate Hret.
  - injection Hret as ->. exact H2.
  - constructor. apply (IH t0 eq_refl Hret H2).
  - constructor. apply (IH (h x) eq_refl Hret H2).
Qed.

(** A trace of [t] that has not returned is, call for call, a trace of
    [t] followed by anything. *)
Lemma is_trace_bind_partial {R S : Type} (k : R -> itree E S)
      (tr1 : @trace E R) :
  forall t : itree E R,
    is_trace t tr1 -> trace_ret tr1 = None ->
    exists tr : @trace E S,
      is_trace (ITree.bind t k) tr /\ calls tr = calls tr1 /\
      trace_ret tr = None.
Proof.
  unfold is_trace. intros t Htr.
  remember (observe t) as ot eqn:Hot. revert t Hot.
  induction Htr as [ot | s | t0 tr Htr IH | X e h | X e x h tr Htr IH];
    intros t Hot Hret; cbn in *; try discriminate Hret.
  - exists TEnd. split; [constructor | split; reflexivity].
  - destruct (IH t0 eq_refl Hret) as (tr' & Htr' & Hcalls).
    exists tr'. split; [|exact Hcalls].
    rewrite observe_bind, <- Hot. cbn. constructor. exact Htr'.
  - exists (TEventEnd e). split; [|split; reflexivity].
    rewrite observe_bind, <- Hot. cbn. constructor.
  - destruct (IH (h x) eq_refl Hret) as (tr' & Htr' & Hcalls & Hret').
    exists (TEventResponse e x tr').
    split; [|split; [cbn; rewrite Hcalls; reflexivity | exact Hret']].
    rewrite observe_bind, <- Hot. cbn. constructor. exact Htr'.
Qed.

(** A complete turn of a loop followed by a trace of the loop. *)
Lemma is_trace_iter_intro {I R : Type} (body : I -> itree E (I + R))
      (i i' : I) (tr1 : @trace E (I + R)) (tr2 : @trace E R) :
  is_trace (body i) tr1 -> trace_ret tr1 = Some (inl i') ->
  is_trace (ITree.iter body i') tr2 ->
  is_trace (ITree.iter body i) (app_trace tr1 tr2).
Proof.
  intros H1 Hret H2. rewrite unfold_iter.
  eapply is_trace_bind_intro; [exact H1 | exact Hret |].
  cbn. constructor. exact H2.
Qed.

(** The last turn of a loop, cut short. *)
Lemma is_trace_iter_last {I R : Type} (body : I -> itree E (I + R))
      (i : I) (tr1 : @trace E (I + R)) :
  is_trace (body i) tr1 -> trace_ret tr1 = None ->
  exists tr : @trace E R,
    is_trace (ITree.iter body i) tr /\ calls tr = calls tr1 /\
    trace_ret tr = None.
Proof.
  intros H1 Hret.
  destruct (is_trace_bind_partial
              (fun lr : I + R =>
                 match lr with
                 | inl l => Tau (ITree.iter body l)
                 | inr r => Ret r
                 end) H1 Hret) as (tr & Htr & Hcalls).
  exists tr. split; [|exact Hcalls]. rewrite unfold_iter. exact Htr.
Qed.
End TraceFacts.

Section AlwaysFacts.
Context {T : Type}.
Implicit Types (Q : list T -> T -> Prop) (h l : list T) (c : T).

Lemma always_after_nil Q h : always_after h Q [].
Proof. intros [|? ?] c post Heq; discriminate Heq. Qed.

Lemma always_after_cons Q h c l :
  Q h c -> always_after (c :: h) Q l -> always_after h Q (c :: l).
Proof.
  intros Hc Hl [|c' pre] d post Heq; injection Heq as -> ->.
  - exact Hc.
  - simpl. rewrite <- app_assoc. simpl. eapply Hl. reflexivity.
Qed.

Lemma always_after_one Q h c : Q h c -> always_after h Q [c].
Proof. intros Hc. apply always_after_cons; [exact Hc | apply always_after_nil]. Qed.

Lemma always_after_app Q l1 : forall h l2,
  always_after h Q l1 -> always_after (rev l1 ++ h) Q l2 ->
  always_after h Q (l1 ++ l2).
Proof.
  induction l1 as [|c l1 IH]; intros h l2 H1 H2; simpl in *.
  - exact H2.
  - apply always_after_cons.
    + apply (H1 [] c l1). reflexivity.
    + apply IH.
      * intros pre d post Heq. specialize (H1 (c :: pre) d post).
        simpl in H1. rewrite <- app_assoc in H1. apply H1.
        rewrite Heq. reflexivity.
      * rewrite <- app_assoc in H2. exact H2.
Qed.

Lemma always_after_weaken Q Q' h l :
  (forall h' c, Q h' c -> Q' h' c) ->
  always_after h Q l -> always_after h Q' l.
Proof. intros HQ Hl pre c post Heq. apply HQ. eapply Hl. exact Heq. Qed.

Lemma always_after_and Q Q' h l :
  always_after h Q l -> always_after h Q' l ->
  always_after h (fun h' c => Q h' c /\ Q' h' c) l.
Proof. intros H1 H2 pre c post Heq. split; [eapply H1 | eapply H2]; exact Heq. Qed.
End AlwaysFacts.

Section LoopFacts.
Context {E : Type -> Type}.

(** A loop that keeps an invariant [Inv] between the calls made so far
    and its state, and whose every complete turn makes a call and asks
    for another turn: [Q] holds at every call of its runs, and it does
    not return. *)
Lemma always_iter {I R : Type} (body : I -> itree E (I + R))
      (Inv : list (call E) -> I -> Prop) (Q : list (call E) -> call E -> Prop) :
  (forall h i tr,
      Inv h i -> is_trace (body i) tr ->
      always_after h Q (calls tr) /\
      match trace_ret tr with
      | None => True
      | Some (inl i') => calls tr <> [] /\ Inv (rev (calls tr) ++ h) i'
      | Some (inr _) => False
      end) ->
  forall (tr : @trace E R) h i,
    Inv h i -> is_trace (ITree.iter body i) tr ->
    always_after h Q (calls tr) /\ trace_ret tr = None.
Proof.
  intros Hbody tr.
  remember (List.length (calls tr)) as n eqn:Hn.
  revert tr Hn. induction n as [n IH] using lt_wf_ind.
  intros tr Hn h i Hinv Htr.
  rewrite unfold_iter in Htr.
  apply is_trace_bind_inv in Htr.
  destruct Htr as [(tr1 & H1 & H2 & H3 & H4)
                  | (tr1 & r & tr2 & H1 & H2 & H3 & H4 & H5)].
  - split; [|exact H4]. rewrite H3. apply (Hbody h i tr1 Hinv H1).
  - destruct (Hbody h i tr1 Hinv H1) as [Hq Hret].
    rewrite H2 in Hret. destruct r as [i'|r]; [|contradiction].
    destruct Hret as [Hne Hinv'].
    apply is_trace_tau_inv in H3.
    assert (Hlt : (List.length (calls tr2) < n)%nat).
    { subst n. rewrite H4, length_app.
      destruct (calls tr1); [congruence | simpl; lia]. }
    destruct (IH _ Hlt tr2 eq_refl _ i' Hinv' H3) as [Hq2 Hret2].
    split; [|congruence]. rewrite H4.
    apply always_after_app; assumption.
Qed.

(** The same for a loop followed by more code, which is never reached. *)
Lemma always_iter_bind {I R S : Type} (body : I -> itree E (I + R))
      (k : R -> itree E S)
      (Inv : list (call E) -> I -> Prop) (Q : list (call E) -> call E -> Prop) :
  (forall h i tr,
      Inv h i -> is_trace (body i) tr ->
      always_after h Q (calls tr) /\
      match trace_ret tr with
      | None => True
      | Some (inl i') => calls tr <> [] /\ Inv (rev (calls tr) ++ h) i'
      | Some (inr _) => False
      end) ->
  forall (tr : @trace E S) h i,
    Inv h i -> is_trace (ITree.bind (ITree.iter body i) k) tr ->
    always_after h Q (calls tr).
Proof.
  intros Hbody tr h i Hinv Htr.
  apply is_trace_bind_inv in Htr.
  destruct Htr as [(tr1 & H1 & H2 & H3 & H4)
                  | (tr1 & r & tr2 & H1 & H2 & H3 & H4 & H5)].
  - rewrite H3. eapply always_iter; eassumption.
  - edestruct (@always_iter I R body Inv Q) as [_ Hret];
      [exact Hbody | exact Hinv | exact H1 |].
    congruence.
Qed.
End LoopFacts.

(* ===================================================================== *)
(** * Walking the straight-line code of a thread *)
(* ===================================================================== *)

Lemma Some_inj {T : Type} (a b : T) : Some a = Some b -> a = b.
Proof. congruence. Qed.

(** Bring the tree of a trace hypothesis to a head form. *)
Ltac norm_trace H :=
  repeat (first [ rewrite bind_bind in H
                | rewrite bind_ret_l in H
                | rewrite bind_trigger in H
                | match type of H with
                  | is_trace (ITree.bind (ITree.trigger _) _) _ =>
                      setoid_rewrite bind_trigger in H at 1
                  end ]).

(** Read a trace off a tree, call after call and branch after branch, as
    far as the code is straight-line: what is left is one goal for every
    point at which the observation can stop, and one for every loop. *)
Ltac unroll H :=
  norm_trace H;
  lazymatch type of H with
  | is_trace (Vis _ _) _ =>
      let x := fresh "x" in
      let tr := fresh "tr" in
      apply is_trace_vis_inv in H;
      destruct H as [-> | [-> | (x & tr & -> & H)]];
      [ | | first [ solve [destruct x] | unroll H ] ]
  | is_trace (Ret _) _ =>
      apply is_trace_ret_inv in H; destruct H as [-> | ->]
  | is_trace (ITree.bind (if ?c then _ else _) _) _ =>
      let Hc := fresh "Hc" in destruct c eqn:Hc; unroll H
  | is_trace (if ?c then _ else _) _ =>
      let Hc := fresh "Hc" in destruct c eqn:Hc; unroll H
  | is_trace (ITree.bind (match ?r with
                          | Sys.recv_error => _
                          | Sys.recv_datagram _ _ => _
                          end) _) _ =>
      destruct r; unroll H
  | is_trace (match ?r with
              | Sys.recv_error => _
              | Sys.recv_datagram _ _ => _
              end) _ =>
      destruct r; unroll H
  | _ => idtac
  end.

(** Split a property of every call of an explicit list of calls into one
    goal for each call. *)
Ltac each_call :=
  cbn [calls];
  repeat first [ apply always_after_nil
               | apply always_after_cons ].

(* ===================================================================== *)
(** * The receivers' sanitizing loop *)
(* ===================================================================== *)

Section Sanitize.
Import Libc Sys.

Lemma store_length i c : forall buffer,
  List.length (store i c buffer) = List.length buffer.
Proof.
  induction i as [|i IH]; intros [|b rest]; simpl; auto.
Qed.

(** Run from index [i] on a buffer split at [i], the loop rewrites the
    next [n] characters and nothing else. *)
Lemma sanitize_loop_from n : forall done todo,
  (n <= List.length todo)%nat ->
  sanitize_loop n (List.length done) (done ++ todo) =
  done ++ List.map sanitized (firstn n todo) ++ skipn n todo.
Proof.
  induction n as [|n IH]; intros done todo Hn.
  - reflexivity.
  - destruct todo as [|c todo]; [simpl in Hn; lia|].
    simpl in Hn. cbn [sanitize_loop].
    assert (Hnth : nth (List.length done) (done ++ c :: todo) zero = c).
    { rewrite app_nth2, Nat.sub_diag by lia. reflexivity. }
    assert (Hstore : (if isprint (char_to_int c) then done ++ c :: todo
                      else store (List.length done) "." (done ++ c :: todo))
                     = (done ++ [sanitized c]) ++ todo).
    { unfold sanitized. rewrite <- app_assoc. simpl.
      destruct (isprint (char_to_int c)); [reflexivity|].
      clear. induction done as [|d done IHd]; simpl; [reflexivity|].
      rewrite IHd. reflexivity. }
    rewrite Hnth, Hstore.
    replace (S (List.length done)) with (List.length (done ++ [sanitized c]))
      by (rewrite length_app; simpl; lia).
    rewrite IH by lia. rewrite <- app_assoc. reflexivity.
Qed.

Lemma sanitize_loop_all received rest :
  sanitize_loop (List.length received) 0 (received ++ rest) =
  List.map sanitized received ++ rest.
Proof.
  pose proof (@sanitize_loop_from (List.length received) [] (received ++ rest))
    as Hs.
  simpl in Hs. rewrite Hs by (rewrite length_app; lia).
  rewrite firstn_app, Nat.sub_diag, firstn_all, skipn_app, Nat.sub_diag.
  rewrite skipn_all. simpl. rewrite app_nil_r. reflexivity.
Qed.

(** A sanitized character is never NUL, so "%.*s" prints all of them. *)
Lemma sanitized_not_nul c : (char_to_int (sanitized c) =? 0) = false.
Proof.
  unfold sanitized. destruct (isprint (char_to_int c)) eqn:Hp.
  - unfold isprint in Hp. apply Z.eqb_neq. lia.
  - reflexivity.
Qed.

Lemma chars_prec_sanitized received rest :
  chars_prec (List.length received) (List.map sanitized received ++ rest) =
  List.map sanitized received.
Proof.
  induction received as [|c received IH]; simpl.
  - destruct rest; reflexivity.
  - rewrite sanitized_not_nul, IH. reflexivity.
Qed.

(** What a receiver prints for a datagram of which [received] was
    stored. *)
Lemma printed_payload received buffer :
  chars_prec (List.length received)
    (sanitize_loop (List.length received) 0
       (received ++ skipn (List.length received) buffer)) =
  List.map sanitized received.
Proof. rewrite sanitize_loop_all. apply chars_prec_sanitized. Qed.

Lemma sanitized_cases c :
  (sanitized c = c \/ sanitized c = "."%char) /\
  (sanitized c = "."%char <->
   isprint (char_to_int c) = false \/ c = "."%char).
Proof.
  unfold sanitized. destruct (isprint (char_to_int c)) eqn:Hp.
  - split; [left; reflexivity|]. split; [auto|].
    intros [Hf | Hdot]; [discriminate | exact Hdot].
  - split; [right; reflexivity|]. split; auto.
Qed.
End Sanitize.

Section Payload.
Import Libc Sys.

Lemma to_int_small z : 0 <= z < 2147483648 -> to_int z = z.
Proof.
  intros Hz. unfold to_int.
  rewrite Z.mod_small by lia. lia.
Qed.

Lemma sanitized_Forall2 input :
  Forall2 (fun i o =>
             (o = i \/ o = "."%char) /\
             (o = "."%char <->
              isprint (char_to_int i) = false \/ i = "."%char))
          input (List.map sanitized input).
Proof.
  induction input as [|c input IH]; simpl; constructor.
  - apply sanitized_cases.
  - exact IH.
Qed.

(** The payload printed for a datagram, for a precision [n] that is the
    number of characters stored. *)
Lemma printed_payload_ok size data buffer n out :
  let received := firstn (Z.to_nat size) data in
  n = List.length received ->
  out = chars_prec n
          (sanitize_loop (List.length received) 0
             (received ++ skipn (List.length received) buffer)) ->
  List.length out = List.length received /\
  Forall2 (fun i o =>
             (o = i \/ o = "."%char) /\
             (o = "."%char <->
              isprint (char_to_int i) = false \/ i = "."%char))
          received out.
Proof.
  intros received -> ->. rewrite printed_payload.
  split; [apply length_map | apply sanitized_Forall2].
Qed.
End Payload.

(* ===================================================================== *)
(** * The text of a message *)
(* ===================================================================== *)

Section Strings.
Import Libc Sys.

Lemma length_append (s1 s2 : string) :
  String.length (s1 ++ s2) = (String.length s1 + String.length s2)%nat.
Proof. induction s1 as [|c s1 IH]; simpl; [reflexivity | rewrite IH; reflexivity]. Qed.

Lemma append_assoc (s1 s2 s3 : string) :
  ((s1 ++ s2) ++ s3 = s1 ++ s2 ++ s3)%string.
Proof. induction s1 as [|c s1 IH]; simpl; [reflexivity | rewrite IH; reflexivity]. Qed.

Lemma string_prec_all n : forall s,
  (String.length s <= n)%nat -> string_prec n s = s.
Proof.
  induction n as [|n IH]; intros [|c s] Hs; simpl in *; try reflexivity.
  - lia.
  - rewrite IH by lia. reflexivity.
Qed.

Lemma string_prec_length n : forall s,
  (String.length (string_prec n s) <= n)%nat.
Proof.
  induction n as [|n IH]; intros [|c s]; simpl; try lia.
  specialize (IH s). lia.
Qed.

Lemma string_prec_shorter n : forall s,
  (String.length (string_prec n s) <= String.length s)%nat.
Proof.
  induction n as [|n IH]; intros [|c s]; simpl; try lia.
  specialize (IH s). lia.
Qed.

Lemma string_from_shorter k : forall s,
  (String.length (string_from k s) <= String.length s)%nat.
Proof.
  induction k as [|k IH]; intros [|c s]; simpl; try lia.
  specialize (IH s). lia.
Qed.

Lemma set_first_length c s : String.length (set_first c s) = String.length s.
Proof. destruct s; reflexivity. Qed.

Lemma zeros_length n : String.length (zeros n) = n.
Proof. induction n as [|n IH]; simpl; [reflexivity | rewrite IH; reflexivity]. Qed.

(** [decimal_aux] writes one digit in front of [acc] for each unit of
    fuel it uses. *)
Lemma decimal_aux_length_fuel fuel : forall z acc,
  (String.length (decimal_aux fuel z acc) <= fuel + String.length acc)%nat.
Proof.
  induction fuel as [|fuel IH]; intros z acc; simpl; [lia|].
  destruct (z <? 10); simpl; [lia|].
  specialize (IH (z / 10) (String (digit_char (z mod 10)) acc)).
  simpl in IH. lia.
Qed.

(** A number below [10 ^ d] has at most [d] digits. *)
Lemma decimal_aux_length_le fuel : forall d z acc,
  (1 <= d)%nat -> 0 <= z < 10 ^ Z.of_nat d ->
  (String.length (decimal_aux fuel z acc) <= d + String.length acc)%nat.
Proof.
  induction fuel as [|fuel IH]; intros d z acc Hd Hz; simpl; [lia|].
  destruct (z <? 10) eqn:Hlt; simpl; [lia|].
  apply Z.ltb_ge in Hlt.
  destruct d as [|[|d]]; [lia | simpl in Hz; lia |].
  specialize (IH (S d) (z / 10) (String (digit_char (z mod 10)) acc)).
  simpl String.length in IH.
  assert (Hdiv : 0 <= z / 10 < 10 ^ Z.of_nat (S d)).
  { split; [apply Z.div_pos; lia|].
    apply Z.div_lt_upper_bound; [lia|].
    replace (Z.of_nat (S (S d))) with (Z.succ (Z.of_nat (S d))) in Hz by lia.
    rewrite Z.pow_succ_r in Hz by lia. lia. }
  specialize (IH ltac:(lia) Hdiv). lia.
Qed.

Lemma decimal_aux_length_acc fuel : forall z acc,
  (String.length acc <= String.length (decimal_aux fuel z acc))%nat.
Proof.
  induction fuel as [|fuel IH]; intros z acc; simpl; [lia|].
  destruct (z <? 10); simpl; [lia|].
  specialize (IH (z / 10) (String (digit_char (z mod 10)) acc)).
  simpl in IH. lia.
Qed.

(** A number from [10 ^ d] on has more than [d] digits, given the fuel
    to write them. *)
Lemma decimal_aux_length_ge fuel : forall d z acc,
  10 ^ Z.of_nat d <= z -> (d < fuel)%nat ->
  (d + String.length acc < String.length (decimal_aux fuel z acc))%nat.
Proof.
  induction fuel as [|fuel IH]; intros d z acc Hz Hfuel; [lia|]. simpl.
  destruct (z <? 10) eqn:Hlt.
  - apply Z.ltb_lt in Hlt. destruct d as [|d]; [simpl; lia|].
    replace (Z.of_nat (S d)) with (Z.succ (Z.of_nat d)) in Hz by lia.
    rewrite Z.pow_succ_r in Hz by lia.
    assert (0 < 10 ^ Z.of_nat d) by (apply Z.pow_pos_nonneg; lia). lia.
  - apply Z.ltb_ge in Hlt. destruct d as [|d].
    + pose proof (decimal_aux_length_acc fuel (z / 10)
                    (String (digit_char (z mod 10)) acc)) as Hle.
      simpl in Hle. lia.
    + specialize (IH d (z / 10) (String (digit_char (z mod 10)) acc)).
      simpl String.length in IH.
      assert (Hdiv : 10 ^ Z.of_nat d <= z / 10).
      { apply Z.div_le_lower_bound; [lia|].
        replace (Z.of_nat (S d)) with (Z.succ (Z.of_nat d)) in Hz by lia.
        rewrite Z.pow_succ_r in Hz by lia. lia. }
      specialize (IH Hdiv ltac:(lia)). lia.
Qed.

(** Enough fuel: a number from [10 ^ d] on has a binary logarithm of [d]
    at least. *)
Lemma decimal_length_ge d z :
  10 ^ Z.of_nat d <= z -> (d < String.length (decimal z))%nat.
Proof.
  intros Hz. unfold decimal.
  assert (Hpos : 0 < 10 ^ Z.of_nat d) by (apply Z.pow_pos_nonneg; lia).
  assert (Hlog : Z.of_nat d <= Z.log2 z).
  { apply Z.log2_le_pow2; [lia|].
    transitivity (10 ^ Z.of_nat d); [|exact Hz].
    apply Z.pow_le_mono_l. lia. }
  pose proof (@decimal_aux_length_ge (S (Z.to_nat (Z.log2 z))) d z ""
                Hz ltac:(lia)) as H.
  change (String.length "") with 0%nat in H. lia.
Qed.

Lemma decimal_length_le d z :
  (1 <= d)%nat -> 0 <= z < 10 ^ Z.of_nat d ->
  (String.length (decimal z) <= d)%nat.
Proof.
  intros Hd Hz. unfold decimal.
  pose proof (@decimal_aux_length_le (S (Z.to_nat (Z.log2 z))) d z ""
                Hd Hz) as H.
  change (String.length "") with 0%nat in H. lia.
Qed.

(** "%06d": six characters below a million, more from a million on. *)
Lemma fmt_06d_length_small n :
  0 <= n < 1000000 -> String.length (fmt_0d 6 n) = 6%nat.
Proof.
  intros Hn. unfold fmt_0d.
  destruct (n <? 0) eqn:Hneg; [apply Z.ltb_lt in Hneg; lia|].
  rewrite Z.abs_eq by lia.
  assert (Hle : (String.length (decimal n) <= 6)%nat).
  { apply decimal_length_le; [lia|].
    change (10 ^ Z.of_nat 6) with 1000000. lia. }
  rewrite !length_append, zeros_length.
  change (String.length "") with 0%nat. lia.
Qed.

Lemma fmt_06d_large n :
  1000000 <= n ->
  fmt_0d 6 n = decimal n /\ (6 < String.length (fmt_0d 6 n))%nat.
Proof.
  intros Hn. unfold fmt_0d.
  destruct (n <? 0) eqn:Hneg; [apply Z.ltb_lt in Hneg; lia|].
  rewrite Z.abs_eq by lia.
  assert (Hge : (6 < String.length (decimal n))%nat).
  { apply decimal_length_ge.
    change (10 ^ Z.of_nat 6) with 1000000. lia. }
  change (String.length "") with 0%nat.
  replace (6 - 0 - String.length (decimal n))%nat with 0%nat by lia.
  cbn [zeros append]. split; [reflexivity | lia].
Qed.

(** The width of "%06d" on an [int]. *)
Lemma fmt_06d_length_int n :
  INT_MIN <= n <= INT_MAX -> (String.length (fmt_0d 6 n) <= 17)%nat.
Proof.
  intros Hn. unfold fmt_0d, INT_MIN, INT_MAX in *.
  assert (Hle : (String.length (decimal (Z.abs n)) <= 10)%nat).
  { apply decimal_length_le; [lia|].
    change (10 ^ Z.of_nat 10) with 10000000000. lia. }
  rewrite !length_append, zeros_length.
  destruct (n <? 0); cbn [String.length]; lia.
Qed.

Lemma strftime_HMS_length t : (String.length (strftime_HMS t) <= 6)%nat.
Proof. apply string_prec_length. Qed.

(** A message fits its buffer, so that [snprintf] stores it whole. *)
Lemma snprintf_message_whole size s1 prec s2 t n :
  100 <= size ->
  (String.length s1 <= 6)%nat -> (String.length s2 <= 6)%nat ->
  INT_MIN <= n <= INT_MAX ->
  fst (snprintf_message size s1 prec s2 (strftime_HMS t) n) =
  ((s1 ++ string_prec (Z.to_nat prec) s2 ++ "/" ++ strftime_HMS t)
     ++ "/" ++ fmt_0d 6 n)%string.
Proof.
  intros Hsize H1 H2 Hn. unfold snprintf_message. cbn [fst].
  rewrite string_prec_all.
  - rewrite !append_assoc. reflexivity.
  - rewrite !length_append.
    pose proof (string_prec_shorter (Z.to_nat prec) s2).
    pose proof (strftime_HMS_length t).
    pose proof (fmt_06d_length_int Hn).
    cbn [String.length]. lia.
Qed.
End Strings.

(* ===================================================================== *)
(** * The receiver threads *)
(* ===================================================================== *)

(** A turn of a loop: [Q] at each of its calls and, when the turn is
    complete, the invariant for the next one. *)
Ltac turn solve_call solve_next :=
  split;
  [ each_call; solve_call
  | cbn [trace_ret calls]; solve_next ].

Ltac easy_call :=
  cbn; intros; try first [ discriminate | congruence | tauto ].

Ltac next_turn :=
  first [ exact I | split; [discriminate | auto] ].

Section ReceiverBind.
Import Libc Sys.
Context `{Host}.

(** No turn of the receive loop binds anything. *)
Lemma recv_iteration_no_bind (Q : sockaddr Z -> Prop) sock h buffer tr :
  True -> is_trace (Multicast.recv_iteration sock buffer) tr ->
  always_after h
    (fun _ (c : call Multicast.E) => forall a, bind_of c = Some a -> Q a)
    (calls tr) /\
  match trace_ret tr with
  | None => True
  | Some (inl _) => calls tr <> [] /\ True
  | Some (inr _) => False
  end.
Proof.
  intros _ Htr. unfold Multicast.recv_iteration in Htr.
  unroll Htr; turn easy_call next_turn.
Qed.

Lemma recv_iteration6_no_bind (Q : sockaddr in6_addr -> Prop) sock h buffer tr :
  True -> is_trace (Multicast6.recv_iteration sock buffer) tr ->
  always_after h
    (fun _ (c : call Multicast6.E) => forall a, bind_of c = Some a -> Q a)
    (calls tr) /\
  match trace_ret tr with
  | None => True
  | Some (inl _) => calls tr <> [] /\ True
  | Some (inr _) => False
  end.
Proof.
  intros _ Htr. unfold Multicast6.recv_iteration in Htr.
  unroll Htr; turn easy_call next_turn.
Qed.

Lemma recv_thread_bind NOSSM pp tr :
  is_trace (Multicast.recv_thread NOSSM pp) tr ->
  always (fun _ (c : call Multicast.E) =>
            forall a, bind_of c = Some a ->
                      a = {| sin_family := AF_INET;
                             sin_port := Multicast.port pp;
                             sin_addr := htonl INADDR_ANY |})
         (calls tr).
Proof.
  unfold Multicast.recv_thread, always, or_die, do_exit. intros Htr.
  unroll Htr; each_call; easy_call.
  all: eapply (@always_iter_bind _ _ _ _ _ _ (fun _ _ => True));
    [ apply recv_iteration_no_bind | exact I | eassumption ].
Qed.

Lemma recv_thread6_bind NOSSM pp tr :
  is_trace (Multicast6.recv_thread NOSSM pp) tr ->
  always (fun _ (c : call Multicast6.E) =>
            forall a, bind_of c = Some a ->
                      a = {| sin_family := AF_INET6;
                             sin_port := Multicast6.port pp;
                             sin_addr := in6addr_any |})
         (calls tr).
Proof.
  unfold Multicast6.recv_thread, always, or_die, do_exit. intros Htr.
  unroll Htr; each_call; easy_call.
  all: eapply (@always_iter_bind _ _ _ _ _ _ (fun _ _ => True));
    [ apply recv_iteration6_no_bind | exact I | eassumption ].
Qed.
End ReceiverBind.

(** Use the tests made on the way ([Hc : (x <? 0) = false] and the like). *)
Ltac use_tests :=
  repeat match goal with
         | Hc : ?b = _ |- context [?b] => rewrite Hc
         end.

(** Evaluate what is read off explicit calls, and nothing else. *)
Ltac read_calls :=
  cbn [last_call call_before_last returned failed succeeded socket_of
       setsockopt_of bind_of dest_of sendto_of recvfrom_of is_bind is_sendto
       is_recvfrom perror_of printf_of stderr_of exit_of thread_of
       payload_of is_setup
       Multicast.is_asm_join Multicast.is_ssm_join
       Multicast6.is_asm_join Multicast6.is_ssm_join
       rev app andb orb negb existsb filter List.length calls trace_ret
       some count] in *.

Ltac failure_call :=
  read_calls; use_tests; read_calls;
  repeat split; intros; try first [ discriminate | congruence | eauto ].

Ltac failure_turn h :=
  turn idtac idtac;
  unfold between_reads, read_failure_survived, setup_failure_fatal in *;
  try exact I;
  destruct h as [|? [|? ?]]; read_calls;
  solve [intuition (try discriminate; try congruence; eauto)].

Section ReceiverFailures.
Import Libc Sys.
Context `{Host}.

Lemma recv_iteration_failures sock h buffer tr :
  between_reads h ->
  is_trace (Multicast.recv_iteration sock buffer) tr ->
  always_after h
    (fun h c => read_failure_survived h c /\ setup_failure_fatal h c)
    (calls tr) /\
  match trace_ret tr with
  | None => True
  | Some (inl _) => calls tr <> [] /\ between_reads (rev (calls tr) ++ h)
  | Some (inr _) => False
  end.
Proof.
  intros Hinv Htr. unfold Multicast.recv_iteration in Htr.
  unroll Htr; failure_turn h.
Qed.

Lemma recv_iteration6_failures sock h buffer tr :
  between_reads h ->
  is_trace (Multicast6.recv_iteration sock buffer) tr ->
  always_after h
    (fun h c => read_failure_survived h c /\ setup_failure_fatal h c)
    (calls tr) /\
  match trace_ret tr with
  | None => True
  | Some (inl _) => calls tr <> [] /\ between_reads (rev (calls tr) ++ h)
  | Some (inr _) => False
  end.
Proof.
  intros Hinv Htr. unfold Multicast6.recv_iteration in Htr.
  unroll Htr; failure_turn h.
Qed.

Lemma recv_thread_failures NOSSM pp tr :
  is_trace (Multicast.recv_thread NOSSM pp) tr ->
  always (fun h c => read_failure_survived h c /\ setup_failure_fatal h c)
         (calls tr).
Proof.
  unfold Multicast.recv_thread, always, or_die, do_exit. intros Htr.
  unroll Htr; each_call.
  all: try (eapply (@always_iter_bind _ _ _ _ _ _ (fun h _ => between_reads h));
            [ | | eassumption ];
            [ cbv beta; intros; eapply recv_iteration_failures; eassumption | ]).
  all: unfold between_reads, read_failure_survived, setup_failure_fatal.
  all: read_calls; use_tests; read_calls.
  all: solve [intuition (try discriminate; try congruence; eauto)].
Qed.

Lemma recv_thread6_failures NOSSM pp tr :
  is_trace (Multicast6.recv_thread NOSSM pp) tr ->
  always (fun h c => read_failure_survived h c /\ setup_failure_fatal h c)
         (calls tr).
Proof.
  unfold Multicast6.recv_thread, always, or_die, do_exit. intros Htr.
  unroll Htr; each_call.
  all: try (eapply (@always_iter_bind _ _ _ _ _ _ (fun h _ => between_reads h));
            [ | | eassumption ];
            [ cbv beta; intros; eapply recv_iteration6_failures; eassumption | ]).
  all: unfold between_reads, read_failure_survived, setup_failure_fatal.
  all: read_calls; use_tests; read_calls.
  all: solve [intuition (try discriminate; try congruence; eauto)].
Qed.
End ReceiverFailures.

Section ReceiverJoins.
Import Libc Sys.
Context `{Host}.






End ReceiverJoins.

Section ReceiverPayload.
Import Libc Sys.
Context `{Host}.
#[local] Opaque firstn skipn Z.to_nat Z.of_nat.

Ltac payload_call :=
  unfold payload_sanitized; read_calls;
  let out := fresh "out" in
  let Hout := fresh "Hout" in
  intros out Hout; try discriminate Hout;
  try (injection Hout as Hout; symmetry in Hout;
       do 2 eexists; split; [reflexivity|]).

Lemma recv_iteration_payload sock h buffer tr :
  True ->
  is_trace (Multicast.recv_iteration sock buffer) tr ->
  always_after h (payload_sanitized Multicast.BUFSIZE) (calls tr) /\
  match trace_ret tr with
  | None => True
  | Some (inl _) => calls tr <> [] /\ True
  | Some (inr _) => False
  end.
Proof.
  intros _ Htr. unfold Multicast.recv_iteration in Htr.
  unroll Htr; turn idtac next_turn; payload_call.
  all: eapply printed_payload_ok; [|rewrite Nat2Z.id in *; eassumption].
  all: reflexivity.
Qed.

Lemma recv_iteration6_payload sock h buffer tr :
  True ->
  is_trace (Multicast6.recv_iteration sock buffer) tr ->
  always_after h (payload_sanitized Multicast6.BUFSIZE) (calls tr) /\
  match trace_ret tr with
  | None => True
  | Some (inl _) => calls tr <> [] /\ True
  | Some (inr _) => False
  end.
Proof.
  intros _ Htr. unfold Multicast6.recv_iteration in Htr.
  unroll Htr; turn idtac next_turn; payload_call.
  all: match goal with
       | Hout : _ = chars_prec _ _ |- _ =>
           rewrite to_int_small in Hout
             by (match goal with |- context [firstn ?n ?d] =>
                   pose proof (firstn_le_length n d) end;
                 unfold Multicast6.BUFSIZE in *; lia)
       end.
  all: eapply printed_payload_ok; [|rewrite Nat2Z.id in *; eassumption].
  all: reflexivity.
Qed.

Lemma recv_thread_payload NOSSM pp tr :
  is_trace (Multicast.recv_thread NOSSM pp) tr ->
  always (payload_sanitized Multicast.BUFSIZE) (calls tr).
Proof.
  unfold Multicast.recv_thread, always, or_die, do_exit. intros Htr.
  unroll Htr; each_call.
  all: try (eapply (@always_iter_bind _ _ _ _ _ _ (fun _ _ => True));
            [ | | eassumption ];
            [ cbv beta; intros; eapply recv_iteration_payload; eassumption
            | exact I ]).
  all: payload_call.
Qed.

Lemma recv_thread6_payload NOSSM pp tr :
  is_trace (Multicast6.recv_thread NOSSM pp) tr ->
  always (payload_sanitized Multicast6.BUFSIZE) (calls tr).
Proof.
  unfold Multicast6.recv_thread, always, or_die, do_exit. intros Htr.
  unroll Htr; each_call.
  all: try (eapply (@always_iter_bind _ _ _ _ _ _ (fun _ _ => True));
            [ | | eassumption ];
            [ cbv beta; intros; eapply recv_iteration6_payload; eassumption
            | exact I ]).
  all: payload_call.
Qed.
#[local] Transparent firstn skipn Z.to_nat Z.of_nat.
End ReceiverPayload.

(* ===================================================================== *)
(** * The sender threads *)
(* ===================================================================== *)

Section SetBefore.
Import Sys.
Context {A O P : Type}.
Implicit Types (h : list (call (sysE A O P))) (opt : O).

Lemma set_before_here opt c h :
  setsockopt_of c = Some opt -> succeeded c = true ->
  set_before opt (c :: h).
Proof. intros Hopt Hok. exists c. simpl. auto. Qed.

Lemma set_before_cons opt c h : set_before opt h -> set_before opt (c :: h).
Proof. intros (c' & Hin & Hc'). exists c'. simpl. auto. Qed.

Lemma set_before_app opt l h : set_before opt h -> set_before opt (l ++ h).
Proof.
  intros (c' & Hin & Hc'). exists c'. split; [|exact Hc'].
  apply in_or_app. auto.
Qed.
End SetBefore.

(** Find the call of the history that set an option. *)
Ltac find_option :=
  repeat first
    [ assumption
    | apply set_before_here;
      [ reflexivity | read_calls; use_tests; reflexivity ]
    | apply set_before_cons ].

Section SenderOptions.
Import Libc Sys.
Context `{Host}.

Lemma send_iteration_options ttl_opt loop_opt pp sock fixstr addr h i tr :
  set_before ttl_opt h /\ set_before loop_opt h ->
  is_trace (Multicast.send_iteration pp sock fixstr addr i) tr ->
  always_after h (options_set_before_send ttl_opt loop_opt) (calls tr) /\
  match trace_ret tr with
  | None => True
  | Some (inl _) =>
      calls tr <> [] /\
      (set_before ttl_opt (rev (calls tr) ++ h) /\
       set_before loop_opt (rev (calls tr) ++ h))
  | Some (inr _) => False
  end.
Proof.
  intros [Httl Hloop] Htr.
  unfold Multicast.send_iteration, or_die, do_exit in Htr.
  unroll Htr; turn idtac idtac; try exact I.
  all: unfold options_set_before_send; read_calls.
  all: repeat split; try discriminate; intros; find_option.
Qed.

Lemma send_iteration6_options ttl_opt loop_opt pp sock addr h st tr :
  set_before ttl_opt h /\ set_before loop_opt h ->
  is_trace (Multicast6.send_iteration pp sock addr st) tr ->
  always_after h (options_set_before_send ttl_opt loop_opt) (calls tr) /\
  match trace_ret tr with
  | None => True
  | Some (inl _) =>
      calls tr <> [] /\
      (set_before ttl_opt (rev (calls tr) ++ h) /\
       set_before loop_opt (rev (calls tr) ++ h))
  | Some (inr _) => False
  end.
Proof.
  intros [Httl Hloop] Htr.
  unfold Multicast6.send_iteration, or_die, do_exit in Htr.
  unroll Htr; turn idtac idtac; try exact I.
  all: unfold options_set_before_send; read_calls.
  all: repeat split; try discriminate; intros; find_option.
Qed.

Lemma send_thread_options pp tr :
  is_trace (Multicast.send_thread pp) tr ->
  always (options_set_before_send
            (Multicast.IP_MULTICAST_TTL 64)
            (Multicast.IP_MULTICAST_LOOP (Multicast.loop pp)))
         (calls tr).
Proof.
  unfold Multicast.send_thread, always, or_die, do_exit. intros Htr.
  unroll Htr; each_call.
  all: try (eapply (@always_iter_bind _ _ _ _ _ _
              (fun h _ =>
                 set_before (Multicast.IP_MULTICAST_TTL 64) h /\
                 set_before (Multicast.IP_MULTICAST_LOOP (Multicast.loop pp)) h));
            [ | | eassumption ];
            [ cbv beta; intros; eapply send_iteration_options; eassumption | ]).
  all: unfold options_set_before_send; read_calls.
  all: repeat split; try discriminate; intros; find_option.
Qed.

Lemma send_thread6_options pp tr :
  is_trace (Multicast6.send_thread pp) tr ->
  always (options_set_before_send
            (Multicast6.IPV6_MULTICAST_HOPS 64)
            (Multicast6.IPV6_MULTICAST_LOOP (Multicast6.loop pp)))
         (calls tr).
Proof.
  unfold Multicast6.send_thread, always, or_die, do_exit. intros Htr.
  unroll Htr; each_call.
  all: try (eapply (@always_iter_bind _ _ _ _ _ _
              (fun h _ =>
                 set_before (Multicast6.IPV6_MULTICAST_HOPS 64) h /\
                 set_before (Multicast6.IPV6_MULTICAST_LOOP (Multicast6.loop pp)) h));
            [ | | eassumption ];
            [ cbv beta; intros; eapply send_iteration6_options; eassumption | ]).
  all: unfold options_set_before_send; read_calls.
  all: repeat split; try discriminate; intros; find_option.
Qed.
End SenderOptions.

Section SenderBind.
Import Libc Sys.
Context `{Host}.





End SenderBind.

Section SenderSequence.
Import Libc Sys.
Context `{Host}.

Ltac short_string :=
  repeat first [ assumption
               | rewrite set_first_length
               | etransitivity; [apply string_from_shorter|] ].

Ltac sequence_call :=
  unfold sequence_numbered, counted, count in *; read_calls;
  cbn [fst snd] in *;
  try (intros; discriminate);
  try (let msg := fresh "msg" in
       let Hmsg := fresh "Hmsg" in
       let Hle := fresh "Hle" in
       intros msg Hmsg Hle; apply Some_inj in Hmsg; subst msg;
       rewrite ?Z.add_0_r in *;
       match goal with
       | Hinv : _ -> _ = _ |- _ =>
           rewrite !Hinv by (unfold INT_MAX in *; lia)
       end;
       rewrite ?(@to_int_small (_ + 1)) by (unfold INT_MAX in *; lia);
       rewrite snprintf_message_whole;
       [ eexists; reflexivity
       | unfold Multicast.BUFSIZE, Multicast6.BUFSIZE; lia
       | short_string
       | short_string
       | unfold INT_MIN, INT_MAX in *; lia ]).

Ltac sequence_next :=
  split; [discriminate|]; split; [cbn [snd]; short_string|];
  let Hle := fresh "Hle" in
  intros Hle; cbn [fst];
  match goal with
  | Hinv : _ -> ?i = _ |- _ =>
      rewrite Hinv by (unfold INT_MAX in *; lia)
  end;
  rewrite to_int_small by (unfold INT_MAX in *; lia); lia.

Lemma send_iteration_sequence pp sock fixstr dest h i tr :
  (String.length fixstr <= 6)%nat /\ counted h i ->
  is_trace (Multicast.send_iteration pp sock fixstr dest i) tr ->
  always_after h (sequence_numbered 0) (calls tr) /\
  match trace_ret tr with
  | None => True
  | Some (inl i') =>
      calls tr <> [] /\
      ((String.length fixstr <= 6)%nat /\ counted (rev (calls tr) ++ h) i')
  | Some (inr _) => False
  end.
Proof.
  intros [Hfix Hinv] Htr.
  unfold Multicast.send_iteration, or_die, do_exit in Htr.
  unroll Htr; turn idtac idtac; try exact I.
  all: sequence_call.
  sequence_next.
Qed.

Lemma send_iteration6_sequence pp sock dest h st tr :
  (String.length (snd st) <= 6)%nat /\ counted h (fst st) ->
  is_trace (Multicast6.send_iteration pp sock dest st) tr ->
  always_after h (sequence_numbered 1) (calls tr) /\
  match trace_ret tr with
  | None => True
  | Some (inl st') =>
      calls tr <> [] /\
      ((String.length (snd st') <= 6)%nat /\
       counted (rev (calls tr) ++ h) (fst st'))
  | Some (inr _) => False
  end.
Proof.
  destruct st as [i fixstr]. intros [Hfix Hinv] Htr.
  unfold Multicast6.send_iteration, or_die, do_exit in Htr.
  unroll Htr; turn idtac idtac; try exact I.
  all: sequence_call.
  sequence_next.
Qed.

Lemma send_thread_sequence pp tr :
  is_trace (Multicast.send_thread pp) tr ->
  always (sequence_numbered 0) (calls tr).
Proof.
  unfold Multicast.send_thread, always, or_die, do_exit. intros Htr.
  unroll Htr; each_call.
  all: try (eapply (@always_iter_bind _ _ _ _ _ _
              (fun h i => (String.length ".....*" <= 6)%nat /\ counted h i));
            [ | | eassumption ];
            [ cbv beta; intros; eapply send_iteration_sequence; eassumption | ]).
  all: sequence_call.
  all: split; [cbn; lia | reflexivity].
Qed.

Lemma send_thread6_sequence pp tr :
  is_trace (Multicast6.send_thread pp) tr ->
  always (sequence_numbered 1) (calls tr).
Proof.
  unfold Multicast6.send_thread, always, or_die, do_exit. intros Htr.
  unroll Htr; each_call.
  all: try (eapply (@always_iter_bind _ _ _ _ _ _
              (fun h st => (String.length (snd st) <= 6)%nat /\
                           counted h (fst st)));
            [ | | eassumption ];
            [ cbv beta; intros; eapply send_iteration6_sequence; eassumption | ]).
  all: sequence_call.
  all: split; [cbn; lia | reflexivity].
Qed.
End SenderSequence.

(* ===================================================================== *)
(** * The loops do run *)
(* ===================================================================== *)

Section Counting.
Context {T : Type}.

Lemma count_app (f : T -> bool) (l1 l2 : list T) :
  count f (l1 ++ l2) = (count f l1 + count f l2)%nat.
Proof. unfold count. rewrite filter_app, length_app. reflexivity. Qed.

Lemma cons_snoc (x c : T) (l pre : list T) :
  l = pre ++ [c] -> x :: l = (x :: pre) ++ [c].
Proof. intros ->. reflexivity. Qed.

Lemma app_snoc (c : T) (l0 l pre : list T) :
  l = pre ++ [c] -> l0 ++ l = (l0 ++ pre) ++ [c].
Proof. intros ->. rewrite app_assoc. reflexivity. Qed.
End Counting.

(** Let the environment answer [v] to the call at the head of the tree. *)
Ltac pass_test :=
  unfold Sys.or_die;
  repeat match goal with
         | |- context [0 <? 0] => change (0 <? 0) with false
         | |- context [Zpos ?p <? 0] => change (Zpos p <? 0) with false
         | |- context [Zneg ?p <? 0] => change (Zneg p <? 0) with true
         end;
  cbv beta iota;
  repeat first [ rewrite bind_bind | rewrite bind_ret_l | rewrite bind_trigger ].

Ltac answer v :=
  pass_test; eapply (@is_trace_vis_intro _ _ _ _ _ v _).

(** Let every call of the straight-line code succeed. *)
Ltac succeed :=
  repeat (pass_test;
          lazymatch goal with
          | |- is_trace (Vis (Sys.socket _) _) _ =>
              eapply (@is_trace_vis_intro _ _ _ _ _ 3 _)
          | |- is_trace (Vis (Sys.setsockopt _ _) _) _ =>
              eapply (@is_trace_vis_intro _ _ _ _ _ 0 _)
          | |- is_trace (Vis (Sys.bind _ _) _) _ =>
              eapply (@is_trace_vis_intro _ _ _ _ _ 0 _)
          | |- is_trace (Vis (Sys.printf _ _) _) _ =>
              eapply (@is_trace_vis_intro _ _ _ _ _ tt _)
          end).

Ltac answer_end :=
  pass_test; first [ apply is_trace_vis_end | apply is_trace_ret_intro ].

Section SenderProgress.
Import Libc Sys.
Context `{Host}.

(** A complete turn of the send loop, [sendto] having sent everything. *)
Lemma send_turn pp sock fixstr dest i (now : tm) :
  exists tr,
    is_trace (Multicast.send_iteration pp sock fixstr dest i) tr /\
    trace_ret tr = Some (inl (to_int (i + 1))) /\
    count is_sendto (calls tr) = 1%nat.
Proof.
  eexists. split; [|split].
  - unfold Multicast.send_iteration.
    answer now. answer 0. answer tt. answer tt. answer_end.
  - reflexivity.
  - reflexivity.
Qed.

(** The send loop hands datagram after datagram to [sendto]: for every
    [n] it has a run in which [n] datagrams have been sent and the next
    one is being sent. *)
Lemma send_loop_sends pp sock fixstr dest (now : tm) : forall (n : nat) i,
  exists tr pre c,
    is_trace (ITree.iter (Multicast.send_iteration pp sock fixstr dest) i) tr /\
    trace_ret tr = None /\
    calls tr = pre ++ [c] /\ is_sendto c = true /\
    count is_sendto pre = n.
Proof.
  induction n as [|n IH]; intros i.
  - assert (Hlast : exists tr1,
               is_trace (Multicast.send_iteration pp sock fixstr dest i) tr1 /\
               trace_ret tr1 = None /\
               exists c, calls tr1 = [Call localtime_now (Some now); c] /\
                         is_sendto c = true).
    { eexists. split; [|split].
      - unfold Multicast.send_iteration. answer now. answer_end.
      - reflexivity.
      - eexists. split; reflexivity. }
    destruct Hlast as (tr1 & H1 & Hret & c & Hcalls & Hc).
    destruct (is_trace_iter_last _ _ H1 Hret) as (tr & Htr & Heq & Hret').
    exists tr, [Call localtime_now (Some now)], c.
    repeat split; auto.
    rewrite Heq. exact Hcalls.
  - destruct (send_turn pp sock fixstr dest i now) as (tr1 & H1 & Hret & Hcount).
    destruct (IH (to_int (i + 1))) as (tr2 & pre & c & H2 & Hret2 & Hcalls & Hc & Hn).
    exists (app_trace tr1 tr2), (calls tr1 ++ pre), c.
    split; [eapply is_trace_iter_intro; eassumption|].
    split; [rewrite (trace_ret_app_trace _ _ Hret); exact Hret2|].
    split; [rewrite (calls_app_trace _ _ Hret); apply app_snoc; exact Hcalls|].
    split; [exact Hc|].
    rewrite count_app, Hcount, Hn. reflexivity.
Qed.

(** The same for the whole thread, in an environment in which setting
    the socket up succeeds. *)
Lemma send_thread_sends pp (now : tm) (n : nat) :
  exists tr pre c,
    is_trace (Multicast.send_thread pp) tr /\
    calls tr = pre ++ [c] /\ is_sendto c = true /\
    count is_sendto pre = n.
Proof.
  destruct (send_loop_sends pp 3 ".....*"
              {| sin_family := AF_INET; sin_port := Multicast.port pp;
                 sin_addr := Multicast.mip pp |} now n 0)
    as (ltr & pre & c & Hl & Hret & Hcalls & Hc & Hn).
  destruct (is_trace_bind_partial
              (fun _ : Z => ITree.trigger (close 3) ;; Ret 0) Hl Hret)
    as (tr' & Htr' & Heq & _).
  unfold Multicast.send_thread.
  destruct (Multicast.bidir pp =? 1) eqn:Hb;
    destruct (negb (Multicast.ifip pp =? htonl INADDR_ANY)) eqn:Hi.
  all: eexists; eexists; exists c.
  all: split;
    [ succeed; pass_test; exact Htr' | ].
  all: split; [cbn [calls]; rewrite Heq; repeat eapply cons_snoc; exact Hcalls|].
  all: split; [exact Hc | read_calls; exact Hn].
Qed.

Lemma send_turn6 pp sock dest st (now : tm) :
  exists tr st',
    is_trace (Multicast6.send_iteration pp sock dest st) tr /\
    trace_ret tr = Some (inl st') /\
    count is_sendto (calls tr) = 1%nat.
Proof.
  eexists. eexists. split; [|split].
  - unfold Multicast6.send_iteration.
    answer now. answer 0. answer tt. answer tt. answer_end.
  - reflexivity.
  - reflexivity.
Qed.

Lemma send_loop6_sends pp sock dest (now : tm) : forall (n : nat) st,
  exists tr pre c,
    is_trace (ITree.iter (Multicast6.send_iteration pp sock dest) st) tr /\
    trace_ret tr = None /\
    calls tr = pre ++ [c] /\ is_sendto c = true /\
    count is_sendto pre = n.
Proof.
  induction n as [|n IH]; intros st.
  - assert (Hlast : exists tr1,
               is_trace (Multicast6.send_iteration pp sock dest st) tr1 /\
               trace_ret tr1 = None /\
               exists c, calls tr1 = [Call localtime_now (Some now); c] /\
                         is_sendto c = true).
    { eexists. split; [|split].
      - unfold Multicast6.send_iteration. answer now. answer_end.
      - reflexivity.
      - eexists. split; reflexivity. }
    destruct Hlast as (tr1 & H1 & Hret & c & Hcalls & Hc).
    destruct (is_trace_iter_last _ _ H1 Hret) as (tr & Htr & Heq & Hret').
    exists tr, [Call localtime_now (Some now)], c.
    repeat split; auto.
    rewrite Heq. exact Hcalls.
  - destruct (send_turn6 pp sock dest st now) as (tr1 & st' & H1 & Hret & Hcount).
    destruct (IH st') as (tr2 & pre & c & H2 & Hret2 & Hcalls & Hc & Hn).
    exists (app_trace tr1 tr2), (calls tr1 ++ pre), c.
    split; [eapply is_trace_iter_intro; eassumption|].
    split; [rewrite (trace_ret_app_trace _ _ Hret); exact Hret2|].
    split; [rewrite (calls_app_trace _ _ Hret); apply app_snoc; exact Hcalls|].
    split; [exact Hc|].
    rewrite count_app, Hcount, Hn. reflexivity.
Qed.

Lemma send_thread6_sends pp (now : tm) (n : nat) :
  exists tr pre c,
    is_trace (Multicast6.send_thread pp) tr /\
    calls tr = pre ++ [c] /\ is_sendto c = true /\
    count is_sendto pre = n.
Proof.
  destruct (send_loop6_sends pp 3
              {| sin_family := AF_INET6; sin_port := Multicast6.port pp;
                 sin_addr := Multicast6.mip pp |} now n (0, "0....."))
    as (ltr & pre & c & Hl & Hret & Hcalls & Hc & Hn).
  destruct (is_trace_bind_partial
              (fun _ : Z => ITree.trigger (close 3) ;; Ret 0) Hl Hret)
    as (tr' & Htr' & Heq & _).
  unfold Multicast6.send_thread.
  destruct (Multicast6.bidir pp =? 1) eqn:Hb;
    destruct (negb (Multicast6.ifidx pp =? Multicast6.IFIDXDEFAULT)) eqn:Hi.
  all: eexists; eexists; exists c.
  all: split; [ succeed; pass_test; exact Htr' | ].
  all: split; [cbn [calls]; rewrite Heq; repeat eapply cons_snoc; exact Hcalls|].
  all: split; [exact Hc | read_calls; exact Hn].
Qed.
End SenderProgress.

Section ReceiverProgress.
Import Libc Sys.
Context `{Host}.

Lemma reads_app {A O P : Type} (l1 l2 : list (call (sysE A O P))) :
  reads (l1 ++ l2) = reads l1 ++ reads l2.
Proof. unfold reads. apply flat_map_app. Qed.

(** A complete turn of the receive loop, whatever the read returns. *)
Lemma recv_turn sock buffer (r : recv_result Z) :
  exists tr buffer',
    is_trace (Multicast.recv_iteration sock buffer) tr /\
    trace_ret tr = Some (inl buffer') /\
    reads (calls tr) = [r].
Proof.
  destruct r as [|data src_addr]; eexists; eexists; (split; [|split]).
  - unfold Multicast.recv_iteration. answer (@recv_error Z). cbv beta iota.
    answer tt. answer_end.
  - reflexivity.
  - reflexivity.
  - unfold Multicast.recv_iteration. answer (recv_datagram data src_addr).
    cbv beta iota. answer tt. answer_end.
  - reflexivity.
  - reflexivity.
Qed.

(** Whatever the reads return, failures included, the receive loop goes
    on to the next read. *)
Lemma recv_loop_listens sock : forall (rs : list (recv_result Z)) buffer,
  exists tr pre,
    is_trace (ITree.iter (Multicast.recv_iteration sock) buffer) tr /\
    trace_ret tr = None /\
    calls tr = pre ++ [Call (recvfrom sock Multicast.BUFSIZE) None] /\
    reads pre = rs.
Proof.
  induction rs as [|r rs IH]; intros buffer.
  - assert (Hlast : exists tr1,
               is_trace (Multicast.recv_iteration sock buffer) tr1 /\
               trace_ret tr1 = None /\
               calls tr1 = [Call (recvfrom sock Multicast.BUFSIZE) None]).
    { eexists. split; [|split].
      - unfold Multicast.recv_iteration. answer_end.
      - reflexivity.
      - reflexivity. }
    destruct Hlast as (tr1 & H1 & Hret & Hcalls).
    destruct (is_trace_iter_last _ _ H1 Hret) as (tr & Htr & Heq & Hret').
    exists tr, []. repeat split; auto. rewrite Heq. exact Hcalls.
  - destruct (recv_turn sock buffer r) as (tr1 & buffer' & H1 & Hret & Hr).
    destruct (IH buffer') as (tr2 & pre & H2 & Hret2 & Hcalls & Hrs).
    exists (app_trace tr1 tr2), (calls tr1 ++ pre).
    split; [eapply is_trace_iter_intro; eassumption|].
    split; [rewrite (trace_ret_app_trace _ _ Hret); exact Hret2|].
    split; [rewrite (calls_app_trace _ _ Hret); apply app_snoc; exact Hcalls|].
    etransitivity; [apply reads_app|]. rewrite Hr, Hrs. reflexivity.
Qed.

Lemma recv_turn6 sock buffer (r : recv_result in6_addr) :
  exists tr buffer',
    is_trace (Multicast6.recv_iteration sock buffer) tr /\
    trace_ret tr = Some (inl buffer') /\
    reads (calls tr) = [r].
Proof.
  destruct r as [|data src_addr]; eexists; eexists; (split; [|split]).
  - unfold Multicast6.recv_iteration. answer (@recv_error in6_addr).
    cbv beta iota. answer tt. answer_end.
  - reflexivity.
  - reflexivity.
  - unfold Multicast6.recv_iteration. answer (recv_datagram data src_addr).
    cbv beta iota. answer tt. answer_end.
  - reflexivity.
  - reflexivity.
Qed.

Lemma recv_loop6_listens sock : forall (rs : list (recv_result in6_addr)) buffer,
  exists tr pre,
    is_trace (ITree.iter (Multicast6.recv_iteration sock) buffer) tr /\
    trace_ret tr = None /\
    calls tr = pre ++ [Call (recvfrom sock Multicast6.BUFSIZE) None] /\
    reads pre = rs.
Proof.
  induction rs as [|r rs IH]; intros buffer.
  - assert (Hlast : exists tr1,
               is_trace (Multicast6.recv_iteration sock buffer) tr1 /\
               trace_ret tr1 = None /\
               calls tr1 = [Call (recvfrom sock Multicast6.BUFSIZE) None]).
    { eexists. split; [|split].
      - unfold Multicast6.recv_iteration. answer_end.
      - reflexivity.
      - reflexivity. }
    destruct Hlast as (tr1 & H1 & Hret & Hcalls).
    destruct (is_trace_iter_last _ _ H1 Hret) as (tr & Htr & Heq & Hret').
    exists tr, []. repeat split; auto. rewrite Heq. exact Hcalls.
  - destruct (recv_turn6 sock buffer r) as (tr1 & buffer' & H1 & Hret & Hr).
    destruct (IH buffer') as (tr2 & pre & H2 & Hret2 & Hcalls & Hrs).
    exists (app_trace tr1 tr2), (calls tr1 ++ pre).
    split; [eapply is_trace_iter_intro; eassumption|].
    split; [rewrite (trace_ret_app_trace _ _ Hret); exact Hret2|].
    split; [rewrite (calls_app_trace _ _ Hret); apply app_snoc; exact Hcalls|].
    etransitivity; [apply reads_app|]. rewrite Hr, Hrs. reflexivity.
Qed.

(** The same for the whole thread, in an environment in which setting
    the socket up succeeds. *)
Lemma recv_thread_listens NOSSM pp (rs : list (recv_result Z)) :
  exists tr pre,
    is_trace (Multicast.recv_thread NOSSM pp) tr /\
    calls tr = pre ++ [Call (recvfrom 3 Multicast.BUFSIZE) None] /\
    reads pre = rs.
Proof.
  destruct (recv_loop_listens 3 rs (List.repeat zero (Z.to_nat Multicast.BUFSIZE)))
    as (ltr & pre & Hl & Hret & Hcalls & Hrs).
  destruct (is_trace_bind_partial
              (fun _ : Z => ITree.trigger (close 3) ;; Ret 0) Hl Hret)
    as (tr' & Htr' & Heq & _).
  unfold Multicast.recv_thread.
  destruct (Multicast.ssm pp =? 0) eqn:H0;
    destruct (negb NOSSM && (Multicast.ssm pp =? 1)) eqn:H1.
  all: eexists; eexists.
  all: split; [ succeed; pass_test; exact Htr' | ].
  all: split; [cbn [calls]; rewrite Heq; repeat eapply cons_snoc; exact Hcalls|].
  all: exact Hrs.
Qed.

Lemma recv_thread6_listens NOSSM pp (rs : list (recv_result in6_addr)) :
  exists tr pre,
    is_trace (Multicast6.recv_thread NOSSM pp) tr /\
    calls tr = pre ++ [Call (recvfrom 3 Multicast6.BUFSIZE) None] /\
    reads pre = rs.
Proof.
  destruct (recv_loop6_listens 3 rs (List.repeat zero (Z.to_nat Multicast6.BUFSIZE)))
    as (ltr & pre & Hl & Hret & Hcalls & Hrs).
  destruct (is_trace_bind_partial
              (fun _ : Z => ITree.trigger (close 3) ;; Ret 0) Hl Hret)
    as (tr' & Htr' & Heq & _).
  unfold Multicast6.recv_thread.
  destruct (Multicast6.ssm pp =? 0) eqn:H0;
    destruct (negb NOSSM && (Multicast6.ssm pp =? 1)) eqn:H1.
  all: eexists; eexists.
  all: split; [ succeed; pass_test; exact Htr' | ].
  all: split; [cbn [calls]; rewrite Heq; repeat eapply cons_snoc; exact Hcalls|].
  all: exact Hrs.
Qed.
End ReceiverProgress.

(* ===================================================================== *)
(** * The two [main] functions *)
(* ===================================================================== *)

Section Main.
Import Libc Sys.
Context `{Host}.

Ltac launch_cases :=
  unfold Multicast6.with_interface; use_tests; cbv zeta;
  first [ left; repeat split; reflexivity
        | right; left; repeat split; reflexivity
        | right; right; repeat split; reflexivity ].

Ltac launch_with idx := solve [exists idx; launch_cases].
Ltac launch_with_any := solve [eexists; launch_cases].

Ltac main_call :=
  unfold main_does, Multicast.launches, Multicast6.launches;
  read_calls; use_tests;
  split;
  [ let r := fresh "r" in
    let pp := fresh "pp" in
    let Hth := fresh "Hth" in
    intros r pp Hth;
    first [ discriminate Hth
          | apply Some_inj in Hth; injection Hth as <- <-;
            (split; [lia | first [ tauto | launch_with 0 | launch_with_any ]]) ]
  | cbn [orb negb]; intros [Hne | Hne]; solve [reflexivity | contradiction] ].

Lemma main_calls NOSSM argv tr :
  is_trace (Multicast.main NOSSM argv) tr ->
  always (main_does
            ((Z.of_nat (List.length argv) <? 4) ||
             negb ((Multicast.arg_at argv 1 =? "recv")%string ||
                   (Multicast.arg_at argv 1 =? "send")%string ||
                   (Multicast.arg_at argv 1 =? "both")%string))
            (Multicast.launches NOSSM argv))
         (calls tr).
Proof.
  unfold Multicast.main, Multicast.errusage, always, do_exit. intros Htr.
  unroll Htr; each_call; main_call.
Qed.

Lemma main6_calls NOSSM argv tr :
  is_trace (Multicast6.main NOSSM argv) tr ->
  always (main_does
            ((Z.of_nat (List.length argv) <? 4) ||
             negb ((Multicast6.arg_at argv 1 =? "recv")%string ||
                   (Multicast6.arg_at argv 1 =? "send")%string ||
                   (Multicast6.arg_at argv 1 =? "both")%string))
            (Multicast6.launches NOSSM argv))
         (calls tr).
Proof.
  unfold Multicast6.main, Multicast6.errusage, always, do_exit. intros Htr.
  unroll Htr; each_call; main_call.
Qed.

(** ** The parameter block *)

Lemma parse_args_fields NOSSM argv :
  let p := Multicast.parse_args NOSSM argv in
  Multicast.mip p = inet_addr (Multicast.arg_at argv 2) /\
  Multicast.port p = htons (to_uint16 (atoi (Multicast.arg_at argv 3))) /\
  Multicast.sip p = (if Multicast.source_supplied argv
                     then inet_addr (Multicast.arg_at argv 4)
                     else htonl INADDR_ANY) /\
  Multicast.ifip p = (if Z.of_nat (List.length argv) >=? 6
                      then inet_addr (Multicast.arg_at argv 5)
                      else htonl INADDR_ANY) /\
  Multicast.ssm p = (if Multicast.source_supplied argv && negb NOSSM
                     then 1 else 0) /\
  Multicast.loop p = 0 /\ Multicast.bidir p = 0.
Proof.
  unfold Multicast.parse_args, Multicast.source_supplied.
  destruct (Z.of_nat (List.length argv) >=? 5);
    destruct (negb (Multicast.arg_at argv 4 =? "-")%string);
    destruct (Z.of_nat (List.length argv) >=? 6);
    destruct NOSSM; cbn; repeat split; reflexivity.
Qed.

Lemma parse_args6_fields NOSSM argv :
  let p := Multicast6.parse_args NOSSM argv in
  Multicast6.mip p =
    Multicast6.inet_pton_into (Multicast6.arg_at argv 2) (List.repeat 0 16) /\
  Multicast6.port p = htons (to_uint16 (atoi (Multicast6.arg_at argv 3))) /\
  Multicast6.sip p = (if Multicast6.source_supplied argv
                      then Multicast6.inet_pton_into
                             (Multicast6.arg_at argv 4) in6addr_any
                      else in6addr_any) /\
  Multicast6.ifidx p = Multicast6.IFIDXDEFAULT /\
  Multicast6.ifname p = Multicast6.IFNAMEDEFAULT /\
  Multicast6.ssm p = (if Multicast6.source_supplied argv && negb NOSSM
                      then 1 else 0) /\
  Multicast6.loop p = 0 /\ Multicast6.bidir p = 0.
Proof.
  unfold Multicast6.parse_args, Multicast6.source_supplied.
  destruct (Z.of_nat (List.length argv) >=? 5);
    destruct (negb (Multicast6.arg_at argv 4 =? "-")%string);
    destruct NOSSM; cbn; repeat split; reflexivity.
Qed.

(** ** Byte order *)




Lemma htonl_any : htonl INADDR_ANY = 0.
Proof. unfold htonl. destruct big_endian; reflexivity. Qed.


End Main.


(* ===================================================================== *)
(** * More facts about runs *)
(* ===================================================================== *)

Section MoreFacts.
Import Libc Sys.
Context `{Host}.

Lemma always_In {T : Type} (Q : T -> Prop) (l : list T) :
  always (fun _ c => Q c) l <-> (forall c, In c l -> Q c).
Proof.
  split.
  - intros Hall c Hin. apply in_split in Hin. destruct Hin as (pre & post & ->).
    apply (Hall pre c post). reflexivity.
  - intros Hin pre c post ->. apply Hin, in_elt.
Qed.

(** [exit] does not return: a call to it is the last call of a run. *)
Lemma nothing_after_exit {A O P R : Type} (tr : @trace (sysE A O P) R) :
  forall pre c post,
    calls tr = pre ++ c :: post -> exit_of c <> None -> post = [].
Proof.
  induction tr as [| r | X e | X e x tr IH]; intros pre c post Heq Hexit;
    cbn [calls] in Heq.
  - destruct pre; discriminate Heq.
  - destruct pre; discriminate Heq.
  - destruct pre as [|c' [|? ?]]; try discriminate Heq.
    injection Heq as _ <-. reflexivity.
  - destruct pre as [|c' pre].
    + injection Heq as <- _. destruct e; try (exfalso; apply Hexit; reflexivity).
      destruct x.
    + injection Heq as _ Heq. eapply IH; eassumption.
Qed.


(** Two texts that end alike. *)
Lemma append_inj_r (s t : string) : forall a b : string,
  (a ++ s = b ++ t)%string -> String.length s = String.length t -> s = t.
Proof.
  induction a as [|x a IH]; intros [|y b] Heq Hlen; cbn [append] in Heq.
  - exact Heq.
  - apply (f_equal String.length) in Heq. cbn in Heq.
    rewrite length_append in Heq. lia.
  - apply (f_equal String.length) in Heq. cbn in Heq.
    rewrite length_append in Heq. lia.
  - injection Heq as _ Heq. apply (IH b Heq Hlen).
Qed.
End MoreFacts.

Section SenderDestination.
Import Libc Sys.
Context `{Host}.





End SenderDestination.

Section MainProgress.
Import Libc Sys.
Context `{Host}.


End MainProgress.

(* ===================================================================== *)
(** * The properties of the specification *)
(* ===================================================================== *)

Section LoopbackFlag.
Import Libc Sys.

Lemma launches_loop `{Host} NOSSM argv r pp :
  Multicast.launches NOSSM argv r pp ->
  Multicast.loop pp =
  if (Multicast.arg_at argv 1 =? "send")%string then 1 else 0.
Proof.
  unfold Multicast.launches. cbv zeta.
  destruct (parse_args_fields NOSSM argv) as (_ & _ & _ & _ & _ & Hloop & _).
  intros (_ & [(Hm & _ & ->) | [(Hm & _ & ->) | (Hm & ->)]]).
  - apply String.eqb_eq in Hm. rewrite Hm. exact Hloop.
  - rewrite Hm. reflexivity.
  - apply String.eqb_eq in Hm. rewrite Hm. exact Hloop.
Qed.

Lemma launches6_loop `{Host} NOSSM argv r pp :
  Multicast6.launches NOSSM argv r pp ->
  Multicast6.loop pp =
  if (Multicast6.arg_at argv 1 =? "send")%string then 1 else 0.
Proof.
  unfold Multicast6.launches, Multicast6.with_interface. cbv zeta.
  destruct (parse_args6_fields NOSSM argv)
    as (_ & _ & _ & _ & _ & _ & Hloop & _).
  intros (_ & idx & Hcases).
  destruct (Z.of_nat (List.length argv) >=? 6);
    destruct Hcases as [(Hm & _ & ->) | [(Hm & _ & ->) | (Hm & ->)]].
  all: try (rewrite Hm; reflexivity).
  all: apply String.eqb_eq in Hm; rewrite Hm; exact Hloop.
Qed.
End LoopbackFlag.

(** C1, as amended.  For every start of either program, the parameter
    block handed to a thread has its loopback flag [loop] at 1 if the
    mode is "send" and at 0 otherwise: in mode "both" the flag keeps its
    default 0, for the sender as for the receiver (only [bidir] is set
    there). *)
Theorem loopback_flag `{Libc.Host} (NOSSM : bool) (argv : list string) :
  (forall tr,
      is_trace (Multicast.main NOSSM argv) tr ->
      always (fun _ c =>
                forall r pp, thread_of c = Some (r, pp) ->
                  Multicast.loop pp =
                  if (Multicast.arg_at argv 1 =? "send")%string then 1 else 0)
             (calls tr)) /\
  (forall tr,
      is_trace (Multicast6.main NOSSM argv) tr ->
      always (fun _ c =>
                forall r pp, thread_of c = Some (r, pp) ->
                  Multicast6.loop pp =
                  if (Multicast6.arg_at argv 1 =? "send")%string then 1 else 0)
             (calls tr)).
Proof.
  split; intros tr Htr.
  - eapply always_after_weaken; [|apply (main_calls _ _ Htr)].
    intros h c [Hlaunch _] r pp Hth. eapply launches_loop, Hlaunch, Hth.
  - eapply always_after_weaken; [|apply (main6_calls _ _ Htr)].
    intros h c [Hlaunch _] r pp Hth. eapply launches6_loop, Hlaunch, Hth.
Qed.

(** A start in mode "send": the sender gets [loop = 1]. *)
Lemma loopback_flag_witness :
  always (fun _ c =>
            forall r pp, thread_of c = Some (r, pp) -> Multicast.loop pp = 1)
         (calls (run 4 (answers calm) 0
                     (@Multicast.main Libc.little_endian_host false
                        ["multicast"; "send"; "239.1.1.1"; "12345"]))).
Proof.
  apply (proj1 (@loopback_flag Libc.little_endian_host false
                  ["multicast"; "send"; "239.1.1.1"; "12345"])).
  apply run_is_trace.
Defined.

(** C1 as it is stated fails: started in mode "both", the sender gets a
    parameter block whose loopback flag is 0, not 1. *)
Lemma loopback_flag_counterexample :
  ~ (forall tr,
        is_trace (@Multicast.main Libc.little_endian_host false
                    ["multicast"; "both"; "239.1.1.1"; "12345"]) tr ->
        always (fun _ c =>
                  forall pp, thread_of c = Some (Sys.Sender, pp) ->
                             Multicast.loop pp = 1)
               (calls tr)).
Proof.
  intros Hclaim.
  specialize (Hclaim _ (run_is_trace 4 (answers calm) 0 _)).
  rewrite always_In in Hclaim.
  specialize (Hclaim _ (or_intror (or_introl eq_refl)) _ eq_refl).
  discriminate Hclaim.
Qed.

Section GroupAddress.
Import Libc Sys.
Context `{Host}.








End GroupAddress.




Section SequenceNumbers.
Import Libc Sys.

Lemma count_rev {T : Type} (f : T -> bool) (l : list T) :
  count f (rev l) = count f l.
Proof.
  induction l as [|x l IH]; [reflexivity|].
  cbn [rev]. rewrite count_app, IH. unfold count. cbn [filter].
  destruct (f x); cbn [List.length]; lia.
Qed.

(** The width of the "%06d" field: six characters below a million, the
    digits of the number from there on. *)
Lemma field_as_printed n :
  (0 <= n < 1000000 -> String.length (fmt_0d 6 n) = 6%nat) /\
  (1000000 <= n ->
   fmt_0d 6 n = decimal n /\ (6 < String.length (fmt_0d 6 n))%nat).
Proof. split; [apply fmt_06d_length_small | apply fmt_06d_large]. Qed.

Lemma sendto_of_is_sendto {A O P : Type} (c : call (sysE A O P)) :
  is_sendto c = true -> exists msg, sendto_of c = Some msg.
Proof.
  unfold is_sendto. destruct (sendto_of c) as [msg|]; [eauto|discriminate].
Qed.
End SequenceNumbers.

(** C3, as amended.  In every run of either send loop, the datagram sent
    after [k] earlier ones ends with "/" and the number [k] (IPv4) or
    [k + 1] (IPv6) as "%06d" prints it, as long as that number fits an
    [int]: zero-padded to six characters below 10^6, and with all its
    seven or more digits from 10^6 on; the number does not wrap at 10^6.
    And the loop does go on: for every [k] there is a run that sends a
    datagram after [k] earlier ones. *)
Theorem sequence_numbers `{Libc.Host} (now : Sys.tm) :
  (forall pp tr,
      is_trace (Multicast.send_thread pp) tr ->
      always (fun h c =>
                sequence_numbered 0 h c /\
                let n := Z.of_nat (count is_sendto h) + 0 in
                (0 <= n < 1000000 ->
                 String.length (Libc.fmt_0d 6 n) = 6%nat) /\
                (1000000 <= n ->
                 Libc.fmt_0d 6 n = Libc.decimal n /\
                 (6 < String.length (Libc.fmt_0d 6 n))%nat))
             (calls tr)) /\
  (forall pp tr,
      is_trace (Multicast6.send_thread pp) tr ->
      always (fun h c =>
                sequence_numbered 1 h c /\
                let n := Z.of_nat (count is_sendto h) + 1 in
                (0 <= n < 1000000 ->
                 String.length (Libc.fmt_0d 6 n) = 6%nat) /\
                (1000000 <= n ->
                 Libc.fmt_0d 6 n = Libc.decimal n /\
                 (6 < String.length (Libc.fmt_0d 6 n))%nat))
             (calls tr)) /\
  (forall pp k, exists tr pre c,
        is_trace (Multicast.send_thread pp) tr /\
        calls tr = pre ++ [c] /\ is_sendto c = true /\
        count is_sendto pre = k) /\
  (forall pp k, exists tr pre c,
        is_trace (Multicast6.send_thread pp) tr /\
        calls tr = pre ++ [c] /\ is_sendto c = true /\
        count is_sendto pre = k).
Proof.
  split; [|split; [|split]].
  - intros pp tr Htr.
    eapply always_after_weaken; [|apply (@send_thread_sequence _ _ _ Htr)].
    intros h c Hseq. split; [exact Hseq | apply field_as_printed].
  - intros pp tr Htr.
    eapply always_after_weaken; [|apply (@send_thread6_sequence _ _ _ Htr)].
    intros h c Hseq. split; [exact Hseq | apply field_as_printed].
  - intros pp k. apply (send_thread_sends pp now k).
  - intros pp k. apply (send_thread6_sends pp now k).
Qed.

(** The first datagram of the IPv4 sender, all calls succeeding, ends
    with "/000000". *)
Lemma sequence_numbers_witness :
  always (fun h c =>
            sequence_numbered 0 h c /\
            let n := Z.of_nat (count is_sendto h) + 0 in
            (0 <= n < 1000000 ->
             String.length (Libc.fmt_0d 6 n) = 6%nat) /\
            (1000000 <= n ->
             Libc.fmt_0d 6 n = Libc.decimal n /\
             (6 < String.length (Libc.fmt_0d 6 n))%nat))
         (calls (run 8 (answers calm) 0
                   (@Multicast.send_thread Libc.little_endian_host
                      (Multicast.set_loop 1
                         (@Multicast.parse_args Libc.little_endian_host false
                            ["multicast"; "send"; "239.1.1.1"; "12345"]))))).
Proof.
  eapply (proj1 (@sequence_numbers Libc.little_endian_host
                   {| Sys.tm_hour := 12; Sys.tm_min := 0; Sys.tm_sec := 0 |})).
  apply run_is_trace.
Defined.

(** C3 as it is stated fails: the number does not wrap at 10^6.  After a
    million datagrams the IPv4 sender sends one that ends with "/1000000",
    not with "/000000". *)
Lemma sequence_numbers_counterexample :
  ~ (forall tr,
        is_trace (@Multicast.send_thread Libc.little_endian_host
                    (Multicast.set_loop 1
                       (@Multicast.parse_args Libc.little_endian_host false
                          ["multicast"; "send"; "239.1.1.1"; "12345"]))) tr ->
        always (fun h c =>
                  forall msg,
                    sendto_of c = Some msg ->
                    exists text,
                      msg = (text ++ "/" ++
                             Libc.fmt_0d 6 ((Z.of_nat (count is_sendto h) + 0)
                                            mod 1000000))%string)
               (calls tr)).
Proof.
  intros Hclaim.
  destruct (@send_thread_sends Libc.little_endian_host
              (Multicast.set_loop 1
                 (@Multicast.parse_args Libc.little_endian_host false
                    ["multicast"; "send"; "239.1.1.1"; "12345"]))
              {| Sys.tm_hour := 12; Sys.tm_min := 0; Sys.tm_sec := 0 |}
              (Z.to_nat 1000000))
    as (tr & pre & c & Htr & Hcalls & Hc & Hn).
  destruct (sendto_of_is_sendto _ Hc) as (msg & Hmsg).
  pose proof (Hclaim _ Htr pre c [] Hcalls msg Hmsg) as (text & Hwrap).
  pose proof (@send_thread_sequence _ _ _ Htr pre c [] Hcalls msg Hmsg) as Hseq.
  rewrite app_nil_r, count_rev, Hn, Z2Nat.id in Hwrap, Hseq by lia.
  cbv zeta in Hseq. destruct Hseq as (text' & Hseq); [unfold Libc.INT_MAX; lia|].
  rewrite Hseq in Hwrap.
  change ((1000000 + 0) mod 1000000) with 0 in Hwrap.
  change (Libc.fmt_0d 6 (1000000 + 0)) with "1000000" in Hwrap.
  change (Libc.fmt_0d 6 0) with "000000" in Hwrap.
  assert (Heq : ((text' ++ "/") ++ "1000000" = text ++ "/000000")%string)
    by (rewrite append_assoc; exact Hwrap).
  apply append_inj_r in Heq; [discriminate Heq | reflexivity].
Qed.

Section SenderBinds.
Import Libc Sys.
Context `{Host}.


End SenderBinds.




Section Payloads.
Import Libc Sys.

Lemma always_at {T : Type} (Q : list T -> T -> Prop) (l : list T) n c :
  always Q l -> nth_error l n = Some c -> Q (rev (firstn n l)) c.
Proof.
  intros Hall Hnth. apply nth_error_split in Hnth.
  destruct Hnth as (pre & post & -> & <-).
  rewrite firstn_app, Nat.sub_diag, firstn_all, firstn_O, app_nil_r.
  rewrite <- (app_nil_r (rev pre)). apply (Hall pre c post). reflexivity.
Qed.
End Payloads.

(** C5, as amended.  What the receiver prints of a datagram, cut to the
    1472 bytes of its buffer, has as many characters as were received;
    each is the character received or a dot; and it is a dot if and only
    if the character received was not printable or was a dot itself. *)
Theorem payload_is_sanitized `{Libc.Host} (NOSSM : bool) :
  (forall pp tr,
      is_trace (Multicast.recv_thread NOSSM pp) tr ->
      always (payload_sanitized Multicast.BUFSIZE) (calls tr)) /\
  (forall pp tr,
      is_trace (Multicast6.recv_thread NOSSM pp) tr ->
      always (payload_sanitized Multicast6.BUFSIZE) (calls tr)).
Proof.
  split; intros pp tr.
  - apply recv_thread_payload.
  - apply recv_thread6_payload.
Qed.

(** The receiver of "multicast recv 239.1.1.1 12345", to which every
    read delivers the datagram "a.\n" and which prints "a..". *)
Lemma payload_is_sanitized_witness :
  always (payload_sanitized Multicast.BUFSIZE)
         (calls (run 8 (answers (delivering ["a"; "."; "010"]%char
                                   {| Sys.sin_family := Sys.AF_INET;
                                      Sys.sin_port := 14640;
                                      Sys.sin_addr := 0 |})) 0
                   (@Multicast.recv_thread Libc.little_endian_host false
                      (@Multicast.parse_args Libc.little_endian_host false
                         ["multicast"; "recv"; "239.1.1.1"; "12345"])))).
Proof.
  eapply (proj1 (@payload_is_sanitized Libc.little_endian_host false)).
  apply run_is_trace.
Defined.

(** C5 as it is stated fails: a dot is printable, and the dot received is
    printed as a dot. *)
Lemma payload_is_sanitized_counterexample :
  ~ (forall tr,
        is_trace (@Multicast.recv_thread Libc.little_endian_host false
                    (@Multicast.parse_args Libc.little_endian_host false
                       ["multicast"; "recv"; "239.1.1.1"; "12345"])) tr ->
        always (fun h c =>
                  forall out,
                    payload_of c = Some out ->
                    exists data src_addr,
                      match last_call h with
                      | Some c1 =>
                          recvfrom_of c1 = Some (Sys.recv_datagram data src_addr)
                      | None => False
                      end /\
                      let input :=
                        firstn (Z.to_nat Multicast.BUFSIZE) data in
                      List.length out = List.length input /\
                      Forall2 (fun i o =>
                                 (o = i \/ o = "."%char) /\
                                 (o = "."%char <->
                                  Libc.isprint (Libc.char_to_int i) = false))
                              input out)
               (calls tr)).
Proof.
  intros Hclaim.
  specialize (Hclaim _ (run_is_trace 8
                          (answers (delivering ["."]%char
                                      {| Sys.sin_family := Sys.AF_INET;
                                         Sys.sin_port := 14640;
                                         Sys.sin_addr := 0 |})) 0 _)).
  match type of Hclaim with always _ ?l => set (l0 := l) in Hclaim end.
  destruct (nth_error l0 7) as [c|] eqn:Hc; [|vm_compute in Hc; discriminate Hc].
  pose proof (@always_at _ _ _ 7%nat _ Hclaim Hc) as Hat. cbv beta in Hat.
  assert (Hout : payload_of c = Some ["."]%char).
  { apply Some_inj in Hc. rewrite <- Hc. vm_compute. reflexivity. }
  destruct (Hat _ Hout) as (data & src_addr & Hlast & Hrest).
  match type of Hlast with
  | match ?x with _ => _ end =>
      assert (Hh : x =
                   Some (Call (Sys.recvfrom 3 Multicast.BUFSIZE)
                              (Some (Sys.recv_datagram ["."]%char
                                       {| Sys.sin_family := Sys.AF_INET;
                                          Sys.sin_port := 14640;
                                          Sys.sin_addr := 0 |}))))
        by (vm_compute; reflexivity)
  end.
  rewrite Hh in Hlast. cbn [recvfrom_of] in Hlast.
  apply Some_inj in Hlast. injection Hlast as Hdata _. subst data.
  cbv zeta in Hrest. destruct Hrest as [_ Hall].
  change (firstn (Z.to_nat Multicast.BUFSIZE) ["."]%char) with ["."]%char in Hall.
  inversion Hall as [|i o li lo [_ Hiff] _]. subst.
  destruct Hiff as [Hdot _]. specialize (Hdot eq_refl). discriminate Hdot.
Qed.

Section SourceSpecific.
Import Libc Sys.
Context `{Host}.



End SourceSpecific.



Section FatalFailures.
Import Libc Sys.
Context `{Host}.
Variable NOSSM : bool.

(** The receiver whose [bind] fails reports it and exits. *)
Lemma recv_thread_bind_fatal pp :
  exists tr,
    is_trace (Multicast.recv_thread NOSSM pp) tr /\
    calls tr =
      [Call (socket AF_INET) (Some 3);
       Call (setsockopt 3 (Multicast.SO_REUSEADDR 1)) (Some 0);
       Call (bind 3 {| sin_family := AF_INET;
                       sin_port := Multicast.port pp;
                       sin_addr := htonl INADDR_ANY |}) (Some (-1));
       Call (perror "Bind failed (receiver)") (Some tt);
       Call (exit EXIT_FAILURE) None].
Proof.
  eexists. split.
  - unfold Multicast.recv_thread, or_die, do_exit.
    answer 3. answer 0. answer (-1). answer tt. answer_end.
  - reflexivity.
Qed.

Lemma recv_thread6_bind_fatal pp :
  exists tr,
    is_trace (Multicast6.recv_thread NOSSM pp) tr /\
    calls tr =
      [Call (socket AF_INET6) (Some 3);
       Call (setsockopt 3 (Multicast6.SO_REUSEADDR 1)) (Some 0);
       Call (bind 3 {| sin_family := AF_INET6;
                       sin_port := Multicast6.port pp;
                       sin_addr := in6addr_any |}) (Some (-1));
       Call (perror "Bind failed (receiver)") (Some tt);
       Call (exit EXIT_FAILURE) None].
Proof.
  eexists. split.
  - unfold Multicast6.recv_thread, or_die, do_exit.
    answer 3. answer 0. answer (-1). answer tt. answer_end.
  - reflexivity.
Qed.

(** The receiver whose ASM join fails reports it and exits. *)
Lemma recv_thread_join_fatal pp :
  Multicast.ssm pp = 0 ->
  exists tr,
    is_trace (Multicast.recv_thread NOSSM pp) tr /\
    calls tr =
      [Call (socket AF_INET) (Some 3);
       Call (setsockopt 3 (Multicast.SO_REUSEADDR 1)) (Some 0);
       Call (bind 3 {| sin_family := AF_INET;
                       sin_port := Multicast.port pp;
                       sin_addr := htonl INADDR_ANY |}) (Some 0);
       Call (setsockopt 3 (Multicast.IP_ADD_MEMBERSHIP
                             (Multicast.mip pp) (Multicast.ifip pp)))
            (Some (-1));
       Call (perror "setsockopt(IP_ADD_MEMBERSHIP) failed") (Some tt);
       Call (exit EXIT_FAILURE) None].
Proof.
  intros Hssm. eexists. split.
  - unfold Multicast.recv_thread, or_die, do_exit. rewrite Hssm.
    change (0 =? 0) with true. cbv iota.
    answer 3. answer 0. answer 0. answer (-1). answer tt. answer_end.
  - reflexivity.
Qed.

Lemma recv_thread6_join_fatal pp :
  Multicast6.ssm pp = 0 ->
  exists tr,
    is_trace (Multicast6.recv_thread NOSSM pp) tr /\
    calls tr =
      [Call (socket AF_INET6) (Some 3);
       Call (setsockopt 3 (Multicast6.SO_REUSEADDR 1)) (Some 0);
       Call (bind 3 {| sin_family := AF_INET6;
                       sin_port := Multicast6.port pp;
                       sin_addr := in6addr_any |}) (Some 0);
       Call (setsockopt 3 (Multicast6.IPV6_JOIN_GROUP
                             (Multicast6.mip pp) (Multicast6.ifidx pp)))
            (Some (-1));
       Call (perror "setsockopt(IPV6_JOIN_GROUP) failed") (Some tt);
       Call (exit EXIT_FAILURE) None].
Proof.
  intros Hssm. eexists. split.
  - unfold Multicast6.recv_thread, or_die, do_exit. rewrite Hssm.
    change (0 =? 0) with true. cbv iota.
    answer 3. answer 0. answer 0. answer (-1). answer tt. answer_end.
  - reflexivity.
Qed.
End FatalFailures.

(** C7.  In every run of either receiver, the call that follows a failed
    [recvfrom] is [perror ("recvfrom failed")] and the one after that is
    the next [recvfrom]; the call that follows a failed [socket],
    [setsockopt] or [bind] is a [perror] and the one after that is
    [exit (EXIT_FAILURE)], after which the process makes no call.  The
    receiver does go on reading, whatever the reads before have returned,
    failures included; and the receiver whose [bind] or whose join fails
    does report it and exit. *)
Theorem receiver_failures `{Libc.Host} (NOSSM : bool) :
  (forall pp tr,
      is_trace (Multicast.recv_thread NOSSM pp) tr ->
      always (fun h c => read_failure_survived h c /\ setup_failure_fatal h c)
             (calls tr) /\
      forall pre c post,
        calls tr = pre ++ c :: post -> exit_of c <> None -> post = []) /\
  (forall pp tr,
      is_trace (Multicast6.recv_thread NOSSM pp) tr ->
      always (fun h c => read_failure_survived h c /\ setup_failure_fatal h c)
             (calls tr) /\
      forall pre c post,
        calls tr = pre ++ c :: post -> exit_of c <> None -> post = []) /\
  (forall pp rs, exists tr pre,
        is_trace (Multicast.recv_thread NOSSM pp) tr /\
        calls tr =
          pre ++ [Call (Sys.recvfrom 3 Multicast.BUFSIZE) None] /\
        reads pre = rs) /\
  (forall pp rs, exists tr pre,
        is_trace (Multicast6.recv_thread NOSSM pp) tr /\
        calls tr =
          pre ++ [Call (Sys.recvfrom 3 Multicast6.BUFSIZE) None] /\
        reads pre = rs) /\
  (forall pp, exists tr,
        is_trace (Multicast.recv_thread NOSSM pp) tr /\
        calls tr =
          [Call (Sys.socket Sys.AF_INET) (Some 3);
           Call (Sys.setsockopt 3 (Multicast.SO_REUSEADDR 1)) (Some 0);
           Call (Sys.bind 3 {| Sys.sin_family := Sys.AF_INET;
                               Sys.sin_port := Multicast.port pp;
                               Sys.sin_addr := Libc.htonl Libc.INADDR_ANY |})
                (Some (-1));
           Call (Sys.perror "Bind failed (receiver)") (Some tt);
           Call (Sys.exit Sys.EXIT_FAILURE) None]) /\
  (forall pp, exists tr,
        is_trace (Multicast6.recv_thread NOSSM pp) tr /\
        calls tr =
          [Call (Sys.socket Sys.AF_INET6) (Some 3);
           Call (Sys.setsockopt 3 (Multicast6.SO_REUSEADDR 1)) (Some 0);
           Call (Sys.bind 3 {| Sys.sin_family := Sys.AF_INET6;
                               Sys.sin_port := Multicast6.port pp;
                               Sys.sin_addr := Libc.in6addr_any |})
                (Some (-1));
           Call (Sys.perror "Bind failed (receiver)") (Some tt);
           Call (Sys.exit Sys.EXIT_FAILURE) None]) /\
  (forall pp,
      Multicast.ssm pp = 0 ->
      exists tr,
        is_trace (Multicast.recv_thread NOSSM pp) tr /\
        calls tr =
          [Call (Sys.socket Sys.AF_INET) (Some 3);
           Call (Sys.setsockopt 3 (Multicast.SO_REUSEADDR 1)) (Some 0);
           Call (Sys.bind 3 {| Sys.sin_family := Sys.AF_INET;
                               Sys.sin_port := Multicast.port pp;
                               Sys.sin_addr := Libc.htonl Libc.INADDR_ANY |})
                (Some 0);
           Call (Sys.setsockopt 3 (Multicast.IP_ADD_MEMBERSHIP
                                     (Multicast.mip pp) (Multicast.ifip pp)))
                (Some (-1));
           Call (Sys.perror "setsockopt(IP_ADD_MEMBERSHIP) failed") (Some tt);
           Call (Sys.exit Sys.EXIT_FAILURE) None]) /\
  (forall pp,
      Multicast6.ssm pp = 0 ->
      exists tr,
        is_trace (Multicast6.recv_thread NOSSM pp) tr /\
        calls tr =
          [Call (Sys.socket Sys.AF_INET6) (Some 3);
           Call (Sys.setsockopt 3 (Multicast6.SO_REUSEADDR 1)) (Some 0);
           Call (Sys.bind 3 {| Sys.sin_family := Sys.AF_INET6;
                               Sys.sin_port := Multicast6.port pp;
                               Sys.sin_addr := Libc.in6addr_any |})
                (Some 0);
           Call (Sys.setsockopt 3 (Multicast6.IPV6_JOIN_GROUP
                                     (Multicast6.mip pp)
                                     (Multicast6.ifidx pp)))
                (Some (-1));
           Call (Sys.perror "setsockopt(IPV6_JOIN_GROUP) failed") (Some tt);
           Call (Sys.exit Sys.EXIT_FAILURE) None]).
Proof.
  split; [|split; [|split; [|split; [|split; [|split; [|split]]]]]].
  - intros pp tr Htr. split; [apply (recv_thread_failures _ _ Htr)|].
    apply nothing_after_exit.
  - intros pp tr Htr. split; [apply (recv_thread6_failures _ _ Htr)|].
    apply nothing_after_exit.
  - intros pp rs. apply recv_thread_listens.
  - intros pp rs. apply recv_thread6_listens.
  - apply recv_thread_bind_fatal.
  - apply recv_thread6_bind_fatal.
  - apply recv_thread_join_fatal.
  - apply recv_thread6_join_fatal.
Qed.

(** The receiver of "multicast recv 239.1.1.1 12345" whose join fails:
    it calls [socket], [setsockopt], [bind], [setsockopt], [perror] and
    [exit], and that is all. *)
Lemma receiver_failures_witness :
  always (fun h c => read_failure_survived h c /\ setup_failure_fatal h c)
         (calls (run 12 (answers (failing_at 3)) 0
                   (@Multicast.recv_thread Libc.little_endian_host false
                      (@Multicast.parse_args Libc.little_endian_host false
                         ["multicast"; "recv"; "239.1.1.1"; "12345"])))) /\
  List.map exit_of
           (calls (run 12 (answers (failing_at 3)) 0
                     (@Multicast.recv_thread Libc.little_endian_host false
                        (@Multicast.parse_args Libc.little_endian_host false
                           ["multicast"; "recv"; "239.1.1.1"; "12345"]))))
  = [None; None; None; None; None; Some Sys.EXIT_FAILURE].
Proof.
  split; [|reflexivity].
  eapply (proj1 (@receiver_failures Libc.little_endian_host false)).
  apply run_is_trace.
Defined.

(** C8.  In every run of either sender, by the time a datagram is handed
    to [sendto], the TTL (IPv4) or the hop limit (IPv6) has been set to 64
    and the loopback option to the flag [loop] of the parameter block,
    both calls having succeeded; and the sender does get to send when
    setting its socket up succeeds. *)
Theorem sender_options `{Libc.Host} (now : Sys.tm) :
  (forall pp tr,
      is_trace (Multicast.send_thread pp) tr ->
      always (options_set_before_send
                (Multicast.IP_MULTICAST_TTL 64)
                (Multicast.IP_MULTICAST_LOOP (Multicast.loop pp)))
             (calls tr)) /\
  (forall pp tr,
      is_trace (Multicast6.send_thread pp) tr ->
      always (options_set_before_send
                (Multicast6.IPV6_MULTICAST_HOPS 64)
                (Multicast6.IPV6_MULTICAST_LOOP (Multicast6.loop pp)))
             (calls tr)) /\
  (forall pp, exists tr pre c,
        is_trace (Multicast.send_thread pp) tr /\
        calls tr = pre ++ [c] /\ is_sendto c = true /\
        count is_sendto pre = 0%nat) /\
  (forall pp, exists tr pre c,
        is_trace (Multicast6.send_thread pp) tr /\
        calls tr = pre ++ [c] /\ is_sendto c = true /\
        count is_sendto pre = 0%nat).
Proof.
  split; [|split; [|split]].
  - intros pp tr. apply send_thread_options.
  - intros pp tr. apply send_thread6_options.
  - intros pp. apply (send_thread_sends pp now 0).
  - intros pp. apply (send_thread6_sends pp now 0).
Qed.

(** The sender of "multicast send 239.1.1.1 12345", every call
    succeeding. *)
Lemma sender_options_witness :
  always (options_set_before_send
            (Multicast.IP_MULTICAST_TTL 64) (Multicast.IP_MULTICAST_LOOP 1))
         (calls (run 12 (answers calm) 0
                   (@Multicast.send_thread Libc.little_endian_host
                      (Multicast.set_loop 1
                         (@Multicast.parse_args Libc.little_endian_host false
                            ["multicast"; "send"; "239.1.1.1"; "12345"]))))).
Proof.
  eapply (proj1 (@sender_options Libc.little_endian_host
                   {| Sys.tm_hour := 0; Sys.tm_min := 0; Sys.tm_sec := 0 |})
                (Multicast.set_loop 1
                   (@Multicast.parse_args Libc.little_endian_host false
                      ["multicast"; "send"; "239.1.1.1"; "12345"]))).
  apply run_is_trace.
Defined.

Ltac option_call :=
  cbn; intros; try discriminate;
  try (match goal with
       | Hopt : Some _ = Some _ |- _ => apply Some_inj in Hopt; subst
       end; tauto).

Section ReceiverOptions.
Import Libc Sys.
Context `{Host}.

Lemma recv_iteration_no_option (Q : Multicast.sockopt -> Prop)
      sock h buffer tr :
  True -> is_trace (Multicast.recv_iteration sock buffer) tr ->
  always_after h
    (fun _ (c : call Multicast.E) =>
       forall opt, setsockopt_of c = Some opt -> Q opt)
    (calls tr) /\
  match trace_ret tr with
  | None => True
  | Some (inl _) => calls tr <> [] /\ True
  | Some (inr _) => False
  end.
Proof.
  intros _ Htr. unfold Multicast.recv_iteration in Htr.
  unroll Htr; turn easy_call next_turn.
Qed.

Lemma recv_iteration6_no_option (Q : Multicast6.sockopt -> Prop)
      sock h buffer tr :
  True -> is_trace (Multicast6.recv_iteration sock buffer) tr ->
  always_after h
    (fun _ (c : call Multicast6.E) =>
       forall opt, setsockopt_of c = Some opt -> Q opt)
    (calls tr) /\
  match trace_ret tr with
  | None => True
  | Some (inl _) => calls tr <> [] /\ True
  | Some (inr _) => False
  end.
Proof.
  intros _ Htr. unfold Multicast6.recv_iteration in Htr.
  unroll Htr; turn easy_call next_turn.
Qed.

(** The options a receiver sets: the interface is in the joins. *)
Lemma recv_thread_sockopts NOSSM pp tr :
  is_trace (Multicast.recv_thread NOSSM pp) tr ->
  always (fun _ (c : call Multicast.E) =>
            forall opt, setsockopt_of c = Some opt ->
              opt = Multicast.SO_REUSEADDR 1 \/
              opt = Multicast.IP_ADD_MEMBERSHIP
                      (Multicast.mip pp) (Multicast.ifip pp) \/
              opt = Multicast.IP_ADD_SOURCE_MEMBERSHIP
                      (Multicast.mip pp) (Multicast.ifip pp)
                      (Multicast.sip pp))
         (calls tr).
Proof.
  unfold Multicast.recv_thread, always, or_die, do_exit. intros Htr.
  unroll Htr; each_call; option_call.
  all: eapply (@always_iter_bind _ _ _ _ _ _ (fun _ _ => True));
    [ apply recv_iteration_no_option | exact I | eassumption ].
Qed.

Lemma recv_thread6_sockopts NOSSM pp tr :
  is_trace (Multicast6.recv_thread NOSSM pp) tr ->
  always (fun _ (c : call Multicast6.E) =>
            forall opt, setsockopt_of c = Some opt ->
              opt = Multicast6.SO_REUSEADDR 1 \/
              opt = Multicast6.IPV6_JOIN_GROUP
                      (Multicast6.mip pp) (Multicast6.ifidx pp) \/
              opt = Multicast6.SO_BINDTODEVICE (Multicast6.ifname pp) \/
              opt = Multicast6.MCAST_JOIN_SOURCE_GROUP
                      (Multicast6.ifidx pp)
                      {| sin_family := AF_INET6; sin_port := 0;
                         sin_addr := Multicast6.mip pp |}
                      {| sin_family := AF_INET6; sin_port := 0;
                         sin_addr := Multicast6.sip pp |})
         (calls tr).
Proof.
  unfold Multicast6.recv_thread, always, or_die, do_exit. intros Htr.
  unroll Htr; each_call; option_call.
  all: eapply (@always_iter_bind _ _ _ _ _ _ (fun _ _ => True));
    [ apply recv_iteration6_no_option | exact I | eassumption ].
Qed.

(** The socket once created and shared, the receiver does call [bind]. *)
Lemma recv_thread_binds NOSSM pp :
  exists tr c,
    is_trace (Multicast.recv_thread NOSSM pp) tr /\
    In c (calls tr) /\ is_bind c = true.
Proof.
  unfold Multicast.recv_thread. eexists; eexists.
  split; [answer 3; answer 0; answer_end|].
  split; [right; right; left; reflexivity | reflexivity].
Qed.

Lemma recv_thread6_binds NOSSM pp :
  exists tr c,
    is_trace (Multicast6.recv_thread NOSSM pp) tr /\
    In c (calls tr) /\ is_bind c = true.
Proof.
  unfold Multicast6.recv_thread. eexists; eexists.
  split; [answer 3; answer 0; answer_end|].
  split; [right; right; left; reflexivity | reflexivity].
Qed.
End ReceiverOptions.

(** C9.  Whatever the interface selector, either receiver binds its
    socket to the wildcard address of its family and to the port of the
    session; the interface is found in the options of the joins (and, in
    the IPv6 program, in SO_BINDTODEVICE) and nowhere in the address
    bound.  And the receiver does call [bind] once it has its socket and
    has set SO_REUSEADDR. *)
Theorem receiver_bind `{Libc.Host} (NOSSM : bool) :
  (forall pp ifip tr,
      is_trace (Multicast.recv_thread NOSSM (Multicast.set_ifip ifip pp)) tr ->
      always (fun _ c =>
                (forall a, bind_of c = Some a ->
                   a = {| Sys.sin_family := Sys.AF_INET;
                          Sys.sin_port := Multicast.port pp;
                          Sys.sin_addr := Libc.INADDR_ANY |}) /\
                (forall opt, setsockopt_of c = Some opt ->
                   opt = Multicast.SO_REUSEADDR 1 \/
                   opt = Multicast.IP_ADD_MEMBERSHIP (Multicast.mip pp) ifip \/
                   opt = Multicast.IP_ADD_SOURCE_MEMBERSHIP
                           (Multicast.mip pp) ifip (Multicast.sip pp)))
             (calls tr)) /\
  (forall pp ifidx ifname tr,
      is_trace (Multicast6.recv_thread NOSSM
                  (Multicast6.set_ifidx ifidx
                     (Multicast6.set_ifname ifname pp))) tr ->
      always (fun _ c =>
                (forall a, bind_of c = Some a ->
                   a = {| Sys.sin_family := Sys.AF_INET6;
                          Sys.sin_port := Multicast6.port pp;
                          Sys.sin_addr := Libc.in6addr_any |}) /\
                (forall opt, setsockopt_of c = Some opt ->
                   opt = Multicast6.SO_REUSEADDR 1 \/
                   opt = Multicast6.IPV6_JOIN_GROUP (Multicast6.mip pp) ifidx \/
                   opt = Multicast6.SO_BINDTODEVICE ifname \/
                   opt = Multicast6.MCAST_JOIN_SOURCE_GROUP ifidx
                           {| Sys.sin_family := Sys.AF_INET6;
                              Sys.sin_port := 0;
                              Sys.sin_addr := Multicast6.mip pp |}
                           {| Sys.sin_family := Sys.AF_INET6;
                              Sys.sin_port := 0;
                              Sys.sin_addr := Multicast6.sip pp |}))
             (calls tr)) /\
  (forall pp, exists tr c,
        is_trace (Multicast.recv_thread NOSSM pp) tr /\
        In c (calls tr) /\ is_bind c = true) /\
  (forall pp, exists tr c,
        is_trace (Multicast6.recv_thread NOSSM pp) tr /\
        In c (calls tr) /\ is_bind c = true).
Proof.
  split; [|split; [|split]].
  - intros pp ifip tr Htr. apply always_after_and.
    + pose proof (recv_thread_bind _ _ Htr) as Hbind.
      rewrite htonl_any in Hbind. exact Hbind.
    + exact (recv_thread_sockopts _ _ Htr).
  - intros pp ifidx ifname tr Htr. apply always_after_and.
    + exact (recv_thread6_bind _ _ Htr).
    + exact (recv_thread6_sockopts _ _ Htr).
  - apply recv_thread_binds.
  - apply recv_thread6_binds.
Qed.

(** The receiver of "multicast recv 239.1.1.1 12345 - 172.16.2.2", every
    call succeeding and every read failing. *)
Lemma receiver_bind_witness :
  always (fun _ c =>
            forall a, bind_of c = Some a ->
                      a = {| Sys.sin_family := Sys.AF_INET;
                             Sys.sin_port := 14640;
                             Sys.sin_addr := 0 |})
         (calls (run 12 (answers calm) 0
                   (@Multicast.recv_thread Libc.little_endian_host false
                      (@Multicast.parse_args Libc.little_endian_host false
                         ["multicast"; "recv"; "239.1.1.1"; "12345"; "-";
                          "172.16.2.2"])))).
Proof.
  eapply always_after_weaken;
    [|eapply (proj1 (@receiver_bind Libc.little_endian_host false)
                (@Multicast.parse_args Libc.little_endian_host false
                   ["multicast"; "recv"; "239.1.1.1"; "12345"])
                (Libc.inet_addr "172.16.2.2"));
      apply run_is_trace].
  intros h c [Hbind _]. exact Hbind.
Defined.

Section PortArgument.
Import Libc Sys.
Context `{Host}.




End PortArgument.



(* ===================================================================== *)
(** * More about the threads and [main] *)
(* ===================================================================== *)

(** Evaluate the further things read off explicit calls. *)
Ltac read_more :=
  read_calls;
  cbn [is_pause pause_returned is_close sleep_of is_sleep
       time_of ifname_of ifindex_of sent_of threads flat_map
       is_bindtodevice] in *.

Section NeverReturns.
Context {E : Type -> Type}.

(** A loop whose turns all ask for another one does not return, and
    neither does what is written after it. *)
Lemma iter_bind_no_ret {I R S : Type} (body : I -> itree E (I + R))
      (k : R -> itree E S)
      (Inv : list (call E) -> I -> Prop) (Q : list (call E) -> call E -> Prop) :
  (forall h i tr,
      Inv h i -> is_trace (body i) tr ->
      always_after h Q (calls tr) /\
      match trace_ret tr with
      | None => True
      | Some (inl i') => calls tr <> [] /\ Inv (rev (calls tr) ++ h) i'
      | Some (inr _) => False
      end) ->
  forall (tr : @trace E S) h i,
    Inv h i -> is_trace (ITree.bind (ITree.iter body i) k) tr ->
    trace_ret tr = None.
Proof.
  intros Hbody tr h i Hinv Htr.
  apply is_trace_bind_inv in Htr.
  destruct Htr as [(tr1 & H1 & H2 & H3 & H4)
                  | (tr1 & r & tr2 & H1 & H2 & H3 & H4 & H5)].
  - exact H4.
  - edestruct (@always_iter E I R body Inv Q) as [_ Hret];
      [exact Hbody | exact Hinv | exact H1 |].
    congruence.
Qed.
End NeverReturns.

Ltac only_call :=
  unfold receiver_only, sender_only; read_more;
  repeat split; reflexivity.

Section ThreadsStay.
Import Libc Sys.
Context `{Host}.

Lemma recv_iteration_only sock h buffer tr :
  True -> is_trace (Multicast.recv_iteration sock buffer) tr ->
  always_after h (fun _ (c : call Multicast.E) => receiver_only c)
               (calls tr) /\
  match trace_ret tr with
  | None => True
  | Some (inl _) => calls tr <> [] /\ True
  | Some (inr _) => False
  end.
Proof.
  intros _ Htr. unfold Multicast.recv_iteration in Htr.
  unroll Htr; turn only_call next_turn.
Qed.

Lemma recv_iteration6_only sock h buffer tr :
  True -> is_trace (Multicast6.recv_iteration sock buffer) tr ->
  always_after h (fun _ (c : call Multicast6.E) => receiver_only c)
               (calls tr) /\
  match trace_ret tr with
  | None => True
  | Some (inl _) => calls tr <> [] /\ True
  | Some (inr _) => False
  end.
Proof.
  intros _ Htr. unfold Multicast6.recv_iteration in Htr.
  unroll Htr; turn only_call next_turn.
Qed.

Lemma send_iteration_only pp sock fixstr dest h i tr :
  True -> is_trace (Multicast.send_iteration pp sock fixstr dest i) tr ->
  always_after h (fun _ (c : call Multicast.E) => sender_only c)
               (calls tr) /\
  match trace_ret tr with
  | None => True
  | Some (inl _) => calls tr <> [] /\ True
  | Some (inr _) => False
  end.
Proof.
  intros _ Htr.
  unfold Multicast.send_iteration, or_die, do_exit in Htr.
  unroll Htr; turn only_call next_turn.
Qed.

Lemma send_iteration6_only pp sock dest h st tr :
  True -> is_trace (Multicast6.send_iteration pp sock dest st) tr ->
  always_after h (fun _ (c : call Multicast6.E) => sender_only c)
               (calls tr) /\
  match trace_ret tr with
  | None => True
  | Some (inl _) => calls tr <> [] /\ True
  | Some (inr _) => False
  end.
Proof.
  intros _ Htr.
  unfold Multicast6.send_iteration, or_die, do_exit in Htr.
  unroll Htr; turn only_call next_turn.
Qed.

Lemma recv_thread_only NOSSM pp tr :
  is_trace (Multicast.recv_thread NOSSM pp) tr ->
  always (fun _ c => receiver_only c) (calls tr).
Proof.
  unfold Multicast.recv_thread, always, or_die, do_exit. intros Htr.
  unroll Htr; each_call; try only_call.
  all: eapply (@always_iter_bind _ _ _ _ _ _ (fun _ _ => True));
    [ apply recv_iteration_only | exact I | eassumption ].
Qed.

Lemma recv_thread6_only NOSSM pp tr :
  is_trace (Multicast6.recv_thread NOSSM pp) tr ->
  always (fun _ c => receiver_only c) (calls tr).
Proof.
  unfold Multicast6.recv_thread, always, or_die, do_exit. intros Htr.
  unroll Htr; each_call; try only_call.
  all: eapply (@always_iter_bind _ _ _ _ _ _ (fun _ _ => True));
    [ apply recv_iteration6_only | exact I | eassumption ].
Qed.

Lemma send_thread_only pp tr :
  is_trace (Multicast.send_thread pp) tr ->
  always (fun _ c => sender_only c) (calls tr).
Proof.
  unfold Multicast.send_thread, always, or_die, do_exit. intros Htr.
  unroll Htr; each_call; try only_call.
  all: eapply (@always_iter_bind _ _ _ _ _ _ (fun _ _ => True));
    [ apply send_iteration_only | exact I | eassumption ].
Qed.

Lemma send_thread6_only pp tr :
  is_trace (Multicast6.send_thread pp) tr ->
  always (fun _ c => sender_only c) (calls tr).
Proof.
  unfold Multicast6.send_thread, always, or_die, do_exit. intros Htr.
  unroll Htr; each_call; try only_call.
  all: eapply (@always_iter_bind _ _ _ _ _ _ (fun _ _ => True));
    [ apply send_iteration6_only | exact I | eassumption ].
Qed.

Lemma recv_thread_no_ret NOSSM pp tr :
  is_trace (Multicast.recv_thread NOSSM pp) tr -> trace_ret tr = None.
Proof.
  unfold Multicast.recv_thread, or_die, do_exit. intros Htr.
  unroll Htr; cbn [trace_ret]; try reflexivity.
  all: refine (@iter_bind_no_ret _ _ _ _ _ _ (fun _ _ => True) _ _ _ [] _ I Htr);
    apply recv_iteration_only.
Qed.

Lemma recv_thread6_no_ret NOSSM pp tr :
  is_trace (Multicast6.recv_thread NOSSM pp) tr -> trace_ret tr = None.
Proof.
  unfold Multicast6.recv_thread, or_die, do_exit. intros Htr.
  unroll Htr; cbn [trace_ret]; try reflexivity.
  all: refine (@iter_bind_no_ret _ _ _ _ _ _ (fun _ _ => True) _ _ _ [] _ I Htr);
    apply recv_iteration6_only.
Qed.

Lemma send_thread_no_ret pp tr :
  is_trace (Multicast.send_thread pp) tr -> trace_ret tr = None.
Proof.
  unfold Multicast.send_thread, or_die, do_exit. intros Htr.
  unroll Htr; cbn [trace_ret]; try reflexivity.
  all: refine (@iter_bind_no_ret _ _ _ _ _ _ (fun _ _ => True) _ _ _ [] _ I Htr);
    apply send_iteration_only.
Qed.

Lemma send_thread6_no_ret pp tr :
  is_trace (Multicast6.send_thread pp) tr -> trace_ret tr = None.
Proof.
  unfold Multicast6.send_thread, or_die, do_exit. intros Htr.
  unroll Htr; cbn [trace_ret]; try reflexivity.
  all: refine (@iter_bind_no_ret _ _ _ _ _ _ (fun _ _ => True) _ _ _ [] _ I Htr);
    apply send_iteration6_only.
Qed.
End ThreadsStay.

(** The threads never leave their loops.  No run of a receiver or of a
    sender returns or closes its socket: the [close] and the [return]
    written after each [while (1)] are never reached.  A receiver sends
    nothing and does not sleep; a sender reads nothing; neither starts a
    thread. *)
Theorem threads_stay_in_loop `{Libc.Host} (NOSSM : bool) :
  (forall pp tr,
      is_trace (Multicast.recv_thread NOSSM pp) tr ->
      trace_ret tr = None /\
      always (fun _ c => receiver_only c) (calls tr)) /\
  (forall pp tr,
      is_trace (Multicast6.recv_thread NOSSM pp) tr ->
      trace_ret tr = None /\
      always (fun _ c => receiver_only c) (calls tr)) /\
  (forall pp tr,
      is_trace (Multicast.send_thread pp) tr ->
      trace_ret tr = None /\
      always (fun _ c => sender_only c) (calls tr)) /\
  (forall pp tr,
      is_trace (Multicast6.send_thread pp) tr ->
      trace_ret tr = None /\
      always (fun _ c => sender_only c) (calls tr)).
Proof.
  split; [|split; [|split]]; intros pp tr Htr; split.
  - exact (recv_thread_no_ret _ _ Htr).
  - exact (recv_thread_only _ _ Htr).
  - exact (recv_thread6_no_ret _ _ Htr).
  - exact (recv_thread6_only _ _ Htr).
  - exact (@send_thread_no_ret _ _ _ Htr).
  - exact (@send_thread_only _ _ _ Htr).
  - exact (@send_thread6_no_ret _ _ _ Htr).
  - exact (@send_thread6_only _ _ _ Htr).
Qed.

(** The receiver of "multicast recv 239.1.1.1 12345", every call
    succeeding and every read failing, after twenty steps. *)
Lemma threads_stay_in_loop_witness :
  trace_ret (run 20 (answers calm) 0
               (@Multicast.recv_thread Libc.little_endian_host false
                  (@Multicast.parse_args Libc.little_endian_host false
                     ["multicast"; "recv"; "239.1.1.1"; "12345"]))) = None.
Proof.
  eapply (proj1 (@threads_stay_in_loop Libc.little_endian_host false)).
  apply run_is_trace.
Defined.

(** Use the tests made on the way in the hypothesis on the usage. *)
Ltac usage_tests Hbad :=
  unfold bad_usage, launch_plan4, launch_plan6, Multicast.arg_at,
         Multicast6.arg_at, Multicast6.with_interface in *;
  repeat match goal with
         | Hc : ?b = _ |- _ =>
             lazymatch Hc with Hbad => fail | _ => idtac end;
             match type of Hbad with
             | context [b] => rewrite Hc in Hbad
             end
         end;
  cbn [orb negb andb] in Hbad.

Ltac wrong_usage Hbad := solve [usage_tests Hbad; discriminate Hbad].

(** Answer the call at the head of a tree that ends in [exit]. *)
Ltac answer_head v :=
  pass_test;
  try (setoid_rewrite bind_trigger at 1);
  try rewrite bind_vis;
  eapply (@is_trace_vis_intro _ _ _ _ _ v _).

Ltac end_head :=
  pass_test;
  try (setoid_rewrite bind_trigger at 1);
  try rewrite bind_vis;
  first [ apply is_trace_vis_end | apply is_trace_ret_intro ].

Section UsageError.
Import Libc Sys.
Context `{Host}.
Variable NOSSM : bool.

Ltac quiet_leaf Hbad :=
  first [ wrong_usage Hbad
        | split; [reflexivity|];
          split; [reflexivity|];
          each_call; read_more; reflexivity ].

Lemma main_bad_usage argv tr :
  bad_usage argv = true ->
  is_trace (Multicast.main NOSSM argv) tr ->
  trace_ret tr = None /\ threads (calls tr) = [] /\
  always (fun _ c => is_pause c = false) (calls tr).
Proof.
  unfold Multicast.main, Multicast.errusage, always, do_exit.
  intros Hbad Htr.
  unroll Htr; quiet_leaf Hbad.
Qed.

Lemma main6_bad_usage argv tr :
  bad_usage argv = true ->
  is_trace (Multicast6.main NOSSM argv) tr ->
  trace_ret tr = None /\ threads (calls tr) = [] /\
  always (fun _ c => is_pause c = false) (calls tr).
Proof.
  unfold Multicast6.main, Multicast6.errusage, always, do_exit.
  intros Hbad Htr.
  unroll Htr; quiet_leaf Hbad.
Qed.

Lemma main_reports_usage argv :
  bad_usage argv = true ->
  exists tr,
    is_trace (Multicast.main NOSSM argv) tr /\
    calls tr = [usage4 argv; Call (exit EXIT_FAILURE) None].
Proof.
  intros Hbad.
  unfold Multicast.main, Multicast.errusage, do_exit, Multicast.arg_at.
  unfold bad_usage in Hbad.
  destruct (Z.of_nat (List.length argv) <? 4).
  - eexists. split; [answer_head tt; end_head | reflexivity].
  - cbn [orb] in Hbad. apply negb_true_iff in Hbad.
    apply orb_false_iff in Hbad. destruct Hbad as [Hbad Hboth].
    apply orb_false_iff in Hbad. destruct Hbad as [Hrecv Hsend].
    rewrite Hrecv, Hsend, Hboth.
    eexists. split; [answer_head tt; end_head | reflexivity].
Qed.

Lemma main6_reports_usage argv idx :
  bad_usage argv = true ->
  exists tr,
    is_trace (Multicast6.main NOSSM argv) tr /\
    calls tr =
      (if (Z.of_nat (List.length argv) <? 4)
       then []
       else if Z.of_nat (List.length argv) >=? 6
            then [Call (if_nametoindex (nth 5 argv "")) (Some idx)]
            else [])
      ++ [usage6 argv; Call (exit EXIT_FAILURE) None].
Proof.
  intros Hbad.
  unfold Multicast6.main, Multicast6.errusage, do_exit, Multicast6.arg_at.
  unfold bad_usage in Hbad.
  destruct (Z.of_nat (List.length argv) <? 4).
  - eexists. split; [answer_head tt; end_head | reflexivity].
  - cbn [orb] in Hbad. apply negb_true_iff in Hbad.
    apply orb_false_iff in Hbad. destruct Hbad as [Hbad Hboth].
    apply orb_false_iff in Hbad. destruct Hbad as [Hrecv Hsend].
    rewrite Hrecv, Hsend, Hboth.
    destruct (Z.of_nat (List.length argv) >=? 6).
    + eexists. split; [answer_head idx; answer_head tt; end_head | reflexivity].
    + eexists. split; [answer_head tt; end_head | reflexivity].
Qed.
End UsageError.

(** Called with fewer than three arguments or with a mode other than
    "recv", "send" and "both", either [main] writes its usage line, with
    [argv[0]] in it, to [stderr] and exits with [EXIT_FAILURE]; the IPv6
    program looks the interface of a sixth argument up before it finds
    the mode wrong.  No run starts a thread, reaches [pause] or
    returns. *)
Theorem usage_error `{Libc.Host} (NOSSM : bool) (argv : list string) :
  bad_usage argv = true ->
  (forall tr,
      is_trace (Multicast.main NOSSM argv) tr ->
      trace_ret tr = None /\ threads (calls tr) = [] /\
      always (fun _ c => is_pause c = false) (calls tr)) /\
  (forall tr,
      is_trace (Multicast6.main NOSSM argv) tr ->
      trace_ret tr = None /\ threads (calls tr) = [] /\
      always (fun _ c => is_pause c = false) (calls tr)) /\
  (exists tr,
      is_trace (Multicast.main NOSSM argv) tr /\
      calls tr = [usage4 argv; Call (Sys.exit Sys.EXIT_FAILURE) None]) /\
  (forall idx, exists tr,
      is_trace (Multicast6.main NOSSM argv) tr /\
      calls tr =
        (if (Z.of_nat (List.length argv) <? 4)
         then []
         else if Z.of_nat (List.length argv) >=? 6
              then [Call (Sys.if_nametoindex (nth 5 argv "")) (Some idx)]
              else [])
        ++ [usage6 argv; Call (Sys.exit Sys.EXIT_FAILURE) None]).
Proof.
  intros Hbad. split; [|split; [|split]].
  - intros tr. apply main_bad_usage. exact Hbad.
  - intros tr. apply main6_bad_usage. exact Hbad.
  - apply main_reports_usage. exact Hbad.
  - intros idx. apply main6_reports_usage. exact Hbad.
Qed.

(** "multicast recv 239.1.1.1": the port is missing. *)
Lemma usage_error_witness :
  exists tr,
    is_trace (@Multicast.main Libc.little_endian_host false
                ["multicast"; "recv"; "239.1.1.1"]) tr /\
    calls tr = [usage4 ["multicast"; "recv"; "239.1.1.1"];
                Call (Sys.exit Sys.EXIT_FAILURE) None].
Proof.
  exact (proj1 (proj2 (proj2
           (@usage_error Libc.little_endian_host false
              ["multicast"; "recv"; "239.1.1.1"] eq_refl)))).
Defined.

Section LaunchPlan.
Import Libc Sys.
Context `{Host}.
Variable NOSSM : bool.

Ltac plan_leaf Hbad :=
  first
    [ wrong_usage Hbad
    | unfold launch_plan4, launch_plan6, Multicast.arg_at,
             Multicast6.arg_at, Multicast6.with_interface, starts in *;
      use_tests; read_more;
      split;
      [ eexists; reflexivity
      | each_call; read_more;
        let Hp := fresh "Hp" in
        intros Hp; first [discriminate Hp | reflexivity] ] ].

Lemma main_follows_plan argv tr :
  bad_usage argv = false ->
  is_trace (Multicast.main NOSSM argv) tr ->
  starts (threads (calls tr)) (launch_plan4 NOSSM argv) /\
  always (fun h c => is_pause c = true ->
                     threads (rev h) = launch_plan4 NOSSM argv)
         (calls tr).
Proof.
  unfold Multicast.main, Multicast.errusage, always, do_exit.
  intros Hbad Htr.
  unroll Htr; plan_leaf Hbad.
Qed.

Lemma main6_follows_plan argv tr :
  bad_usage argv = false ->
  is_trace (Multicast6.main NOSSM argv) tr ->
  exists idx,
    starts (threads (calls tr)) (launch_plan6 NOSSM argv idx) /\
    always (fun h c => is_pause c = true ->
                       threads (rev h) = launch_plan6 NOSSM argv idx)
           (calls tr).
Proof.
  unfold Multicast6.main, Multicast6.errusage, always, do_exit.
  intros Hbad Htr.
  unroll Htr;
    first [ wrong_usage Hbad
          | exists 0; plan_leaf Hbad
          | eexists; plan_leaf Hbad ].
Qed.

Lemma good_usage argv :
  bad_usage argv = false ->
  (Z.of_nat (List.length argv) <? 4) = false /\
  ((nth 1 argv "" =? "recv")%string = true \/
   (nth 1 argv "" =? "recv")%string = false /\
   (nth 1 argv "" =? "send")%string = true \/
   (nth 1 argv "" =? "recv")%string = false /\
   (nth 1 argv "" =? "send")%string = false /\
   (nth 1 argv "" =? "both")%string = true).
Proof.
  unfold bad_usage. intros Hbad.
  apply orb_false_iff in Hbad. destruct Hbad as [Hargc Hmode].
  split; [exact Hargc|]. apply negb_false_iff in Hmode.
  destruct (nth 1 argv "" =? "recv")%string; [auto|].
  destruct (nth 1 argv "" =? "send")%string; [auto|].
  destruct (nth 1 argv "" =? "both")%string; [auto|discriminate Hmode].
Qed.

(** [main] starts the threads of its plan whatever [pthread_create]
    returns, and then waits in [pause]. *)
Lemma main_runs_plan argv (r : Z) :
  bad_usage argv = false ->
  exists tr,
    is_trace (Multicast.main NOSSM argv) tr /\
    calls tr =
      List.map (fun t => Call (pthread_create (fst t) (snd t)) (Some r))
               (launch_plan4 NOSSM argv)
      ++ [Call pause None].
Proof.
  intros Hbad. destruct (good_usage _ Hbad) as [Hargc Hmode].
  unfold Multicast.main, launch_plan4, Multicast.arg_at. rewrite Hargc.
  destruct Hmode as [Hr | [(Hr & Hs) | (Hr & Hs & Hb)]];
    rewrite ?Hr, ?Hs, ?Hb; eexists.
  - split; [answer r; answer_end | reflexivity].
  - split; [answer r; answer_end | reflexivity].
  - split; [answer r; answer r; answer_end | reflexivity].
Qed.

Lemma main6_runs_plan argv (idx r : Z) :
  bad_usage argv = false ->
  exists tr,
    is_trace (Multicast6.main NOSSM argv) tr /\
    calls tr =
      (if Z.of_nat (List.length argv) >=? 6
       then [Call (if_nametoindex (nth 5 argv "")) (Some idx)]
       else [])
      ++ List.map (fun t => Call (pthread_create (fst t) (snd t)) (Some r))
                  (launch_plan6 NOSSM argv idx)
      ++ [Call pause None].
Proof.
  intros Hbad. destruct (good_usage _ Hbad) as [Hargc Hmode].
  unfold Multicast6.main, launch_plan6, Multicast6.arg_at,
         Multicast6.with_interface.
  rewrite Hargc.
  destruct (Z.of_nat (List.length argv) >=? 6);
    destruct Hmode as [Hr | [(Hr & Hs) | (Hr & Hs & Hb)]];
    rewrite ?Hr, ?Hs, ?Hb; eexists.
  - split; [answer idx; answer r; answer_end | reflexivity].
  - split; [answer idx; answer r; answer_end | reflexivity].
  - split; [answer idx; answer r; answer r; answer_end | reflexivity].
  - split; [answer r; answer_end | reflexivity].
  - split; [answer r; answer_end | reflexivity].
  - split; [answer r; answer r; answer_end | reflexivity].
Qed.
End LaunchPlan.

(** Called as its usage line allows, [main] starts the receiver in mode
    "recv", the sender (with [loop] at 1) in mode "send", and in mode
    "both" the receiver first and the sender second, both on the same
    parameter block with [bidir] at 1; it starts nothing else, and it
    calls [pause] only once all of them are started.  It does not look at
    what [pthread_create] returns: whatever that is, the next thread is
    started and [pause] is reached. *)
Theorem main_launch_plan `{Libc.Host} (NOSSM : bool) (argv : list string) :
  bad_usage argv = false ->
  (forall tr,
      is_trace (Multicast.main NOSSM argv) tr ->
      starts (threads (calls tr)) (launch_plan4 NOSSM argv) /\
      always (fun h c => is_pause c = true ->
                         threads (rev h) = launch_plan4 NOSSM argv)
             (calls tr)) /\
  (forall tr,
      is_trace (Multicast6.main NOSSM argv) tr ->
      exists idx,
        starts (threads (calls tr)) (launch_plan6 NOSSM argv idx) /\
        always (fun h c => is_pause c = true ->
                           threads (rev h) = launch_plan6 NOSSM argv idx)
               (calls tr)) /\
  (forall r, exists tr,
        is_trace (Multicast.main NOSSM argv) tr /\
        calls tr =
          List.map (fun t => Call (Sys.pthread_create (fst t) (snd t))
                                  (Some r))
                   (launch_plan4 NOSSM argv)
          ++ [Call Sys.pause None]) /\
  (forall idx r, exists tr,
        is_trace (Multicast6.main NOSSM argv) tr /\
        calls tr =
          (if Z.of_nat (List.length argv) >=? 6
           then [Call (Sys.if_nametoindex (nth 5 argv "")) (Some idx)]
           else [])
          ++ List.map (fun t => Call (Sys.pthread_create (fst t) (snd t))
                                     (Some r))
                      (launch_plan6 NOSSM argv idx)
          ++ [Call Sys.pause None]).
Proof.
  intros Hbad. split; [|split; [|split]].
  - intros tr. apply main_follows_plan. exact Hbad.
  - intros tr. apply main6_follows_plan. exact Hbad.
  - intros r. apply main_runs_plan. exact Hbad.
  - intros idx r. apply main6_runs_plan. exact Hbad.
Qed.

(** "multicast both 239.1.1.1 12345" when [pthread_create] fails with
    EAGAIN (11) both times. *)
Lemma main_launch_plan_witness :
  exists tr,
    is_trace (@Multicast.main Libc.little_endian_host false
                ["multicast"; "both"; "239.1.1.1"; "12345"]) tr /\
    calls tr =
      List.map (fun t => Call (Sys.pthread_create (fst t) (snd t)) (Some 11))
               (@launch_plan4 Libc.little_endian_host false
                  ["multicast"; "both"; "239.1.1.1"; "12345"])
      ++ [Call Sys.pause None].
Proof.
  exact (proj1 (proj2 (proj2
           (@main_launch_plan Libc.little_endian_host false
              ["multicast"; "both"; "239.1.1.1"; "12345"] eq_refl))) 11).
Defined.

Section MainReturns.
Import Libc Sys.
Context `{Host}.
Variable NOSSM : bool.




End MainReturns.



(** ** The senders *)

Ltac same_option :=
  repeat match goal with
         | Hs : Some _ = Some _ |- _ => apply Some_inj in Hs
         end.

Ltac pace_call :=
  unfold paced, count in *; read_more;
  repeat split; intros; try discriminate; same_option; subst;
  cbn [List.length] in *; try reflexivity; try lia.

Ltac sender_failure_call :=
  unfold between_sends, send_failure_fatal, setup_failure_fatal in *;
  read_more; use_tests; read_more;
  solve [intuition (try discriminate; try congruence; eauto)].

Ltac interface_tests :=
  repeat match goal with
         | Hc : negb (_ =? _) = true |- _ =>
             apply negb_true_iff in Hc; apply Z.eqb_neq in Hc
         | Hc : negb (_ =? _) = false |- _ =>
             apply negb_false_iff in Hc; apply Z.eqb_eq in Hc
         end.

Ltac egress_call :=
  read_more; interface_tests;
  repeat split; intros; try discriminate; same_option;
  try match goal with
      | Hs : Multicast.IP_MULTICAST_IF _ = Multicast.IP_MULTICAST_IF _ |- _ =>
          injection Hs as <-
      | Hs : Multicast6.IPV6_MULTICAST_IF _ = Multicast6.IPV6_MULTICAST_IF _
        |- _ =>
          injection Hs as <-
      end;
  try reflexivity; try assumption; try contradiction; try congruence;
  try find_option.

Ltac report_call :=
  unfold send_reported; read_more;
  let Hp := fresh "Hp" in
  intros ? ? ? ? ? ? Hp;
  first
    [ discriminate Hp
    | apply Some_inj in Hp; injection Hp as <- <- <- <- <- <-;
      eexists; eexists; eexists;
      split; [reflexivity|]; split; [reflexivity|];
      split; [read_more; use_tests; reflexivity|];
      repeat split; reflexivity ].

Section Suffix.
Context {T : Type}.

Lemma cons_app_suffix (x : T) (l pre suffix : list T) :
  l = pre ++ suffix -> x :: l = (x :: pre) ++ suffix.
Proof. intros ->. reflexivity. Qed.
End Suffix.

(** Split an explicit list of calls before its last calls. *)
Ltac find_suffix :=
  first [ refine (eq_refl : _ = [] ++ _)
        | eapply cons_app_suffix; find_suffix ].

Section SenderTurns.
Import Libc Sys.
Context `{Host}.

Lemma send_iteration_paced pp sock fixstr dest h i tr :
  count is_sleep h = count is_sendto h ->
  is_trace (Multicast.send_iteration pp sock fixstr dest i) tr ->
  always_after h paced (calls tr) /\
  match trace_ret tr with
  | None => True
  | Some (inl _) =>
      calls tr <> [] /\
      count is_sleep (rev (calls tr) ++ h)
      = count is_sendto (rev (calls tr) ++ h)
  | Some (inr _) => False
  end.
Proof.
  intros Hinv Htr.
  unfold Multicast.send_iteration, or_die, do_exit in Htr.
  unroll Htr; turn idtac idtac; try exact I; pace_call.
Qed.

Lemma send_iteration6_paced pp sock dest h st tr :
  count is_sleep h = count is_sendto h ->
  is_trace (Multicast6.send_iteration pp sock dest st) tr ->
  always_after h paced (calls tr) /\
  match trace_ret tr with
  | None => True
  | Some (inl _) =>
      calls tr <> [] /\
      count is_sleep (rev (calls tr) ++ h)
      = count is_sendto (rev (calls tr) ++ h)
  | Some (inr _) => False
  end.
Proof.
  intros Hinv Htr.
  unfold Multicast6.send_iteration, or_die, do_exit in Htr.
  unroll Htr; turn idtac idtac; try exact I; pace_call.
Qed.

Lemma send_thread_paced pp tr :
  is_trace (Multicast.send_thread pp) tr -> always paced (calls tr).
Proof.
  unfold Multicast.send_thread, always, or_die, do_exit. intros Htr.
  unroll Htr; each_call.
  all: try (eapply (@always_iter_bind _ _ _ _ _ _
              (fun h _ => count is_sleep h = count is_sendto h));
            [ | | eassumption ];
            [ cbv beta; intros; eapply send_iteration_paced; eassumption | ]).
  all: pace_call.
Qed.

Lemma send_thread6_paced pp tr :
  is_trace (Multicast6.send_thread pp) tr -> always paced (calls tr).
Proof.
  unfold Multicast6.send_thread, always, or_die, do_exit. intros Htr.
  unroll Htr; each_call.
  all: try (eapply (@always_iter_bind _ _ _ _ _ _
              (fun h _ => count is_sleep h = count is_sendto h));
            [ | | eassumption ];
            [ cbv beta; intros; eapply send_iteration6_paced; eassumption | ]).
  all: pace_call.
Qed.

Lemma send_iteration_failures pp sock fixstr dest h i tr :
  between_sends h ->
  is_trace (Multicast.send_iteration pp sock fixstr dest i) tr ->
  always_after h
    (fun h c => send_failure_fatal h c /\ setup_failure_fatal h c)
    (calls tr) /\
  match trace_ret tr with
  | None => True
  | Some (inl _) => calls tr <> [] /\ between_sends (rev (calls tr) ++ h)
  | Some (inr _) => False
  end.
Proof.
  intros Hinv Htr.
  unfold Multicast.send_iteration, or_die, do_exit in Htr.
  unroll Htr; turn idtac idtac; try exact I.
  all: destruct h as [|? [|? ?]]; sender_failure_call.
Qed.

Lemma send_iteration6_failures pp sock dest h st tr :
  between_sends h ->
  is_trace (Multicast6.send_iteration pp sock dest st) tr ->
  always_after h
    (fun h c => send_failure_fatal h c /\ setup_failure_fatal h c)
    (calls tr) /\
  match trace_ret tr with
  | None => True
  | Some (inl _) => calls tr <> [] /\ between_sends (rev (calls tr) ++ h)
  | Some (inr _) => False
  end.
Proof.
  intros Hinv Htr.
  unfold Multicast6.send_iteration, or_die, do_exit in Htr.
  unroll Htr; turn idtac idtac; try exact I.
  all: destruct h as [|? [|? ?]]; sender_failure_call.
Qed.

Lemma send_thread_failures pp tr :
  is_trace (Multicast.send_thread pp) tr ->
  always (fun h c => send_failure_fatal h c /\ setup_failure_fatal h c)
         (calls tr).
Proof.
  unfold Multicast.send_thread, always, or_die, do_exit. intros Htr.
  unroll Htr; each_call.
  all: try (eapply (@always_iter_bind _ _ _ _ _ _ (fun h _ => between_sends h));
            [ | | eassumption ];
            [ cbv beta; intros; eapply send_iteration_failures; eassumption | ]).
  all: sender_failure_call.
Qed.

Lemma send_thread6_failures pp tr :
  is_trace (Multicast6.send_thread pp) tr ->
  always (fun h c => send_failure_fatal h c /\ setup_failure_fatal h c)
         (calls tr).
Proof.
  unfold Multicast6.send_thread, always, or_die, do_exit. intros Htr.
  unroll Htr; each_call.
  all: try (eapply (@always_iter_bind _ _ _ _ _ _ (fun h _ => between_sends h));
            [ | | eassumption ];
            [ cbv beta; intros; eapply send_iteration6_failures; eassumption | ]).
  all: sender_failure_call.
Qed.

(** The sender whose first [sendto] fails reports it and exits. *)
Lemma send_thread_send_fatal pp (now : tm) :
  exists tr pre c,
    is_trace (Multicast.send_thread pp) tr /\
    calls tr = pre ++ [c; Call (perror "Send failed") (Some tt);
                       Call (exit EXIT_FAILURE) None] /\
    is_sendto c = true /\ returned c = Some (-1).
Proof.
  assert (Hturn : exists tr1 c,
             is_trace (Multicast.send_iteration pp 3 ".....*"
                         {| sin_family := AF_INET;
                            sin_port := Multicast.port pp;
                            sin_addr := Multicast.mip pp |} 0) tr1 /\
             trace_ret tr1 = None /\
             calls tr1 = [Call localtime_now (Some now); c;
                          Call (perror "Send failed") (Some tt);
                          Call (exit EXIT_FAILURE) None] /\
             is_sendto c = true /\ returned c = Some (-1)).
  { eexists. eexists. split; [|split; [|split; [|split]]].
    - unfold Multicast.send_iteration, or_die, do_exit.
      answer now. answer (-1). answer tt. answer_end.
    - reflexivity.
    - reflexivity.
    - reflexivity.
    - reflexivity. }
  destruct Hturn as (tr1 & c & H1 & Hret & Hcalls & Hc & Hr).
  destruct (is_trace_iter_last _ _ H1 Hret) as (ltr & Hl & Heq1 & Hret1).
  destruct (is_trace_bind_partial
              (fun _ : Z => ITree.trigger (close 3) ;; Ret 0) Hl Hret1)
    as (tr' & Htr' & Heq & _).
  unfold Multicast.send_thread.
  destruct (Multicast.bidir pp =? 1);
    destruct (negb (Multicast.ifip pp =? htonl INADDR_ANY)).
  all: eexists; eexists; exists c.
  all: split; [ succeed; pass_test; exact Htr' | ].
  all: split; [cbn [calls]; rewrite Heq, Heq1, Hcalls; find_suffix|].
  all: split; assumption.
Qed.

Lemma send_thread6_send_fatal pp (now : tm) :
  exists tr pre c,
    is_trace (Multicast6.send_thread pp) tr /\
    calls tr = pre ++ [c; Call (perror "Send failed") (Some tt);
                       Call (exit EXIT_FAILURE) None] /\
    is_sendto c = true /\ returned c = Some (-1).
Proof.
  assert (Hturn : exists tr1 c,
             is_trace (Multicast6.send_iteration pp 3
                         {| sin_family := AF_INET6;
                            sin_port := Multicast6.port pp;
                            sin_addr := Multicast6.mip pp |}
                         (0, "0.....")) tr1 /\
             trace_ret tr1 = None /\
             calls tr1 = [Call localtime_now (Some now); c;
                          Call (perror "Send failed") (Some tt);
                          Call (exit EXIT_FAILURE) None] /\
             is_sendto c = true /\ returned c = Some (-1)).
  { eexists. eexists. split; [|split; [|split; [|split]]].
    - unfold Multicast6.send_iteration, or_die, do_exit.
      answer now. answer (-1). answer tt. answer_end.
    - reflexivity.
    - reflexivity.
    - reflexivity.
    - reflexivity. }
  destruct Hturn as (tr1 & c & H1 & Hret & Hcalls & Hc & Hr).
  destruct (is_trace_iter_last _ _ H1 Hret) as (ltr & Hl & Heq1 & Hret1).
  destruct (is_trace_bind_partial
              (fun _ : Z => ITree.trigger (close 3) ;; Ret 0) Hl Hret1)
    as (tr' & Htr' & Heq & _).
  unfold Multicast6.send_thread.
  destruct (Multicast6.bidir pp =? 1);
    destruct (negb (Multicast6.ifidx pp =? Multicast6.IFIDXDEFAULT)).
  all: eexists; eexists; exists c.
  all: split; [ succeed; pass_test; exact Htr' | ].
  all: split; [cbn [calls]; rewrite Heq, Heq1, Hcalls; find_suffix|].
  all: split; assumption.
Qed.
End SenderTurns.

(** The senders send one datagram a second.  Whenever a datagram is
    handed to [sendto], the sender has slept once for every datagram sent
    before; and every [sleep] is of one second and follows a [sendto]
    that has no [sleep] yet. *)
Theorem sender_paced `{Libc.Host} :
  (forall pp tr,
      is_trace (Multicast.send_thread pp) tr -> always paced (calls tr)) /\
  (forall pp tr,
      is_trace (Multicast6.send_thread pp) tr -> always paced (calls tr)).
Proof.
  split; intros pp tr.
  - apply send_thread_paced.
  - apply send_thread6_paced.
Qed.

(** The sender of "multicast send 239.1.1.1 12345" for forty steps. *)
Lemma sender_paced_witness :
  always paced
         (calls (run 40 (answers calm) 0
                   (@Multicast.send_thread Libc.little_endian_host
                      (Multicast.set_loop 1
                         (@Multicast.parse_args Libc.little_endian_host false
                            ["multicast"; "send"; "239.1.1.1"; "12345"]))))).
Proof.
  eapply (proj1 (@sender_paced Libc.little_endian_host)).
  apply run_is_trace.
Defined.

(** A failed [sendto] is fatal, unlike a failed read.  In every run of
    either sender the call that follows a [sendto] that returned a
    negative value is [perror ("Send failed")] and the one after that is
    [exit (EXIT_FAILURE)]; the same holds, with its own message, after a
    failed [socket], [setsockopt] or [bind].  A sender whose first
    [sendto] fails does report it and exit. *)
Theorem sender_failures `{Libc.Host} (now : Sys.tm) :
  (forall pp tr,
      is_trace (Multicast.send_thread pp) tr ->
      always (fun h c => send_failure_fatal h c /\ setup_failure_fatal h c)
             (calls tr)) /\
  (forall pp tr,
      is_trace (Multicast6.send_thread pp) tr ->
      always (fun h c => send_failure_fatal h c /\ setup_failure_fatal h c)
             (calls tr)) /\
  (forall pp, exists tr pre c,
        is_trace (Multicast.send_thread pp) tr /\
        calls tr = pre ++ [c; Call (Sys.perror "Send failed") (Some tt);
                           Call (Sys.exit Sys.EXIT_FAILURE) None] /\
        is_sendto c = true /\ returned c = Some (-1)) /\
  (forall pp, exists tr pre c,
        is_trace (Multicast6.send_thread pp) tr /\
        calls tr = pre ++ [c; Call (Sys.perror "Send failed") (Some tt);
                           Call (Sys.exit Sys.EXIT_FAILURE) None] /\
        is_sendto c = true /\ returned c = Some (-1)).
Proof.
  split; [|split; [|split]].
  - intros pp tr. apply send_thread_failures.
  - intros pp tr. apply send_thread6_failures.
  - intros pp. apply send_thread_send_fatal. exact now.
  - intros pp. apply send_thread6_send_fatal. exact now.
Qed.

(** The sender of "multicast send 239.1.1.1 12345" whose second [sendto]
    (its eleventh call) fails. *)
Lemma sender_failures_witness :
  always (fun h c => send_failure_fatal h c /\ setup_failure_fatal h c)
         (calls (run 40 (answers (failing_at 10)) 0
                   (@Multicast.send_thread Libc.little_endian_host
                      (Multicast.set_loop 1
                         (@Multicast.parse_args Libc.little_endian_host false
                            ["multicast"; "send"; "239.1.1.1"; "12345"]))))) /\
  List.map exit_of
           (calls (run 40 (answers (failing_at 10)) 0
                     (@Multicast.send_thread Libc.little_endian_host
                        (Multicast.set_loop 1
                           (@Multicast.parse_args Libc.little_endian_host
                              false
                              ["multicast"; "send"; "239.1.1.1";
                               "12345"])))))
  = [None; None; None; None; None; None; None; None; None; None; None; None;
     Some Sys.EXIT_FAILURE].
Proof.
  split; [|reflexivity].
  eapply (proj1 (@sender_failures Libc.little_endian_host
                   {| Sys.tm_hour := 0; Sys.tm_min := 0; Sys.tm_sec := 0 |})).
  apply run_is_trace.
Defined.

(** ** The text of the datagrams *)

Section MessageText.
Import Libc Sys.

(** "%0<w>d" prints a number of [w] digits at most on [w] characters. *)
Lemma fmt_0d_length_small (w : nat) n :
  (1 <= w)%nat -> 0 <= n < 10 ^ Z.of_nat w ->
  String.length (fmt_0d w n) = w.
Proof.
  intros Hw Hn. unfold fmt_0d.
  destruct (n <? 0) eqn:Hneg; [apply Z.ltb_lt in Hneg; lia|].
  rewrite Z.abs_eq by lia.
  pose proof (@decimal_length_le w n Hw Hn) as Hle.
  rewrite !length_append, zeros_length.
  change (String.length "") with 0%nat. lia.
Qed.

(** A time of day is printed on six characters. *)
Lemma strftime_HMS_time_of_day t :
  time_of_day t -> String.length (strftime_HMS t) = 6%nat.
Proof.
  intros (Hh & Hm & Hs). unfold strftime_HMS.
  assert (Hlen : String.length
                   (fmt_0d 2 (tm_hour t) ++ fmt_0d 2 (tm_min t)
                      ++ fmt_0d 2 (tm_sec t))%string = 6%nat).
  { rewrite !length_append.
    rewrite !fmt_0d_length_small;
      try lia; change (10 ^ Z.of_nat 2) with 100; lia. }
  rewrite string_prec_all by lia. exact Hlen.
Qed.

(** A pattern of six characters turned by [k] places has six
    characters. *)
Lemma turned_length (fixstr : string) (k : nat) :
  String.length fixstr = 6%nat -> (k <= 6)%nat ->
  String.length (string_from k fixstr ++ string_prec k fixstr)%string
  = 6%nat.
Proof.
  intros Hlen Hk.
  destruct fixstr as [|c1 [|c2 [|c3 [|c4 [|c5 [|c6 [|c7 s]]]]]]];
    try discriminate Hlen.
  do 7 (destruct k as [|k]; [reflexivity|]). lia.
Qed.

Lemma message_text_length fixstr k now n :
  String.length fixstr = 6%nat -> (k <= 6)%nat ->
  String.length (message_text fixstr k now n)
  = ((14 + String.length (fmt_0d 6 n))
     - (6 - String.length (strftime_HMS now)))%nat.
Proof.
  intros Hlen Hk. unfold message_text.
  pose proof (strftime_HMS_length now) as Ht.
  pose proof (turned_length fixstr Hlen Hk) as Hturn.
  rewrite length_append in Hturn.
  rewrite !length_append. cbn [String.length]. lia.
Qed.

(** What [snprintf] makes of a message: its buffer is large enough to
    store the text whole. *)
Lemma snprintf_message_text size fixstr (k : nat) prec now n :
  100 <= size -> String.length fixstr = 6%nat -> (k <= 6)%nat ->
  Z.to_nat prec = k -> INT_MIN <= n <= INT_MAX ->
  snprintf_message size (string_from k fixstr) prec fixstr
                   (strftime_HMS now) n
  = (message_text fixstr k now n,
     Z.of_nat (String.length (message_text fixstr k now n))).
Proof.
  intros Hsize Hlen Hk Hprec Hn. unfold snprintf_message, message_text.
  rewrite Hprec. f_equal.
  apply string_prec_all.
  pose proof (@message_text_length fixstr k now n Hlen Hk) as Hl.
  unfold message_text in Hl. rewrite Hl.
  pose proof (fmt_06d_length_int Hn). lia.
Qed.

Lemma to_size_t_small z : 0 <= z <= INT_MAX -> to_size_t z = z.
Proof.
  unfold to_size_t, INT_MAX. intros Hz. apply Z.mod_small. lia.
Qed.

Lemma message4_sent i now :
  0 <= i <= INT_MAX ->
  snprintf_message Multicast.BUFSIZE
    (string_from (Z.to_nat (to_size_t i mod 6)) ".....*")
    (to_size_t i mod 6) ".....*" (strftime_HMS now) i
  = (message4 i now, Z.of_nat (String.length (message4 i now))).
Proof.
  intros Hi. rewrite to_size_t_small by exact Hi.
  pose proof (Z.mod_pos_bound i 6 ltac:(lia)) as Hk.
  apply snprintf_message_text;
    [ unfold Multicast.BUFSIZE; lia | reflexivity | lia | reflexivity
    | unfold INT_MIN, INT_MAX in *; lia ].
Qed.

Lemma message6_sent i c now :
  0 <= i -> i + 1 <= INT_MAX ->
  snprintf_message Multicast6.BUFSIZE
    (string_from (Z.to_nat (6 - to_size_t i mod 6))
       (set_first (ascii_of_nat
                     (Z.to_nat (48 + to_size_t (to_size_t i / 6) mod 10)))
                  (String c ".....")))
    (to_int (6 - to_size_t i mod 6))
    (set_first (ascii_of_nat
                  (Z.to_nat (48 + to_size_t (to_size_t i / 6) mod 10)))
               (String c "....."))
    (strftime_HMS now) (to_int (i + 1))
  = (message6 i now, Z.of_nat (String.length (message6 i now))).
Proof.
  intros Hi Hmax.
  rewrite (to_size_t_small (z := i)) by lia.
  assert (Hdiv : 0 <= i / 6 <= INT_MAX).
  { split; [apply Z.div_pos; lia|].
    apply Z.div_le_upper_bound; unfold INT_MAX in *; lia. }
  rewrite (to_size_t_small Hdiv).
  pose proof (Z.mod_pos_bound i 6 ltac:(lia)) as Hk.
  rewrite (to_int_small (z := 6 - i mod 6)) by lia.
  rewrite (to_int_small (z := i + 1)) by (unfold INT_MAX in *; lia).
  cbn [set_first]. unfold message6.
  apply snprintf_message_text;
    [ unfold Multicast6.BUFSIZE; lia | reflexivity | lia | reflexivity
    | unfold INT_MIN, INT_MAX in *; lia ].
Qed.

Lemma message4_length i now :
  time_of_day now -> 0 <= i < 1000000 ->
  Z.of_nat (String.length (message4 i now)) = 20.
Proof.
  intros Hnow Hi. unfold message4.
  pose proof (Z.mod_pos_bound i 6 ltac:(lia)) as Hk.
  rewrite message_text_length by (try reflexivity; lia).
  rewrite strftime_HMS_time_of_day by exact Hnow.
  rewrite fmt_06d_length_small by exact Hi. reflexivity.
Qed.

Lemma message6_length i now :
  time_of_day now -> 0 <= i -> i + 1 < 1000000 ->
  Z.of_nat (String.length (message6 i now)) = 20.
Proof.
  intros Hnow Hi Hmax. unfold message6.
  pose proof (Z.mod_pos_bound i 6 ltac:(lia)) as Hk.
  rewrite message_text_length by (try reflexivity; lia).
  rewrite strftime_HMS_time_of_day by exact Hnow.
  rewrite fmt_06d_length_small by lia. reflexivity.
Qed.
End MessageText.

Section MessagesSent.
Import Libc Sys.
Context `{Host}.

Ltac no_message :=
  unfold sends_message; read_more;
  intros; discriminate.

(** The counter is the number of datagrams sent. *)
Ltac counter_known Hinv :=
  unfold counted, count in *; read_more;
  match goal with
  | Hle : _ <= INT_MAX |- _ =>
      rewrite ?Z.add_0_r in Hle;
      let Hi := fresh "Hi" in
      pose proof (Hinv ltac:(unfold INT_MAX in *; lia)) as Hi;
      subst
  end.

Lemma send_iteration_message pp sock dest h i tr :
  counted h i ->
  is_trace (Multicast.send_iteration pp sock ".....*" dest i) tr ->
  always_after h (sends_message message4 0) (calls tr) /\
  match trace_ret tr with
  | None => True
  | Some (inl i') => calls tr <> [] /\ counted (rev (calls tr) ++ h) i'
  | Some (inr _) => False
  end.
Proof.
  intros Hinv Htr.
  unfold Multicast.send_iteration, or_die, do_exit in Htr.
  change (Z.of_nat (String.length ".....*")) with 6 in Htr.
  unroll Htr; turn idtac idtac; try exact I; try no_message.
  all: try (unfold sends_message; read_more;
            intros msg len Hsent; cbv zeta; intros Hle;
            apply Some_inj in Hsent;
            counter_known Hinv;
            rewrite message4_sent in Hsent by lia;
            cbn [fst snd] in Hsent; injection Hsent as <- <-;
            eexists; split; [reflexivity|];
            split; [reflexivity|]; split; [reflexivity|];
            intros Hnow Hsmall; apply message4_length; [exact Hnow | lia]).
  split; [discriminate|].
  unfold counted, count in *; read_more. cbn [List.length].
  intros Hle. rewrite Hinv by lia.
  rewrite to_int_small by (unfold INT_MAX in *; lia). lia.
Qed.

Lemma send_iteration6_message pp sock dest h st tr :
  counted h (fst st) /\ (exists c, snd st = String c ".....") ->
  is_trace (Multicast6.send_iteration pp sock dest st) tr ->
  always_after h (sends_message message6 1) (calls tr) /\
  match trace_ret tr with
  | None => True
  | Some (inl st') =>
      calls tr <> [] /\
      (counted (rev (calls tr) ++ h) (fst st') /\
       exists c, snd st' = String c ".....")
  | Some (inr _) => False
  end.
Proof.
  destruct st as [i fixstr]. cbn [fst snd]. intros [Hinv [c0 ->]] Htr.
  unfold Multicast6.send_iteration, or_die, do_exit in Htr.
  cbn [fst snd] in Htr.
  change (Z.of_nat (String.length (String c0 "....."))) with 6 in Htr.
  unroll Htr; turn idtac idtac; try exact I; try no_message.
  all: try (unfold sends_message; read_more;
            intros msg len Hsent; cbv zeta; intros Hle;
            apply Some_inj in Hsent;
            counter_known Hinv;
            rewrite message6_sent in Hsent by lia;
            cbn [fst snd] in Hsent; injection Hsent as <- <-;
            eexists; split; [reflexivity|];
            split; [reflexivity|]; split; [reflexivity|];
            intros Hnow Hsmall; apply message6_length;
            [exact Hnow | lia | lia]).
  split; [discriminate|]. cbn [fst snd]. split; [|eexists; reflexivity].
  unfold counted, count in *; read_more. cbn [List.length].
  intros Hle. rewrite Hinv by lia.
  rewrite to_int_small by (unfold INT_MAX in *; lia). lia.
Qed.

Lemma send_thread_message pp tr :
  is_trace (Multicast.send_thread pp) tr ->
  always (sends_message message4 0) (calls tr).
Proof.
  unfold Multicast.send_thread, always, or_die, do_exit. intros Htr.
  unroll Htr; each_call.
  all: try (eapply (@always_iter_bind _ _ _ _ _ _ (fun h i => counted h i));
            [ | | eassumption ];
            [ cbv beta; intros; eapply send_iteration_message; eassumption
            | unfold counted, count; read_more; reflexivity ]).
  all: no_message.
Qed.

Lemma send_thread6_message pp tr :
  is_trace (Multicast6.send_thread pp) tr ->
  always (sends_message message6 1) (calls tr).
Proof.
  unfold Multicast6.send_thread, always, or_die, do_exit. intros Htr.
  unroll Htr; each_call.
  all: try (eapply (@always_iter_bind _ _ _ _ _ _
              (fun h st => counted h (fst st) /\
                           exists c, snd st = String c "....."));
            [ | | eassumption ];
            [ cbv beta; intros; eapply send_iteration6_message; eassumption
            | split; [unfold counted, count; read_more; reflexivity
                     | eexists; reflexivity] ]).
  all: no_message.
Qed.
End MessagesSent.

(** What the senders send.  The datagram sent after [i] others (as long
    as the counter fits an [int]) is, with its whole length given to
    [sendto]: for the IPv4 sender the pattern ".....*" turned left by
    [i mod 6] places, a slash, the time read just before as "%H%M%S", a
    slash and [i] as "%06d"; for the IPv6 sender the pattern "d.....",
    [d] being the digit [(i / 6) mod 10], turned right by [i mod 6]
    places, and then the same with [i + 1] for [i].  The buffer is never
    too small for it, and the datagram has 20 bytes as long as the number
    has six digits. *)
Theorem datagram_text `{Libc.Host} :
  (forall pp tr,
      is_trace (Multicast.send_thread pp) tr ->
      always (sends_message message4 0) (calls tr)) /\
  (forall pp tr,
      is_trace (Multicast6.send_thread pp) tr ->
      always (sends_message message6 1) (calls tr)).
Proof.
  split; intros pp tr.
  - apply send_thread_message.
  - apply send_thread6_message.
Qed.

(** The IPv6 sender of "multicast6 send ff15::1 12345" at 12:34:56: its
    first three datagrams. *)
Lemma datagram_text_witness :
  always (sends_message message6 1)
         (calls (run 20 (answers calm) 0
                   (@Multicast6.send_thread Libc.little_endian_host
                      (Multicast6.set_loop 1
                         (@Multicast6.parse_args Libc.little_endian_host false
                            ["multicast6"; "send"; "ff15::1"; "12345"]))))) /\
  List.map (fun i => message6 i {| Sys.tm_hour := 12; Sys.tm_min := 34;
                                   Sys.tm_sec := 56 |}) [0; 1; 2; 7]
  = ["0...../123456/000001"; ".0..../123456/000002";
     "..0.../123456/000003"; ".1..../123456/000008"]%string.
Proof.
  split; [|reflexivity].
  eapply (proj2 (@datagram_text Libc.little_endian_host)).
  apply run_is_trace.
Defined.

(** ** The interface and the report of the senders *)

Section SenderInterface.
Import Libc Sys.
Context `{Host}.

Lemma send_iteration_egress (Q : Multicast.sockopt -> Prop) (Inv : Prop)
      opt pp sock fixstr dest h i tr :
  (Inv -> set_before opt h) ->
  is_trace (Multicast.send_iteration pp sock fixstr dest i) tr ->
  always_after h
    (fun h (c : call Multicast.E) =>
       (forall v, setsockopt_of c = Some (Multicast.IP_MULTICAST_IF v) ->
                  Q (Multicast.IP_MULTICAST_IF v)) /\
       (is_sendto c = true -> Inv -> set_before opt h))
    (calls tr) /\
  match trace_ret tr with
  | None => True
  | Some (inl _) =>
      calls tr <> [] /\ (Inv -> set_before opt (rev (calls tr) ++ h))
  | Some (inr _) => False
  end.
Proof.
  intros Hinv Htr.
  unfold Multicast.send_iteration, or_die, do_exit in Htr.
  unroll Htr; turn idtac idtac; try exact I.
  all: read_more; repeat split; intros; try discriminate.
  all: repeat apply set_before_cons; auto.
Qed.

Lemma send_iteration6_egress (Q : Multicast6.sockopt -> Prop) (Inv : Prop)
      opt pp sock dest h st tr :
  (Inv -> set_before opt h) ->
  is_trace (Multicast6.send_iteration pp sock dest st) tr ->
  always_after h
    (fun h (c : call Multicast6.E) =>
       (forall v, setsockopt_of c = Some (Multicast6.IPV6_MULTICAST_IF v) ->
                  Q (Multicast6.IPV6_MULTICAST_IF v)) /\
       (is_sendto c = true -> Inv -> set_before opt h))
    (calls tr) /\
  match trace_ret tr with
  | None => True
  | Some (inl _) =>
      calls tr <> [] /\ (Inv -> set_before opt (rev (calls tr) ++ h))
  | Some (inr _) => False
  end.
Proof.
  intros Hinv Htr.
  unfold Multicast6.send_iteration, or_die, do_exit in Htr.
  unroll Htr; turn idtac idtac; try exact I.
  all: read_more; repeat split; intros; try discriminate.
  all: repeat apply set_before_cons; auto.
Qed.

Lemma send_thread_egress pp tr :
  is_trace (Multicast.send_thread pp) tr ->
  always (fun h c =>
            (forall v,
                setsockopt_of c = Some (Multicast.IP_MULTICAST_IF v) ->
                Multicast.IP_MULTICAST_IF v
                = Multicast.IP_MULTICAST_IF (Multicast.ifip pp) /\
                Multicast.ifip pp <> htonl INADDR_ANY) /\
            (is_sendto c = true ->
             Multicast.ifip pp <> htonl INADDR_ANY ->
             set_before (Multicast.IP_MULTICAST_IF (Multicast.ifip pp)) h))
         (calls tr).
Proof.
  unfold Multicast.send_thread, always, or_die, do_exit. intros Htr.
  unroll Htr; each_call.
  all: try (eapply (@always_iter_bind _ _ _ _ _ _
              (fun h _ =>
                 Multicast.ifip pp <> htonl INADDR_ANY ->
                 set_before (Multicast.IP_MULTICAST_IF (Multicast.ifip pp))
                            h));
            [ | | eassumption ];
            [ cbv beta; intros;
              eapply (@send_iteration_egress
                        (fun o => o = Multicast.IP_MULTICAST_IF
                                        (Multicast.ifip pp) /\
                                  Multicast.ifip pp <> htonl INADDR_ANY));
              eassumption | ]).
  all: egress_call.
Qed.

Lemma send_thread6_egress pp tr :
  is_trace (Multicast6.send_thread pp) tr ->
  always (fun h c =>
            (forall v,
                setsockopt_of c = Some (Multicast6.IPV6_MULTICAST_IF v) ->
                Multicast6.IPV6_MULTICAST_IF v
                = Multicast6.IPV6_MULTICAST_IF (Multicast6.ifidx pp) /\
                Multicast6.ifidx pp <> Multicast6.IFIDXDEFAULT) /\
            (is_sendto c = true ->
             Multicast6.ifidx pp <> Multicast6.IFIDXDEFAULT ->
             set_before (Multicast6.IPV6_MULTICAST_IF (Multicast6.ifidx pp))
                        h))
         (calls tr).
Proof.
  unfold Multicast6.send_thread, always, or_die, do_exit. intros Htr.
  unroll Htr; each_call.
  all: try (eapply (@always_iter_bind _ _ _ _ _ _
              (fun h _ =>
                 Multicast6.ifidx pp <> Multicast6.IFIDXDEFAULT ->
                 set_before
                   (Multicast6.IPV6_MULTICAST_IF (Multicast6.ifidx pp)) h));
            [ | | eassumption ];
            [ cbv beta; intros;
              eapply (@send_iteration6_egress
                        (fun o => o = Multicast6.IPV6_MULTICAST_IF
                                        (Multicast6.ifidx pp) /\
                                  Multicast6.ifidx pp
                                  <> Multicast6.IFIDXDEFAULT));
              eassumption | ]).
  all: egress_call.
Qed.

Lemma send_iteration_reported pp sock fixstr dest h i tr :
  True ->
  is_trace (Multicast.send_iteration pp sock fixstr dest i) tr ->
  always_after h
    (send_reported (Multicast.mip pp) (ntohs (Multicast.port pp)))
    (calls tr) /\
  match trace_ret tr with
  | None => True
  | Some (inl _) => calls tr <> [] /\ True
  | Some (inr _) => False
  end.
Proof.
  intros _ Htr.
  unfold Multicast.send_iteration, or_die, do_exit in Htr.
  unroll Htr; turn idtac next_turn; report_call.
Qed.

Lemma send_iteration6_reported pp sock dest h st tr :
  True ->
  is_trace (Multicast6.send_iteration pp sock dest st) tr ->
  always_after h
    (send_reported (Multicast6.mip pp) (ntohs (Multicast6.port pp)))
    (calls tr) /\
  match trace_ret tr with
  | None => True
  | Some (inl _) => calls tr <> [] /\ True
  | Some (inr _) => False
  end.
Proof.
  intros _ Htr.
  unfold Multicast6.send_iteration, or_die, do_exit in Htr.
  unroll Htr; turn idtac next_turn; report_call.
Qed.

Lemma send_thread_reported pp tr :
  is_trace (Multicast.send_thread pp) tr ->
  always (send_reported (Multicast.mip pp) (ntohs (Multicast.port pp)))
         (calls tr).
Proof.
  unfold Multicast.send_thread, always, or_die, do_exit. intros Htr.
  unroll Htr; each_call.
  all: try (eapply (@always_iter_bind _ _ _ _ _ _ (fun _ _ => True));
            [ | | eassumption ];
            [ cbv beta; intros; eapply send_iteration_reported; eassumption
            | exact I ]).
  all: report_call.
Qed.

Lemma send_thread6_reported pp tr :
  is_trace (Multicast6.send_thread pp) tr ->
  always (send_reported (Multicast6.mip pp) (ntohs (Multicast6.port pp)))
         (calls tr).
Proof.
  unfold Multicast6.send_thread, always, or_die, do_exit. intros Htr.
  unroll Htr; each_call.
  all: try (eapply (@always_iter_bind _ _ _ _ _ _ (fun _ _ => True));
            [ | | eassumption ];
            [ cbv beta; intros; eapply send_iteration6_reported; eassumption
            | exact I ]).
  all: report_call.
Qed.
End SenderInterface.

(** The senders choose the interface to send through only if one was
    given.  The IPv4 sender sets IP_MULTICAST_IF, to the interface address
    [ifip], only if that is not the wildcard address, and the IPv6 sender
    sets IPV6_MULTICAST_IF, to the interface index [ifidx], only if that
    is not 0; when they do, the option is set, with success, before any
    datagram is sent. *)
Theorem sender_interface `{Libc.Host} :
  (forall pp tr,
      is_trace (Multicast.send_thread pp) tr ->
      always (fun h c =>
                (forall v,
                    setsockopt_of c = Some (Multicast.IP_MULTICAST_IF v) ->
                    v = Multicast.ifip pp /\
                    Multicast.ifip pp <> Libc.htonl Libc.INADDR_ANY) /\
                (is_sendto c = true ->
                 Multicast.ifip pp <> Libc.htonl Libc.INADDR_ANY ->
                 set_before (Multicast.IP_MULTICAST_IF (Multicast.ifip pp))
                            h))
             (calls tr)) /\
  (forall pp tr,
      is_trace (Multicast6.send_thread pp) tr ->
      always (fun h c =>
                (forall v,
                    setsockopt_of c = Some (Multicast6.IPV6_MULTICAST_IF v) ->
                    v = Multicast6.ifidx pp /\
                    Multicast6.ifidx pp <> Multicast6.IFIDXDEFAULT) /\
                (is_sendto c = true ->
                 Multicast6.ifidx pp <> Multicast6.IFIDXDEFAULT ->
                 set_before
                   (Multicast6.IPV6_MULTICAST_IF (Multicast6.ifidx pp)) h))
             (calls tr)).
Proof.
  split; intros pp tr Htr.
  - eapply always_after_weaken; [|apply (@send_thread_egress _ _ _ Htr)].
    intros h c [Hopt Hsend]. split; [|exact Hsend].
    intros v Hv. destruct (Hopt v Hv) as [Heq Hne].
    injection Heq as ->. auto.
  - eapply always_after_weaken; [|apply (@send_thread6_egress _ _ _ Htr)].
    intros h c [Hopt Hsend]. split; [|exact Hsend].
    intros v Hv. destruct (Hopt v Hv) as [Heq Hne].
    injection Heq as ->. auto.
Qed.

(** The sender of "multicast send 239.1.1.1 12345 - 172.16.1.1". *)
Lemma sender_interface_witness :
  always (fun h c =>
            is_sendto c = true ->
            set_before (Multicast.IP_MULTICAST_IF 16847020) h)
         (calls (run 20 (answers calm) 0
                   (@Multicast.send_thread Libc.little_endian_host
                      (Multicast.set_loop 1
                         (@Multicast.parse_args Libc.little_endian_host false
                            ["multicast"; "send"; "239.1.1.1"; "12345"; "-";
                             "172.16.1.1"]))))).
Proof.
  eapply always_after_weaken;
    [|eapply (proj1 (@sender_interface Libc.little_endian_host));
      apply run_is_trace].
  intros h c [_ Hsend] Hc. apply (Hsend Hc). discriminate.
Defined.

(** The line a sender prints about a datagram is true: it follows the
    [sendto] that sent the datagram and did not fail, and shows the group
    address, the port in host byte order, the message and the length that
    were given to [sendto]. *)
Theorem sender_report `{Libc.Host} :
  (forall pp tr,
      is_trace (Multicast.send_thread pp) tr ->
      always (send_reported (Multicast.mip pp)
                            (Libc.ntohs (Multicast.port pp)))
             (calls tr)) /\
  (forall pp tr,
      is_trace (Multicast6.send_thread pp) tr ->
      always (send_reported (Multicast6.mip pp)
                            (Libc.ntohs (Multicast6.port pp)))
             (calls tr)).
Proof.
  split; intros pp tr.
  - apply send_thread_reported.
  - apply send_thread6_reported.
Qed.

(** The sender of "multicast send 239.1.1.1 12345". *)
Lemma sender_report_witness :
  always (send_reported 16843247 12345)
         (calls (run 20 (answers calm) 0
                   (@Multicast.send_thread Libc.little_endian_host
                      (Multicast.set_loop 1
                         (@Multicast.parse_args Libc.little_endian_host false
                            ["multicast"; "send"; "239.1.1.1"; "12345"]))))).
Proof.
  eapply (proj1 (@sender_report Libc.little_endian_host)
                (Multicast.set_loop 1
                   (@Multicast.parse_args Libc.little_endian_host false
                      ["multicast"; "send"; "239.1.1.1"; "12345"]))).
  apply run_is_trace.
Defined.



(** ** The receivers *)

Section DoneBefore.
Import Sys.
Context {A O P : Type}.
Implicit Types (h : list (call (sysE A O P))).

Lemma done_before_here f c h :
  f c = true -> succeeded c = true -> done_before f (c :: h).
Proof. intros Hf Hok. exists c. simpl. auto. Qed.

Lemma done_before_cons f c h : done_before f h -> done_before f (c :: h).
Proof. intros (c' & Hin & Hc'). exists c'. simpl. auto. Qed.
End DoneBefore.

(** Find the call of the history that did something. *)
Ltac find_done :=
  repeat first
    [ assumption
    | apply done_before_here;
      [ reflexivity | read_calls; use_tests; reflexivity ]
    | apply done_before_cons ].

Ltac ssm_tests :=
  repeat match goal with
         | Hc : (_ =? _) = true |- _ => apply Z.eqb_eq in Hc
         | Hc : (_ =? _) = false |- _ => apply Z.eqb_neq in Hc
         | Hc : negb _ && _ = true |- _ =>
             apply andb_prop in Hc; destruct Hc as [? Hc]
         end.

Ltac find_before :=
  lazymatch goal with
  | |- set_before _ _ => find_option
  | |- done_before _ _ => find_done
  end.

Section ReceiverOrder.
Import Libc Sys.
Context `{Host}.

Lemma recv_iteration_order reuse (is_join : call Multicast.E -> bool)
      sock h buffer tr :
  (forall x len ans, is_join (Call (recvfrom x len) ans) = false) ->
  (forall s ans, is_join (Call (perror s) ans) = false) ->
  (forall f a ans, is_join (Call (printf f a) ans) = false) ->
  done_before is_bind h ->
  is_trace (Multicast.recv_iteration sock buffer) tr ->
  always_after h
    (fun h c =>
       (is_bind c = true -> set_before reuse h) /\
       (is_join c = true -> done_before is_bind h) /\
       (is_recvfrom c = true -> done_before is_bind h))
    (calls tr) /\
  match trace_ret tr with
  | None => True
  | Some (inl _) =>
      calls tr <> [] /\ done_before is_bind (rev (calls tr) ++ h)
  | Some (inr _) => False
  end.
Proof.
  intros Hj1 Hj2 Hj3 Hinv Htr. unfold Multicast.recv_iteration in Htr.
  unroll Htr; turn idtac idtac; try exact I.
  all: read_more; rewrite ?Hj1, ?Hj2, ?Hj3.
  all: repeat split; intros; try discriminate; find_done.
Qed.

Lemma recv_iteration6_order reuse (is_join : call Multicast6.E -> bool)
      sock h buffer tr :
  (forall x len ans, is_join (Call (recvfrom x len) ans) = false) ->
  (forall s ans, is_join (Call (perror s) ans) = false) ->
  (forall f a ans, is_join (Call (printf f a) ans) = false) ->
  done_before is_bind h ->
  is_trace (Multicast6.recv_iteration sock buffer) tr ->
  always_after h
    (fun h c =>
       (is_bind c = true -> set_before reuse h) /\
       (is_join c = true -> done_before is_bind h) /\
       (is_recvfrom c = true -> done_before is_bind h))
    (calls tr) /\
  match trace_ret tr with
  | None => True
  | Some (inl _) =>
      calls tr <> [] /\ done_before is_bind (rev (calls tr) ++ h)
  | Some (inr _) => False
  end.
Proof.
  intros Hj1 Hj2 Hj3 Hinv Htr. unfold Multicast6.recv_iteration in Htr.
  unroll Htr; turn idtac idtac; try exact I.
  all: read_more; rewrite ?Hj1, ?Hj2, ?Hj3.
  all: repeat split; intros; try discriminate; find_done.
Qed.

Lemma recv_thread_order NOSSM pp tr :
  is_trace (Multicast.recv_thread NOSSM pp) tr ->
  always (fun h c =>
            (is_bind c = true ->
             set_before (Multicast.SO_REUSEADDR 1) h) /\
            (Multicast.is_asm_join c || Multicast.is_ssm_join c = true ->
             done_before is_bind h) /\
            (is_recvfrom c = true -> done_before is_bind h))
         (calls tr).
Proof.
  unfold Multicast.recv_thread, always, or_die, do_exit. intros Htr.
  unroll Htr; each_call.
  all: try (eapply (@always_iter_bind _ _ _ _ _ _
              (fun h _ => done_before is_bind h));
            [ | | eassumption ];
            [ cbv beta; intros;
              eapply (@recv_iteration_order
                        (Multicast.SO_REUSEADDR 1)
                        (fun c => Multicast.is_asm_join c
                                  || Multicast.is_ssm_join c));
              try eassumption; reflexivity
            | find_done ]).
  all: read_more; cbn [orb].
  all: repeat split; intros; try discriminate; find_before.
Qed.

Lemma recv_thread6_order NOSSM pp tr :
  is_trace (Multicast6.recv_thread NOSSM pp) tr ->
  always (fun h c =>
            (is_bind c = true ->
             set_before (Multicast6.SO_REUSEADDR 1) h) /\
            (Multicast6.is_asm_join c || Multicast6.is_ssm_join c = true ->
             done_before is_bind h) /\
            (is_recvfrom c = true -> done_before is_bind h))
         (calls tr).
Proof.
  unfold Multicast6.recv_thread, always, or_die, do_exit. intros Htr.
  unroll Htr; each_call.
  all: try (eapply (@always_iter_bind _ _ _ _ _ _
              (fun h _ => done_before is_bind h));
            [ | | eassumption ];
            [ cbv beta; intros;
              eapply (@recv_iteration6_order
                        (Multicast6.SO_REUSEADDR 1)
                        (fun c => Multicast6.is_asm_join c
                                  || Multicast6.is_ssm_join c));
              try eassumption; reflexivity
            | find_done ]).
  all: read_more; cbn [orb].
  all: repeat split; intros; try discriminate; find_before.
Qed.
End ReceiverOrder.

(** The receivers set their socket up in order: SO_REUSEADDR is enabled,
    with success, before [bind] is called, so that several receivers can
    share the port; and the socket is bound, with success, before the
    group is joined and before anything is read. *)
Theorem receiver_setup_order `{Libc.Host} (NOSSM : bool) :
  (forall pp tr,
      is_trace (Multicast.recv_thread NOSSM pp) tr ->
      always (fun h c =>
                (is_bind c = true ->
                 set_before (Multicast.SO_REUSEADDR 1) h) /\
                (Multicast.is_asm_join c || Multicast.is_ssm_join c = true ->
                 done_before is_bind h) /\
                (is_recvfrom c = true -> done_before is_bind h))
             (calls tr)) /\
  (forall pp tr,
      is_trace (Multicast6.recv_thread NOSSM pp) tr ->
      always (fun h c =>
                (is_bind c = true ->
                 set_before (Multicast6.SO_REUSEADDR 1) h) /\
                (Multicast6.is_asm_join c || Multicast6.is_ssm_join c = true ->
                 done_before is_bind h) /\
                (is_recvfrom c = true -> done_before is_bind h))
             (calls tr)).
Proof.
  split; intros pp tr.
  - apply recv_thread_order.
  - apply recv_thread6_order.
Qed.

(** The receiver of "multicast recv 239.1.1.1 12345 172.16.1.1". *)
Lemma receiver_setup_order_witness :
  always (fun h c =>
            (is_bind c = true ->
             set_before (Multicast.SO_REUSEADDR 1) h) /\
            (Multicast.is_asm_join c || Multicast.is_ssm_join c = true ->
             done_before is_bind h) /\
            (is_recvfrom c = true -> done_before is_bind h))
         (calls (run 12 (answers calm) 0
                   (@Multicast.recv_thread Libc.little_endian_host false
                      (@Multicast.parse_args Libc.little_endian_host false
                         ["multicast"; "recv"; "239.1.1.1"; "12345";
                          "172.16.1.1"])))).
Proof.
  eapply (proj1 (@receiver_setup_order Libc.little_endian_host false)).
  apply run_is_trace.
Defined.

Section ReceiverReport.
Import Libc Sys.
Context `{Host}.
#[local] Opaque firstn skipn Z.to_nat Z.of_nat.

Lemma stored_size size (data : list ascii) :
  0 <= size ->
  Z.of_nat (List.length (firstn (Z.to_nat size) data))
  = Z.min (Z.of_nat (List.length data)) size.
Proof. intros Hsize. rewrite length_firstn. lia. Qed.

Ltac read_report :=
  unfold read_reported; read_more;
  let Hp := fresh "Hp" in
  intros ? ? ? ? ? ? Hp;
  first
    [ discriminate Hp
    | apply Some_inj in Hp; injection Hp as <- <- <- <- <- <-;
      eexists; eexists; eexists;
      split; [reflexivity|]; split; [reflexivity|];
      split; [reflexivity|]; split; [reflexivity|];
      split; [|reflexivity];
      f_equal ].

Lemma recv_iteration_reported sock h buffer tr :
  True ->
  is_trace (Multicast.recv_iteration sock buffer) tr ->
  always_after h (read_reported ntohs Multicast.BUFSIZE) (calls tr) /\
  match trace_ret tr with
  | None => True
  | Some (inl _) => calls tr <> [] /\ True
  | Some (inr _) => False
  end.
Proof.
  intros _ Htr. unfold Multicast.recv_iteration in Htr.
  unroll Htr; turn idtac next_turn; read_report.
  all: apply stored_size; unfold Multicast.BUFSIZE; lia.
Qed.

Lemma recv_iteration6_reported sock h buffer tr :
  True ->
  is_trace (Multicast6.recv_iteration sock buffer) tr ->
  always_after h (read_reported ntohs Multicast6.BUFSIZE) (calls tr) /\
  match trace_ret tr with
  | None => True
  | Some (inl _) => calls tr <> [] /\ True
  | Some (inr _) => False
  end.
Proof.
  intros _ Htr. unfold Multicast6.recv_iteration in Htr.
  unroll Htr; turn idtac next_turn; read_report.
  all: rewrite stored_size by (unfold Multicast6.BUFSIZE; lia).
  all: apply to_int_small; unfold Multicast6.BUFSIZE; lia.
Qed.

Lemma recv_thread_reported NOSSM pp tr :
  is_trace (Multicast.recv_thread NOSSM pp) tr ->
  always (read_reported ntohs Multicast.BUFSIZE) (calls tr).
Proof.
  unfold Multicast.recv_thread, always, or_die, do_exit. intros Htr.
  unroll Htr; each_call.
  all: try (eapply (@always_iter_bind _ _ _ _ _ _ (fun _ _ => True));
            [ | | eassumption ];
            [ cbv beta; intros; eapply recv_iteration_reported; eassumption
            | exact I ]).
  all: read_report.
Qed.

Lemma recv_thread6_reported NOSSM pp tr :
  is_trace (Multicast6.recv_thread NOSSM pp) tr ->
  always (read_reported ntohs Multicast6.BUFSIZE) (calls tr).
Proof.
  unfold Multicast6.recv_thread, always, or_die, do_exit. intros Htr.
  unroll Htr; each_call.
  all: try (eapply (@always_iter_bind _ _ _ _ _ _ (fun _ _ => True));
            [ | | eassumption ];
            [ cbv beta; intros; eapply recv_iteration6_reported; eassumption
            | exact I ]).
  all: read_report.
Qed.
#[local] Transparent firstn skipn Z.to_nat Z.of_nat.

(** What is left of a character is printable. *)
Lemma sanitized_printable i o :
  (o = i \/ o = "."%char) /\
  (o = "."%char <-> isprint (char_to_int i) = false \/ i = "."%char) ->
  isprint (char_to_int o) = true.
Proof.
  intros [[-> | ->] Hdot]; [|reflexivity].
  destruct (isprint (char_to_int i)) eqn:Hp; [reflexivity|].
  destruct Hdot as [_ Hdot]. rewrite (Hdot (or_introl eq_refl)) in Hp.
  discriminate Hp.
Qed.

Lemma Forall2_Forall_r {S T : Type} (R : S -> T -> Prop) (Q : T -> Prop) :
  (forall i o, R i o -> Q o) ->
  forall l l', Forall2 R l l' -> Forall Q l'.
Proof.
  intros HR l l' Hall. induction Hall; constructor; eauto.
Qed.
End ReceiverReport.

(** The line a receiver prints about a datagram is true: it follows the
    [recvfrom] that read the datagram, and shows the address it came
    from, the port it came from in host byte order and, as the length of
    the payload, the size of the datagram or, if the datagram is larger,
    the size of the buffer (1472 and 1452 bytes), so that a datagram of
    no bytes gives a line with an empty payload and a datagram too large
    is cut. *)
Theorem receiver_report `{Libc.Host} (NOSSM : bool) :
  (forall pp tr,
      is_trace (Multicast.recv_thread NOSSM pp) tr ->
      always (read_reported Libc.ntohs Multicast.BUFSIZE) (calls tr)) /\
  (forall pp tr,
      is_trace (Multicast6.recv_thread NOSSM pp) tr ->
      always (read_reported Libc.ntohs Multicast6.BUFSIZE) (calls tr)) /\
  Multicast.BUFSIZE = 1472 /\ Multicast6.BUFSIZE = 1452.
Proof.
  split; [|split; [|split; reflexivity]]; intros pp tr.
  - apply recv_thread_reported.
  - apply recv_thread6_reported.
Qed.

(** The receiver to which every read delivers "a.\n" from port 12345. *)
Lemma receiver_report_witness :
  always (read_reported (@Libc.ntohs Libc.little_endian_host)
                        Multicast.BUFSIZE)
         (calls (run 12 (answers (delivering ["a"; "."; "010"]%char
                                    {| Sys.sin_family := Sys.AF_INET;
                                       Sys.sin_port := 14640;
                                       Sys.sin_addr := 0 |})) 0
                   (@Multicast.recv_thread Libc.little_endian_host false
                      (@Multicast.parse_args Libc.little_endian_host false
                         ["multicast"; "recv"; "239.1.1.1"; "12345"])))).
Proof.
  eapply (proj1 (@receiver_report Libc.little_endian_host false)).
  apply run_is_trace.
Defined.

(** Whatever is received, every character of the payload that a receiver
    prints is printable. *)
Theorem printed_payload_printable `{Libc.Host} (NOSSM : bool) :
  (forall pp tr,
      is_trace (Multicast.recv_thread NOSSM pp) tr ->
      always (fun _ c =>
                forall out, payload_of c = Some out ->
                  Forall (fun o => Libc.isprint (Libc.char_to_int o) = true)
                         out)
             (calls tr)) /\
  (forall pp tr,
      is_trace (Multicast6.recv_thread NOSSM pp) tr ->
      always (fun _ c =>
                forall out, payload_of c = Some out ->
                  Forall (fun o => Libc.isprint (Libc.char_to_int o) = true)
                         out)
             (calls tr)).
Proof.
  split; intros pp tr Htr.
  - eapply always_after_weaken; [|apply (recv_thread_payload _ _ Htr)].
    intros h c Hpay out Hout.
    destruct (Hpay out Hout) as (data & src & _ & _ & Hall).
    eapply Forall2_Forall_r; [|exact Hall]. apply sanitized_printable.
  - eapply always_after_weaken; [|apply (recv_thread6_payload _ _ Htr)].
    intros h c Hpay out Hout.
    destruct (Hpay out Hout) as (data & src & _ & _ & Hall).
    eapply Forall2_Forall_r; [|exact Hall]. apply sanitized_printable.
Qed.

(** The receiver to which every read delivers the bytes 7, 27, 200 and
    "A". *)
Lemma printed_payload_printable_witness :
  always (fun _ c =>
            forall out, payload_of c = Some out ->
              Forall (fun o => Libc.isprint (Libc.char_to_int o) = true) out)
         (calls (run 12 (answers (delivering ["007"; "027"; "200"; "A"]%char
                                    {| Sys.sin_family := Sys.AF_INET;
                                       Sys.sin_port := 14640;
                                       Sys.sin_addr := 0 |})) 0
                   (@Multicast.recv_thread Libc.little_endian_host false
                      (@Multicast.parse_args Libc.little_endian_host false
                         ["multicast"; "recv"; "239.1.1.1"; "12345"])))).
Proof.
  eapply (proj1 (@printed_payload_printable Libc.little_endian_host false)).
  apply run_is_trace.
Defined.

(** ** Source-specific joins *)

Section NoOptionInLoop.
Import Sys.
Context {A O P : Type}.

(** A call that sets no option is no join and binds no device. *)
Lemma no_option_weaken (Q : O -> Prop) (c : call (sysE A O P)) :
  (forall opt, setsockopt_of c = Some opt -> False) ->
  forall opt, setsockopt_of c = Some opt -> Q opt.
Proof. intros Hno opt Hopt. destruct (Hno opt Hopt). Qed.
End NoOptionInLoop.

Ltac device_call nossm :=
  read_more; ssm_tests;
  repeat split; intros; try discriminate; same_option;
  try match goal with
      | Hs : Multicast6.SO_BINDTODEVICE _ = Multicast6.SO_BINDTODEVICE _
        |- _ => injection Hs as <-
      end;
  try reflexivity; try assumption; try congruence;
  try (destruct nossm; [discriminate | reflexivity]);
  try find_option.

Section DeviceBinding.
Import Libc Sys.
Context `{Host}.

Lemma recv_thread6_device NOSSM pp tr :
  is_trace (Multicast6.recv_thread NOSSM pp) tr ->
  always (fun h c =>
            (forall name,
                setsockopt_of c = Some (Multicast6.SO_BINDTODEVICE name) ->
                name = Multicast6.ifname pp /\ NOSSM = false /\
                Multicast6.ssm pp = 1) /\
            (Multicast6.is_ssm_join c = true ->
             set_before (Multicast6.SO_BINDTODEVICE (Multicast6.ifname pp))
                        h))
         (calls tr).
Proof.
  unfold Multicast6.recv_thread, always, or_die, do_exit. intros Htr.
  unroll Htr; each_call.
  all: try (eapply always_after_weaken;
            [|eapply (@always_iter_bind _ _ _ _ _ _ (fun _ _ => True));
              [ apply (@recv_iteration6_no_option _ (fun _ => False))
              | exact I | eassumption ]];
            cbv beta; intros ? c0 Hno; split;
            [ intros name Hname; destruct (Hno _ Hname)
            | unfold Multicast6.is_ssm_join;
              destruct (setsockopt_of c0) eqn:Hopt;
              [ destruct (Hno _ eq_refl) | discriminate ] ]).
  all: device_call NOSSM.
Qed.




End DeviceBinding.

(** The IPv6 receiver binds its socket to the device before a
    source-specific join, and only then: SO_BINDTODEVICE is set only in a
    build with SSM and with [ssm] at 1, with the interface name of the
    parameter block ("default" when none was given), and it has been set,
    with success, before MCAST_JOIN_SOURCE_GROUP is. *)
Theorem ssm_device_binding `{Libc.Host} (NOSSM : bool) :
  forall pp tr,
    is_trace (Multicast6.recv_thread NOSSM pp) tr ->
    always (fun h c =>
              (forall name,
                  setsockopt_of c = Some (Multicast6.SO_BINDTODEVICE name) ->
                  name = Multicast6.ifname pp /\ NOSSM = false /\
                  Multicast6.ssm pp = 1) /\
              (Multicast6.is_ssm_join c = true ->
               set_before (Multicast6.SO_BINDTODEVICE (Multicast6.ifname pp))
                          h))
           (calls tr).
Proof. intros pp tr. apply recv_thread6_device. Qed.

(** The receiver of "multicast6 recv ff15::1 12345 2001:db8::1". *)
Lemma ssm_device_binding_witness :
  always (fun h c =>
            Multicast6.is_ssm_join c = true ->
            set_before (Multicast6.SO_BINDTODEVICE "default") h)
         (calls (run 12 (answers calm) 0
                   (@Multicast6.recv_thread Libc.little_endian_host false
                      (@Multicast6.parse_args Libc.little_endian_host false
                         ["multicast6"; "recv"; "ff15::1"; "12345";
                          "2001:db8::1"])))).
Proof.
  eapply always_after_weaken;
    [|eapply (@ssm_device_binding Libc.little_endian_host false);
      apply run_is_trace].
  intros h c [_ Hjoin]. exact Hjoin.
Defined.



(** ** The parameter block *)

Section InterfaceLookup.
Import Libc Sys.
Context `{Host}.
Variable NOSSM : bool.

Ltac lookup_call Hidx Hname :=
  unfold Multicast6.arg_at in *; read_more; use_tests;
  split;
  [ let name := fresh "name" in
    let Hn := fresh "Hn" in
    intros name Hn;
    first [ discriminate Hn
          | apply Some_inj in Hn; subst name;
            repeat split; solve [reflexivity | assumption] ]
  | let r := fresh "r" in
    let pp := fresh "pp" in
    let Hth := fresh "Hth" in
    intros r pp Hth;
    first
      [ discriminate Hth
      | apply Some_inj in Hth; injection Hth as <- <-;
        cbn [Multicast6.ifname Multicast6.ifidx Multicast6.set_loop
             Multicast6.set_bidir Multicast6.set_ifidx
             Multicast6.set_ifname];
        first
          [ split; [exact Hname | exact Hidx]
          | split; [reflexivity|];
            match goal with
            | |- context [Call (if_nametoindex ?n) (Some ?x)] =>
                exists (Call (if_nametoindex n) (Some x))
            end;
            split; [cbn [In]; auto 6 | reflexivity] ] ] ].

Lemma main6_interface argv tr :
  is_trace (Multicast6.main NOSSM argv) tr ->
  always (fun h c =>
            (forall name,
                ifname_of c = Some name ->
                h = [] /\ (Z.of_nat (List.length argv) >=? 6) = true /\
                name = nth 5 argv "") /\
            (forall r pp,
                thread_of c = Some (r, pp) ->
                if Z.of_nat (List.length argv) >=? 6
                then Multicast6.ifname pp = nth 5 argv "" /\
                     exists c0, In c0 h /\
                                ifindex_of c0
                                = Some (nth 5 argv "", Multicast6.ifidx pp)
                else Multicast6.ifname pp = Multicast6.IFNAMEDEFAULT /\
                     Multicast6.ifidx pp = Multicast6.IFIDXDEFAULT))
         (calls tr).
Proof.
  destruct (parse_args6_fields NOSSM argv)
    as (_ & _ & _ & Hidx & Hname & _).
  unfold Multicast6.main, Multicast6.errusage, always, do_exit. intros Htr.
  unroll Htr; each_call; lookup_call Hidx Hname.
Qed.


End InterfaceLookup.

(** The IPv6 program looks the interface up once, as the first thing it
    does, and only if there is a sixth argument, which is the name it
    asks for.  The threads then get that name and, unchecked, the index
    that [if_nametoindex] returned (0, the default, for a name that is
    not known); without a sixth argument they get the name "default" and
    the index 0. *)
Theorem interface_lookup `{Libc.Host} (NOSSM : bool) (argv : list string) :
  forall tr,
    is_trace (Multicast6.main NOSSM argv) tr ->
    always (fun h c =>
              (forall name,
                  ifname_of c = Some name ->
                  h = [] /\ (Z.of_nat (List.length argv) >=? 6) = true /\
                  name = nth 5 argv "") /\
              (forall r pp,
                  thread_of c = Some (r, pp) ->
                  if Z.of_nat (List.length argv) >=? 6
                  then Multicast6.ifname pp = nth 5 argv "" /\
                       exists c0, In c0 h /\
                                  ifindex_of c0
                                  = Some (nth 5 argv "", Multicast6.ifidx pp)
                  else Multicast6.ifname pp = Multicast6.IFNAMEDEFAULT /\
                       Multicast6.ifidx pp = Multicast6.IFIDXDEFAULT))
           (calls tr).
Proof. intros tr. apply main6_interface. Qed.

(** "multicast6 send ff15::1 12345 - enp0s3" where enp0s3 has index 2. *)
Lemma interface_lookup_witness :
  always (fun h c =>
            forall r pp,
              thread_of c = Some (r, pp) ->
              Multicast6.ifname pp = "enp0s3" /\
              exists c0, In c0 h /\
                         ifindex_of c0 = Some ("enp0s3", Multicast6.ifidx pp))
         (calls (run 4 (answers calm) 0
                   (@Multicast6.main Libc.little_endian_host false
                      ["multicast6"; "send"; "ff15::1"; "12345"; "-";
                       "enp0s3"]))).
Proof.
  eapply always_after_weaken;
    [|eapply (@interface_lookup Libc.little_endian_host false
                ["multicast6"; "send"; "ff15::1"; "12345"; "-"; "enp0s3"]);
      apply run_is_trace].
  intros h c [_ Hth]. exact Hth.
Defined.



(** ** The join lines and the sanitising loop *)

Ltac join_line :=
  read_more;
  let Hp := fresh "Hp" in
  intros ? ? Hp;
  first
    [ discriminate Hp
    | apply Some_inj in Hp; injection Hp as <- <-;
      split;
      (let Hpre := fresh "Hpre" in
       intros Hpre; vm_compute in Hpre;
       first [ discriminate Hpre | find_done ]) ].

Section JoinLines.
Import Libc Sys.
Context `{Host}.

Lemma recv_iteration_join_line (is_asm is_ssm : call Multicast.E -> bool)
      sock h buffer tr :
  True ->
  is_trace (Multicast.recv_iteration sock buffer) tr ->
  always_after h
    (fun h c =>
       forall format args,
         printf_of c = Some (format, args) ->
         (String.prefix "Joined ASM" format = true ->
          done_before is_asm h) /\
         (String.prefix "Joined SSM" format = true ->
          done_before is_ssm h))
    (calls tr) /\
  match trace_ret tr with
  | None => True
  | Some (inl _) => calls tr <> [] /\ True
  | Some (inr _) => False
  end.
Proof.
  intros _ Htr. unfold Multicast.recv_iteration in Htr.
  unroll Htr; turn idtac next_turn; join_line.
Qed.

Lemma recv_iteration6_join_line (is_asm is_ssm : call Multicast6.E -> bool)
      sock h buffer tr :
  True ->
  is_trace (Multicast6.recv_iteration sock buffer) tr ->
  always_after h
    (fun h c =>
       forall format args,
         printf_of c = Some (format, args) ->
         (String.prefix "Joined ASM" format = true ->
          done_before is_asm h) /\
         (String.prefix "Joined SSM" format = true ->
          done_before is_ssm h))
    (calls tr) /\
  match trace_ret tr with
  | None => True
  | Some (inl _) => calls tr <> [] /\ True
  | Some (inr _) => False
  end.
Proof.
  intros _ Htr. unfold Multicast6.recv_iteration in Htr.
  unroll Htr; turn idtac next_turn; join_line.
Qed.

Lemma recv_thread_join_line NOSSM pp tr :
  is_trace (Multicast.recv_thread NOSSM pp) tr ->
  always (fun h c =>
            forall format args,
              printf_of c = Some (format, args) ->
              (String.prefix "Joined ASM" format = true ->
               done_before Multicast.is_asm_join h) /\
              (String.prefix "Joined SSM" format = true ->
               done_before Multicast.is_ssm_join h))
         (calls tr).
Proof.
  unfold Multicast.recv_thread, always, or_die, do_exit. intros Htr.
  unroll Htr; each_call.
  all: try (eapply (@always_iter_bind _ _ _ _ _ _ (fun _ _ => True));
            [ | | eassumption ];
            [ cbv beta; intros; eapply recv_iteration_join_line; eassumption
            | exact I ]).
  all: join_line.
Qed.

Lemma recv_thread6_join_line NOSSM pp tr :
  is_trace (Multicast6.recv_thread NOSSM pp) tr ->
  always (fun h c =>
            forall format args,
              printf_of c = Some (format, args) ->
              (String.prefix "Joined ASM" format = true ->
               done_before Multicast6.is_asm_join h) /\
              (String.prefix "Joined SSM" format = true ->
               done_before Multicast6.is_ssm_join h))
         (calls tr).
Proof.
  unfold Multicast6.recv_thread, always, or_die, do_exit. intros Htr.
  unroll Htr; each_call.
  all: try (eapply (@always_iter_bind _ _ _ _ _ _ (fun _ _ => True));
            [ | | eassumption ];
            [ cbv beta; intros; eapply recv_iteration6_join_line; eassumption
            | exact I ]).
  all: join_line.
Qed.
End JoinLines.

(** A receiver reports a join only after the join: a line that starts
    with "Joined ASM" is printed only after a successful ASM join
    (IP_ADD_MEMBERSHIP, IPV6_JOIN_GROUP), and one that starts with
    "Joined SSM" only after a successful source-specific join
    (IP_ADD_SOURCE_MEMBERSHIP, MCAST_JOIN_SOURCE_GROUP). *)
Theorem join_reported `{Libc.Host} (NOSSM : bool) :
  (forall pp tr,
      is_trace (Multicast.recv_thread NOSSM pp) tr ->
      always (fun h c =>
                forall format args,
                  printf_of c = Some (format, args) ->
                  (String.prefix "Joined ASM" format = true ->
                   done_before Multicast.is_asm_join h) /\
                  (String.prefix "Joined SSM" format = true ->
                   done_before Multicast.is_ssm_join h))
             (calls tr)) /\
  (forall pp tr,
      is_trace (Multicast6.recv_thread NOSSM pp) tr ->
      always (fun h c =>
                forall format args,
                  printf_of c = Some (format, args) ->
                  (String.prefix "Joined ASM" format = true ->
                   done_before Multicast6.is_asm_join h) /\
                  (String.prefix "Joined SSM" format = true ->
                   done_before Multicast6.is_ssm_join h))
             (calls tr)).
Proof.
  split; intros pp tr.
  - apply recv_thread_join_line.
  - apply recv_thread6_join_line.
Qed.

(** The receiver of "multicast6 recv ff15::1 12345". *)
Lemma join_reported_witness :
  always (fun h c =>
            forall format args,
              printf_of c = Some (format, args) ->
              (String.prefix "Joined ASM" format = true ->
               done_before Multicast6.is_asm_join h) /\
              (String.prefix "Joined SSM" format = true ->
               done_before Multicast6.is_ssm_join h))
         (calls (run 12 (answers calm) 0
                   (@Multicast6.recv_thread Libc.little_endian_host false
                      (@Multicast6.parse_args Libc.little_endian_host false
                         ["multicast6"; "recv"; "ff15::1"; "12345"])))).
Proof.
  eapply (proj2 (@join_reported Libc.little_endian_host false)).
  apply run_is_trace.
Defined.

Section SanitizingLoop.
Import Libc Sys.

Lemma sanitize_loop_prefix n : forall buffer,
  (n <= List.length buffer)%nat ->
  sanitize_loop n 0 buffer =
  List.map sanitized (firstn n buffer) ++ skipn n buffer.
Proof.
  intros buffer Hn.
  exact (@sanitize_loop_from n [] buffer Hn).
Qed.

Lemma sanitized_idempotent c : sanitized (sanitized c) = sanitized c.
Proof.
  unfold sanitized at 2 3.
  destruct (isprint (char_to_int c)) eqn:Hp.
  - unfold sanitized. rewrite Hp. reflexivity.
  - reflexivity.
Qed.
End SanitizingLoop.

(** The loop that makes a buffer printable, run over the first [n] bytes
    of a buffer that has as many: it replaces each of these bytes that is
    not printable by a dot, and leaves the printable ones, the bytes after
    them (what is left of an earlier, longer datagram) and the length of
    the buffer as they are; run a second time it changes nothing. *)
Theorem sanitizing_loop (n : nat) (buffer : list ascii) :
  (n <= List.length buffer)%nat ->
  Sys.sanitize_loop n 0 buffer
  = List.map Sys.sanitized (firstn n buffer) ++ skipn n buffer /\
  List.length (Sys.sanitize_loop n 0 buffer) = List.length buffer /\
  Sys.sanitize_loop n 0 (Sys.sanitize_loop n 0 buffer)
  = Sys.sanitize_loop n 0 buffer.
Proof.
  intros Hn. rewrite sanitize_loop_prefix by exact Hn.
  assert (Hlen : List.length
                   (List.map Sys.sanitized (firstn n buffer) ++ skipn n buffer)
                 = List.length buffer).
  { rewrite length_app, length_map, length_firstn, length_skipn. lia. }
  split; [reflexivity|]. split; [exact Hlen|].
  rewrite sanitize_loop_prefix by lia.
  rewrite firstn_app, skipn_app, length_map, length_firstn.
  replace (n - Nat.min n (List.length buffer))%nat with 0%nat by lia.
  rewrite firstn_O, app_nil_r. cbn [skipn].
  rewrite (firstn_all2 (n := n)) by (rewrite length_map, length_firstn; lia).
  rewrite (skipn_all2 (n := n)) by (rewrite length_map, length_firstn; lia).
  rewrite List.map_map. cbn [app]. f_equal.
  apply List.map_ext. intros c. apply sanitized_idempotent.
Qed.

(** Three bytes of "a\nb" and what an earlier datagram left. *)
Lemma sanitizing_loop_witness :
  Sys.sanitize_loop 3 0 ["a"; "010"; "b"; "x"; "000"]%char
  = ["a"; "."; "b"; "x"; "000"]%char.
Proof.
  exact (proj1 (@sanitizing_loop 3 ["a"; "010"; "b"; "x"; "000"]%char
                  ltac:(simpl; lia))).
Defined.
